(** * Week1-Ecom: cart, checkout summary and place-order handlers

    A shallow embedding of the checkout worker (the second module of
    [src/realtime_worker.js], routes [/api/cart/items],
    [/api/checkout/summary] and [/api/checkout/place-order]) over an
    explicit model of the D1 tables it reads and writes (schema in
    [src/edge_router_worker.js]).

    Modelling conventions.
    - SQL INTEGER columns and JS numbers holding cents or quantities are
      [Z].  The two floating-point expressions of the source are taken on
      integers: [Math.floor(s * 0.1)] is [s / 10] (floored division) and
      [Math.ceil(c * 1.6)] is the ceiling of [8 * c / 5]; the double
      products agree with these on every integer whose magnitude stays in
      the exactly representable range.
    - TEXT columns are [string]; [toLowerCase]/[toUpperCase] change the
      ASCII letters only, which is all the comparisons against
      ['standard'] and ['express'] can observe.
    - Tables keyed by a primary key that the handlers upsert or delete by
      key are [gmap]s; tables the handlers scan are lists in row order.
    - A handler is a function from the database to a response and the
      database it leaves behind.  Reads are taken to succeed; each
      statement of the place-order commit may throw, which the handler's
      [catch] turns into a 500 response ([fail_at] names the statement).
    - The notification and logging calls that follow the commit touch no
      table and do not change the response; they are left out. *)

From Stdlib Require Import ZArith Lia Bool List Ascii String Sorted Permutation.
From stdpp Require Import base option list gmap strings fin_maps.

Open Scope string_scope.
Open Scope Z_scope.

(** ** JS string helpers *)

Definition lower_ascii (c : ascii) : ascii :=
  let n := N_of_ascii c in
  if ((65 <=? n) && (n <=? 90))%N then ascii_of_N (n + 32) else c.

Definition upper_ascii (c : ascii) : ascii :=
  let n := N_of_ascii c in
  if ((97 <=? n) && (n <=? 122))%N then ascii_of_N (n - 32) else c.

Fixpoint toLowerCase (s : string) : string :=
  match s with
  | EmptyString => EmptyString
  | String c r => String (lower_ascii c) (toLowerCase r)
  end.

Fixpoint toUpperCase (s : string) : string :=
  match s with
  | EmptyString => EmptyString
  | String c r => String (upper_ascii c) (toUpperCase r)
  end.

(** [s || d] on a string: the empty string is falsy. *)
Definition str_or (s d : string) : string :=
  if String.eqb s "" then d else s.

(** ** JS number helpers *)

(** [Math.floor(subtotal_cents * 0.1)] *)
Definition floor_tenth (subtotal_cents : Z) : Z := subtotal_cents / 10.

(** [Math.ceil(c * 1.6)] *)
Definition ceil_1_6 (c : Z) : Z := - ((- (8 * c)) / 5).

(** [Math.ceil(c * 1.6) + 200] *)
Definition surcharge (c : Z) : Z := ceil_1_6 c + 200.

(** ** Rows *)

Record shipping_method := {
  sm_id : string;
  sm_name : string;
  sm_zone : string;
  sm_speed : string;
  sm_base_cents : Z;
  sm_per_kg_cents : Z;
  sm_free_over_cents : option Z;
  sm_active : Z
}.

(** One element of [shipping_options] in the summary response. *)
Record shipping_option := {
  so_id : string;
  so_name : string;
  so_zone : string;
  so_speed : string;
  so_cost_cents : Z
}.

Definition set_cost (o : shipping_option) (c : Z) : shipping_option :=
  {| so_id := so_id o; so_name := so_name o; so_zone := so_zone o;
     so_speed := so_speed o; so_cost_cents := c |}.

(** ** Shipping cost, as the summary handler computes it *)

(** [m.free_over_cents != null && subtotal_cents >= Number(m.free_over_cents)] *)
Definition free_over_reached (free_over_cents : option Z) (subtotal_cents : Z) : bool :=
  match free_over_cents with
  | Some f => f <=? subtotal_cents
  | None => false
  end.

(** The body of the [.map((m) => ...)] callback: base cost, free
    threshold, then the cap. *)
Definition capped_cost (base_cents : Z) (free_over_cents : option Z)
    (subtotal_cents : Z) : Z :=
  let cap := floor_tenth subtotal_cents in
  let cost := base_cents in
  let cost := if free_over_reached free_over_cents subtotal_cents then 0 else cost in
  if (0 <? cost) && (0 <? cap) then Z.min cost cap else cost.

Definition option_of_method (subtotal_cents : Z) (m : shipping_method) : shipping_option :=
  {| so_id := sm_id m; so_name := sm_name m; so_zone := sm_zone m;
     so_speed := sm_speed m;
     so_cost_cents :=
       capped_cost (sm_base_cents m) (sm_free_over_cents m) subtotal_cents |}.

Definition has_speed (speed : string) (s : string) : bool :=
  String.eqb (toLowerCase (str_or s "")) speed.

(** In-place update of the object that [Array.prototype.find] returned:
    the first element satisfying [p] is replaced, the others are kept. *)
Fixpoint update_first {A} (p : A -> bool) (f : A -> A) (l : list A) : list A :=
  match l with
  | [] => []
  | x :: r => if p x then f x :: r else x :: update_first p f r
  end.

(** The predicates of the two [find] calls of the tie-break:
    [(m.speed || '').toLowerCase() === 'standard'] and the same for
    ['express']. *)
Definition is_standard (o : shipping_option) : bool := has_speed "standard" (so_speed o).
Definition is_express (o : shipping_option) : bool := has_speed "express" (so_speed o).

(** [express.cost_cents = Math.ceil(express.cost_cents * 1.6) + 200] *)
Definition recompute (o : shipping_option) : shipping_option :=
  set_cost o (surcharge (so_cost_cents o)).

(** The tie-break block that follows the map. *)
Definition tie_break (shipping_options : list shipping_option) : list shipping_option :=
  if (2 <=? length shipping_options)%nat then
    match List.find is_standard shipping_options,
          List.find is_express shipping_options with
    | Some standard, Some express =>
        if (so_cost_cents standard =? so_cost_cents express)
           && (0 <? so_cost_cents express)
        then update_first is_express recompute shipping_options
        else shipping_options
    | _, _ => shipping_options
    end
  else shipping_options.

(** [shipping_options] of the summary, from the rows of the zone. *)
Definition summary_shipping_options (rows : list shipping_method)
    (subtotal_cents : Z) : list shipping_option :=
  tie_break (map (option_of_method subtotal_cents) rows).

(** ** Shipping cost, as the place-order handler computes it *)

(** Step 5 of the handler; [alt] is the result of the second query over
    the zone's active methods. *)
Definition place_shipping_cents (shippingMethod : shipping_method)
    (alt : list shipping_method) (subtotal_cents : Z) : Z :=
  let shipping_cents := sm_base_cents shippingMethod in
  let shipping_cents :=
    if free_over_reached (sm_free_over_cents shippingMethod) subtotal_cents
    then 0 else shipping_cents in
  let shipping_cents :=
    if has_speed "express" (sm_speed shippingMethod) && (0 <? shipping_cents) then
      match List.find (fun r => has_speed "standard" (sm_speed r)) alt with
      | Some computedPeer =>
          let peerCost :=
            capped_cost (sm_base_cents computedPeer)
              (sm_free_over_cents computedPeer) subtotal_cents in
          if (peerCost =? shipping_cents) && (0 <? shipping_cents)
          then surcharge shipping_cents
          else shipping_cents
      | None => shipping_cents
      end
    else shipping_cents in
  let cap := floor_tenth subtotal_cents in
  if (0 <? shipping_cents) && (0 <? cap) then Z.min shipping_cents cap
  else shipping_cents.

(** ** Tables *)

Record product := {
  p_title : string;
  p_price_cents : Z;
  p_currency : string;
  p_status : string;
  p_seller_id : option string
}.

Record inventory_row := {
  inv_stock : Z;
  inv_reserved : Z;
  inv_updated_at : string
}.

Record cart_item := {
  ci_qty : Z;
  ci_updated_at : string
}.

Record address := {
  a_id : string;
  a_user_id : string;
  a_country : string;
  a_is_default_shipping : Z;
  a_is_default_billing : Z;
  a_created_at : string
}.

Record order := {
  o_id : string;
  o_user_id : string;
  o_status : string;
  o_subtotal_cents : Z;
  o_shipping_cents : Z;
  o_tax_cents : Z;
  o_total_cents : Z;
  o_currency : string;
  o_shipping_address_id : string;
  o_billing_address_id : string;
  o_shipping_method_id : string;
  o_created_at : string;
  o_updated_at : string
}.

Record order_item := {
  oi_id : string;
  oi_order_id : string;
  oi_product_id : string;
  oi_title_snapshot : string;
  oi_price_cents : Z;
  oi_qty : Z
}.

(** [products] and [inventory] are keyed by product id, [cart_items] by
    (user id, product id); the other tables are kept in row order. *)
Record db := {
  products : gmap string product;
  inventory : gmap string inventory_row;
  cart_items : gmap (string * string) cart_item;
  addresses : list address;
  shipping_methods : list shipping_method;
  orders : list order;
  order_items : list order_item
}.

Definition with_cart_items (d : db) (c : gmap (string * string) cart_item) : db :=
  {| products := products d; inventory := inventory d; cart_items := c;
     addresses := addresses d; shipping_methods := shipping_methods d;
     orders := orders d; order_items := order_items d |}.

Definition with_inventory (d : db) (i : gmap string inventory_row) : db :=
  {| products := products d; inventory := i; cart_items := cart_items d;
     addresses := addresses d; shipping_methods := shipping_methods d;
     orders := orders d; order_items := order_items d |}.

Definition with_orders (d : db) (o : list order) : db :=
  {| products := products d; inventory := inventory d; cart_items := cart_items d;
     addresses := addresses d; shipping_methods := shipping_methods d;
     orders := o; order_items := order_items d |}.

Definition with_order_items (d : db) (oi : list order_item) : db :=
  {| products := products d; inventory := inventory d; cart_items := cart_items d;
     addresses := addresses d; shipping_methods := shipping_methods d;
     orders := orders d; order_items := oi |}.

(** One row of the cart query shared by the cart, summary and place-order
    handlers: [cart_items JOIN products LEFT JOIN inventory]. *)
Record cart_line := {
  cl_product_id : string;
  cl_qty : Z;
  cl_title : string;
  cl_price_cents : Z;
  cl_currency : string;
  cl_stock : option Z;
  cl_reserved : option Z
}.

Definition join_cart_row (d : db) (user_id : string)
    (row : string * string * cart_item) : option cart_line :=
  let '(u, product_id, ci) := row in
  if decide (u = user_id) then
    match products d !! product_id with
    | Some p =>
        Some {| cl_product_id := product_id; cl_qty := ci_qty ci;
                cl_title := p_title p; cl_price_cents := p_price_cents p;
                cl_currency := p_currency p;
                cl_stock := inv_stock <$> inventory d !! product_id;
                cl_reserved := inv_reserved <$> inventory d !! product_id |}
    | None => None
    end
  else None.

Definition load_cart (d : db) (user_id : string) : list cart_line :=
  omap (join_cart_row d user_id) (map_to_list (cart_items d)).

(** [Number(x || 0)] on a nullable INTEGER column. *)
Definition num_or0 (x : option Z) : Z := default 0 x.

(** ** Responses *)

Record order_summary := {
  os_id : string;
  os_status : string;
  os_subtotal_cents : Z;
  os_shipping_cents : Z;
  os_tax_cents : Z;
  os_total_cents : Z;
  os_currency : string;
  os_shipping_method : string * string * string;
  os_shipping_address_id : string;
  os_billing_address_id : string
}.

(** The JSON bodies the three handlers can send. *)
Inductive body :=
  | NotAuthenticated
  | InvalidJsonBody
  | ValidationFailed (details : list string)
  | ProductNotAvailable
  | OwnProduct
  | ItemNotInCart
  | RemoveTooMany (current_qty : Z)
  | InvalidOperation
  | OutOfStock (available : Z)
  | ExceedsAvailable (available : Z)
  | CartRemoved (qty : Z)
  | CartUpdated (qty available : Z)
  | CartEmpty
  | NoAddresses
  | NoShippingMethods (zone : string)
  | SummaryOk (items : list cart_line) (subtotal_cents : Z)
      (addresses : list address) (selected_shipping_address_id : string)
      (shipping_options : list shipping_option)
  | InsufficientStock (product_id : string) (available : Z)
  | ShippingAddressNotFound
  | InvalidShippingMethod
  | ZoneMismatch (method_zone zone : string)
  | OrderPlaced (o : order_summary)
  | InternalError.

Record response := json { r_body : body; r_status : Z }.

(** The [ok] field of the envelope. *)
Definition r_ok (r : response) : bool :=
  match r_body r with
  | CartRemoved _ | CartUpdated _ _ | SummaryOk _ _ _ _ _ | OrderPlaced _ => true
  | _ => false
  end.

(** Early [return json(...)]: the computation so far either has a response
    to send or a value to go on with. *)
Notation "'get' x <~ e 'in' k" :=
  (match e with inl r => inl r | inr x => k end)
  (at level 10, x pattern, e at level 100, k at level 200).
Notation "'reply' r 'when' b 'in' k" :=
  (if b then inl r else k)
  (at level 10, b at level 100, r at level 100, k at level 200).

(** ** POST /api/cart/items *)

(** The request body as parsed JSON; an absent key is [None]. *)
Record cart_body := {
  cb_product_id : option string;
  cb_qty : option Z;
  cb_operation : option string
}.

Record cart_value := {
  cv_product_id : string;
  cv_qty : Z;
  cv_operation : string
}.

Definition valid_operation (o : string) : bool :=
  String.eqb o "set" || String.eqb o "add" || String.eqb o "remove".

(** [cartUpdateSchema.validate(body, { abortEarly: false })]: every failing
    key is reported; [operation] defaults to ['set']. *)
Definition cartUpdateSchema (b : cart_body) : list string + cart_value :=
  let e_pid :=
    match cb_product_id b with
    | Some s => if (1 <=? Z.of_nat (String.length s)) then [] else ["product_id"]
    | None => ["product_id"]
    end in
  let e_qty :=
    match cb_qty b with
    | Some q => if (1 <=? q) && (q <=? 999) then [] else ["qty"]
    | None => ["qty"]
    end in
  let e_op :=
    match cb_operation b with
    | Some o => if valid_operation o then [] else ["operation"]
    | None => []
    end in
  match (e_pid ++ e_qty ++ e_op)%list, cb_product_id b, cb_qty b with
  | [], Some s, Some q =>
      inr {| cv_product_id := s; cv_qty := q;
             cv_operation := default "set" (cb_operation b) |}
  | errs, _, _ => inl errs
  end.

(** What the handler decides before it writes: delete the line, or upsert
    it with a quantity. *)
Inductive cart_write :=
  | DeleteLine (existing : bool)
  | UpsertLine (newQty available : Z).

(** Step 2 of the handler: [available = stock - reserved], both 0 when the
    product has no inventory row. *)
Definition available_of (d : db) (product_id : string) : Z :=
  let inv := inventory d !! product_id in
  let stock := match inv with Some i => inv_stock i | None => 0 end in
  let reserved := match inv with Some i => inv_reserved i | None => 0 end in
  stock - reserved.

(** Step 3 of the handler: [existing ? Number(existing.qty || 0) : 0]. *)
Definition current_qty (d : db) (user_id product_id : string) : Z :=
  match cart_items d !! (user_id, product_id) with
  | Some ci => ci_qty ci
  | None => 0
  end.

Definition cart_decide (d : db) (auth : option string) (body : option cart_body)
    : response + (string * string * cart_write) :=
  get user_id <~ match auth with
             | Some u => inr u
             | None => inl (json NotAuthenticated 401)
             end in
  get raw <~ match body with
         | Some b => inr b
         | None => inl (json InvalidJsonBody 400)
         end in
  get value <~ match cartUpdateSchema raw with
           | inr v => inr v
           | inl details => inl (json (ValidationFailed details) 400)
           end in
  let product_id := cv_product_id value in
  let qty := cv_qty value in
  let operation := cv_operation value in
  (* 1) product must exist and be active *)
  get product <~ match products d !! product_id with
             | Some p =>
                 if String.eqb (p_status p) "active" then inr p
                 else inl (json ProductNotAvailable 404)
             | None => inl (json ProductNotAvailable 404)
             end in
  reply json OwnProduct 403
    when match p_seller_id product with
         | Some s => negb (String.eqb s "") && String.eqb s user_id
         | None => false
         end in
  (* 2) inventory *)
  let available := available_of d product_id in
  (* 3) current line *)
  let existing := cart_items d !! (user_id, product_id) in
  let currentQty := current_qty d user_id product_id in
  (* 4) new quantity *)
  get newQty <~ (if String.eqb operation "set" then inr qty
             else if String.eqb operation "add" then inr (currentQty + qty)
             else if String.eqb operation "remove" then
               match existing with
               | None => inl (json ItemNotInCart 404)
               | Some _ =>
                   if currentQty <? qty
                   then inl (json (RemoveTooMany currentQty) 400)
                   else inr (currentQty - qty)
               end
             else inl (json InvalidOperation 400)) in
  (* 5) stock limit when increasing *)
  let isIncreasing :=
    (String.eqb operation "set" || String.eqb operation "add")
    && (currentQty <? newQty) in
  reply json (OutOfStock 0) 400 when isIncreasing && (available <=? 0) in
  reply json (ExceedsAvailable available) 400
    when isIncreasing && (available <? newQty) in
  (* 6), 7) *)
  if newQty <=? 0
  then inr (user_id, product_id, DeleteLine (bool_decide (is_Some existing)))
  else inr (user_id, product_id, UpsertLine newQty available).

Definition cart_items_post (auth : option string) (body : option cart_body)
    (now : string) (d : db) : response * db :=
  match cart_decide d auth body with
  | inl r => (r, d)
  | inr (user_id, product_id, DeleteLine existing) =>
      (json (CartRemoved 0) 200,
       if existing
       then with_cart_items d (delete (user_id, product_id) (cart_items d))
       else d)
  | inr (user_id, product_id, UpsertLine newQty available) =>
      (json (CartUpdated newQty available) 200,
       with_cart_items d
         (<[(user_id, product_id) := {| ci_qty := newQty; ci_updated_at := now |}]>
            (cart_items d)))
  end.

(** ** GET /api/checkout/summary *)

(** [ORDER BY created_at DESC] over the user's addresses. *)
Fixpoint insert_by_created_desc (a : address) (l : list address) : list address :=
  match l with
  | [] => [a]
  | b :: r =>
      if String.leb (a_created_at b) (a_created_at a) then a :: l
      else b :: insert_by_created_desc a r
  end.

Definition addresses_of (d : db) (user_id : string) : list address :=
  foldr insert_by_created_desc []
    (List.filter (fun a => String.eqb (a_user_id a) user_id) (addresses d)).

(** [(shippingAddress.country || 'IN').toUpperCase()] *)
Definition zone_of (a : address) : string := toUpperCase (str_or (a_country a) "IN").

(** [WHERE active = 1 AND zone = ?] *)
Definition active_methods_of_zone (d : db) (zone : string) : list shipping_method :=
  List.filter (fun m => (sm_active m =? 1) && String.eqb (sm_zone m) zone)
    (shipping_methods d).

(** [items.reduce((sum, item) => sum + price * qty, 0)] *)
Definition reduce_subtotal (items : list cart_line) : Z :=
  fold_left (fun sum item => sum + cl_price_cents item * cl_qty item) items 0.

Definition summary_response (auth : option string) (d : db) : response :=
  match auth with
  | None => json NotAuthenticated 401
  | Some user_id =>
      let items := load_cart d user_id in
      if (length items =? 0)%nat then json CartEmpty 400 else
      let subtotal_cents := reduce_subtotal items in
      let addresses := addresses_of d user_id in
      match addresses with
      | [] => json NoAddresses 400
      | first :: _ =>
          let shippingAddress :=
            default first
              (List.find (fun a => negb (a_is_default_shipping a =? 0)) addresses) in
          let zone := zone_of shippingAddress in
          let shippingRows := active_methods_of_zone d zone in
          let shipping_options := map (option_of_method subtotal_cents) shippingRows in
          if (length shipping_options =? 0)%nat
          then json (NoShippingMethods zone) 500
          else json (SummaryOk items subtotal_cents addresses
                       (a_id shippingAddress) (tie_break shipping_options)) 200
      end
  end.

(** The handler only reads. *)
Definition checkout_summary (auth : option string) (d : db) : response * db :=
  (summary_response auth d, d).

(** ** POST /api/checkout/place-order *)

Record place_body := {
  pb_shipping_method_id : option string;
  pb_shipping_address_id : option string;
  pb_billing_address_id : option string
}.

Record place_value := {
  pv_shipping_method_id : string;
  pv_shipping_address_id : string;
  pv_billing_address_id : option string
}.

Definition nonempty (s : string) : bool := negb (String.eqb s "").

(** [checkoutPlaceSchema.validate]: [Joi.string()] accepts any non-empty
    string; the two shipping keys are required, the billing key is not. *)
Definition checkoutPlaceSchema (b : place_body) : list string + place_value :=
  let required (key : string) (v : option string) : list string :=
    match v with
    | Some s => if nonempty s then [] else [key]
    | None => [key]
    end in
  let e_billing :=
    match pb_billing_address_id b with
    | Some s => if nonempty s then [] else ["billing_address_id"]
    | None => []
    end in
  match (required "shipping_method_id" (pb_shipping_method_id b)
         ++ required "shipping_address_id" (pb_shipping_address_id b)
         ++ e_billing)%list,
        pb_shipping_method_id b, pb_shipping_address_id b with
  | [], Some m, Some a =>
      inr {| pv_shipping_method_id := m; pv_shipping_address_id := a;
             pv_billing_address_id := pb_billing_address_id b |}
  | errs, _, _ => inl errs
  end.

(** Step 2: the loop that validates stock and accumulates the subtotal;
    it returns at the first line whose quantity exceeds what is available. *)
Fixpoint check_stock (items : list cart_line) (subtotal_cents : Z) : response + Z :=
  match items with
  | [] => inr subtotal_cents
  | item :: rest =>
      let price := cl_price_cents item in
      let qty := cl_qty item in
      let stock := num_or0 (cl_stock item) in
      let reserved := num_or0 (cl_reserved item) in
      let available := stock - reserved in
      if available <? qty
      then inl (json (InsufficientStock (cl_product_id item) available) 400)
      else check_stock rest (subtotal_cents + price * qty)
  end.

(** Everything the handler has computed when it reaches step 6. *)
Record place_plan := {
  pp_user_id : string;
  pp_items : list cart_line;
  pp_order : order;
  pp_method : shipping_method
}.

(** [value.billing_address_id || shippingAddress.id] *)
Definition billing_of (v : place_value) (shippingAddress : address) : string :=
  match pv_billing_address_id v with
  | Some b => str_or b (a_id shippingAddress)
  | None => a_id shippingAddress
  end.

Definition place_decide (d : db) (auth : option string) (body : option place_body)
    (now orderId : string) : response + place_plan :=
  get user_id <~ match auth with
                 | Some u => inr u
                 | None => inl (json NotAuthenticated 401)
                 end in
  get raw <~ match body with
             | Some b => inr b
             | None => inl (json InvalidJsonBody 400)
             end in
  get value <~ match checkoutPlaceSchema raw with
               | inr v => inr v
               | inl details => inl (json (ValidationFailed details) 400)
               end in
  let shipping_method_id := pv_shipping_method_id value in
  let shipping_address_id := pv_shipping_address_id value in
  (* 1) cart *)
  let items := load_cart d user_id in
  reply json CartEmpty 400 when (length items =? 0)%nat in
  (* 2) subtotal and stock *)
  get subtotal_cents <~ check_stock items 0 in
  (* 3) shipping address *)
  get shippingAddress <~
    match List.find (fun a => String.eqb (a_id a) shipping_address_id
                              && String.eqb (a_user_id a) user_id) (addresses d) with
    | Some a => inr a
    | None => inl (json ShippingAddressNotFound 400)
    end in
  let zone := zone_of shippingAddress in
  (* 4) shipping method *)
  get shippingMethod <~
    match List.find (fun m => String.eqb (sm_id m) shipping_method_id
                              && (sm_active m =? 1)) (shipping_methods d) with
    | Some m => inr m
    | None => inl (json InvalidShippingMethod 400)
    end in
  reply json (ZoneMismatch (sm_zone shippingMethod) zone) 400
    when negb (String.eqb (sm_zone shippingMethod) zone) in
  (* 5) shipping *)
  let shipping_cents :=
    place_shipping_cents shippingMethod (active_methods_of_zone d zone)
      subtotal_cents in
  let tax_cents := 0 in
  let total_cents := subtotal_cents + shipping_cents in
  let billing_address_id := billing_of value shippingAddress in
  inr {| pp_user_id := user_id;
         pp_items := items;
         pp_order :=
           {| o_id := orderId; o_user_id := user_id; o_status := "placed";
              o_subtotal_cents := subtotal_cents;
              o_shipping_cents := shipping_cents;
              o_tax_cents := tax_cents;
              o_total_cents := total_cents;
              o_currency := "USD";
              o_shipping_address_id := a_id shippingAddress;
              o_billing_address_id := billing_address_id;
              o_shipping_method_id := sm_id shippingMethod;
              o_created_at := now; o_updated_at := now |};
         pp_method := shippingMethod |}.

(** The statements of steps 6 to 8, each an independent [.run()]. *)
Inductive write :=
  | InsertOrder (o : order)
  | InsertOrderItem (oi : order_item)
  | DecrementStock (product_id : string) (qty : Z) (now : string)
  | ClearCart (user_id : string).

(** [SET stock = stock - ?, updated_at = ?] *)
Definition decremented (qty : Z) (now : string) (r : inventory_row) : inventory_row :=
  {| inv_stock := inv_stock r - qty;
     inv_reserved := inv_reserved r;
     inv_updated_at := now |}.

Definition apply_write (w : write) (d : db) : db :=
  match w with
  | InsertOrder o => with_orders d (orders d ++ [o])
  | InsertOrderItem oi => with_order_items d (order_items d ++ [oi])
  | DecrementStock product_id qty now =>
      with_inventory d (alter (decremented qty now) product_id (inventory d))
  | ClearCart user_id =>
      with_cart_items d (filter (fun kv => kv.1.1 ≠ user_id) (cart_items d))
  end.

(** Step 7: per line, the order-item insert then the stock update.  [ids]
    is the stream of [crypto.randomUUID()] results; [n] is the next one. *)
Fixpoint item_writes (ids : nat -> string) (n : nat) (orderId now : string)
    (items : list cart_line) : list write :=
  match items with
  | [] => []
  | item :: rest =>
      InsertOrderItem
        {| oi_id := ids n; oi_order_id := orderId;
           oi_product_id := cl_product_id item;
           oi_title_snapshot := cl_title item;
           oi_price_cents := cl_price_cents item;
           oi_qty := cl_qty item |}
      :: DecrementStock (cl_product_id item) (cl_qty item) now
      :: item_writes ids (S n) orderId now rest
  end.

Definition commit_writes (ids : nat -> string) (now : string) (p : place_plan)
    : list write :=
  (InsertOrder (pp_order p)
   :: item_writes ids 1 (o_id (pp_order p)) now (pp_items p)
   ++ [ClearCart (pp_user_id p)])%list.

(** The statements run one after the other; [fail_at = Some k] makes the
    statement of index [k] throw, which ends the handler in its [catch]. *)
Fixpoint run_writes (fail_at : option nat) (ws : list write) (d : db) : bool * db :=
  match ws with
  | [] => (true, d)
  | w :: rest =>
      match fail_at with
      | Some O => (false, d)
      | Some (S k) => run_writes (Some k) rest (apply_write w d)
      | None => run_writes None rest (apply_write w d)
      end
  end.

Definition order_summary_of (p : place_plan) : order_summary :=
  let o := pp_order p in
  {| os_id := o_id o; os_status := "placed";
     os_subtotal_cents := o_subtotal_cents o;
     os_shipping_cents := o_shipping_cents o;
     os_tax_cents := o_tax_cents o;
     os_total_cents := o_total_cents o;
     os_currency := "USD";
     os_shipping_method :=
       (sm_id (pp_method p), sm_name (pp_method p), sm_speed (pp_method p));
     os_shipping_address_id := o_shipping_address_id o;
     os_billing_address_id := o_billing_address_id o |}.

Definition place_order (auth : option string) (body : option place_body)
    (now : string) (ids : nat -> string) (fail_at : option nat) (d : db)
    : response * db :=
  match place_decide d auth body now (ids O) with
  | inl r => (r, d)
  | inr plan =>
      let '(done, d') := run_writes fail_at (commit_writes ids now plan) d in
      if done then (json (OrderPlaced (order_summary_of plan)) 200, d')
      else (json InternalError 500, d')
  end.

(** ** Names used in the statements *)

(** The cost the summary shows for a method, and the cost an accepted
    order was charged. *)
Definition quoted_cost (r : response) (method_id : string) : option Z :=
  match r_body r with
  | SummaryOk _ _ _ _ opts =>
      so_cost_cents <$> List.find (fun o => String.eqb (so_id o) method_id) opts
  | _ => None
  end.

Definition charged_cost (r : response) : option Z :=
  match r_body r with
  | OrderPlaced o => Some (os_shipping_cents o)
  | _ => None
  end.

(** Every positive quote is within the cap, in the summary and in the
    place-order computation. *)
Definition quotes_within_cap (rows : list shipping_method) (subtotal_cents : Z) : Prop :=
  (forall o, In o (summary_shipping_options rows subtotal_cents) ->
             0 < so_cost_cents o ->
             so_cost_cents o <= floor_tenth subtotal_cents)
  /\ (forall m, In m rows ->
                0 < place_shipping_cents m rows subtotal_cents ->
                place_shipping_cents m rows subtotal_cents
                <= floor_tenth subtotal_cents).

(** Any standard quote and any express quote that are equal and non-zero
    after the free-threshold and cap steps make that express quote
    recomputed. *)
Definition any_equal_pair_recomputed (rows : list shipping_method)
    (subtotal_cents : Z) : Prop :=
  let pre := map (option_of_method subtotal_cents) rows in
  forall i j s e,
    pre !! i = Some s -> pre !! j = Some e ->
    is_standard s = true -> is_express e = true ->
    so_cost_cents s = so_cost_cents e -> so_cost_cents e <> 0 ->
    so_cost_cents <$> summary_shipping_options rows subtotal_cents !! j
    = Some (surcharge (so_cost_cents e)).


(** ** Scenarios *)

Definition mk_method (id speed : string) (base_cents : Z)
    (free_over_cents : option Z) : shipping_method :=
  {| sm_id := id; sm_name := id; sm_zone := "IN"; sm_speed := speed;
     sm_base_cents := base_cents; sm_per_kg_cents := 0;
     sm_free_over_cents := free_over_cents; sm_active := 1 |}.

(** One buyer with three mugs at 500 in the cart, five in stock, one
    address in zone IN, and a standard and an express method of the same
    base cost. *)
Definition demo_db : db :=
  {| products :=
       {[ "p1" := {| p_title := "Mug"; p_price_cents := 500; p_currency := "USD";
                     p_status := "active"; p_seller_id := Some "seller" |} ]};
     inventory :=
       {[ "p1" := {| inv_stock := 5; inv_reserved := 0; inv_updated_at := "t0" |} ]};
     cart_items := {[ ("u1", "p1") := {| ci_qty := 3; ci_updated_at := "t0" |} ]};
     addresses :=
       [ {| a_id := "a1"; a_user_id := "u1"; a_country := "in";
            a_is_default_shipping := 1; a_is_default_billing := 0;
            a_created_at := "t0" |} ];
     shipping_methods :=
       [ mk_method "std" "standard" 5000 None;
         mk_method "exp" "express" 5000 None ];
     orders := [];
     order_items := [] |}.

Definition demo_ids (n : nat) : string :=
  match n with O => "order-1" | _ => "item-1" end.

Definition demo_place_body (method_id : string) (billing : option string) : place_body :=
  {| pb_shipping_method_id := Some method_id;
     pb_shipping_address_id := Some "a1";
     pb_billing_address_id := billing |}.


(** ** Cart sessions *)

(** The [qty] field of a successful cart response. *)
Definition reported_qty (r : response) : option Z :=
  match r_body r with
  | CartRemoved q => Some q
  | CartUpdated q _ => Some q
  | _ => None
  end.

Record cart_call := {
  cc_auth : option string;
  cc_body : option cart_body;
  cc_now : string
}.

(** A sequence of cart requests, each served on the database the previous
    one left. *)
Fixpoint run_cart (calls : list cart_call) (d : db) : list response * db :=
  match calls with
  | [] => ([], d)
  | c :: rest =>
      let '(r, d1) := cart_items_post (cc_auth c) (cc_body c) (cc_now c) d in
      let '(rs, d2) := run_cart rest d1 in
      (r :: rs, d2)
  end.

(** Every stored cart line has a quantity of at least 1. *)
Definition cart_inv (d : db) : Prop :=
  forall k ci, cart_items d !! k = Some ci -> 1 <= ci_qty ci.

Definition cart_request (product_id : string) (qty : Z) (operation : option string)
    : cart_body :=
  {| cb_product_id := Some product_id; cb_qty := Some qty;
     cb_operation := operation |}.


(** ** Orders and commits *)

(** [Σ price_cents × qty] over cart lines. *)
Definition sum_price_qty (items : list cart_line) : Z :=
  foldr (fun item acc => cl_price_cents item * cl_qty item + acc) 0 items.

(** The statements that ran before the failing one (all of them when none
    fails), and the database they leave. *)
Definition applied_prefix (fail_at : option nat) (ws : list write) : list write :=
  match fail_at with
  | Some k => take k ws
  | None => ws
  end.

Definition apply_writes (ws : list write) (d : db) : db :=
  fold_left (fun d w => apply_write w d) ws d.

(** The order-item rows of step 7, in cart order. *)
Fixpoint item_rows (ids : nat -> string) (n : nat) (orderId : string)
    (items : list cart_line) : list order_item :=
  match items with
  | [] => []
  | item :: rest =>
      {| oi_id := ids n; oi_order_id := orderId;
         oi_product_id := cl_product_id item;
         oi_title_snapshot := cl_title item;
         oi_price_cents := cl_price_cents item;
         oi_qty := cl_qty item |}
      :: item_rows ids (S n) orderId rest
  end.

(** The inventory after the stock updates of step 7. *)
Definition decrement_all (now : string) (items : list cart_line)
    (inv : gmap string inventory_row) : gmap string inventory_row :=
  fold_left (fun inv item =>
               alter (decremented (cl_qty item) now) (cl_product_id item) inv)
            items inv.

Definition with_billing (raw : place_body) (billing : option string) : place_body :=
  {| pb_shipping_method_id := pb_shipping_method_id raw;
     pb_shipping_address_id := pb_shipping_address_id raw;
     pb_billing_address_id := billing |}.

Definition order_with_billing (o : order) (b : string) : order :=
  {| o_id := o_id o; o_user_id := o_user_id o; o_status := o_status o;
     o_subtotal_cents := o_subtotal_cents o;
     o_shipping_cents := o_shipping_cents o;
     o_tax_cents := o_tax_cents o;
     o_total_cents := o_total_cents o;
     o_currency := o_currency o;
     o_shipping_address_id := o_shipping_address_id o;
     o_billing_address_id := b;
     o_shipping_method_id := o_shipping_method_id o;
     o_created_at := o_created_at o; o_updated_at := o_updated_at o |}.

Definition plan_with_billing (p : place_plan) (b : string) : place_plan :=
  {| pp_user_id := pp_user_id p; pp_items := pp_items p;
     pp_order := order_with_billing (pp_order p) b;
     pp_method := pp_method p |}.


(** What place-order has computed for the buyer of [demo_db] choosing the
    standard method: subtotal 1500, cap 150, shipping 150, total 1650. *)
Definition demo_plan : place_plan :=
  {| pp_user_id := "u1";
     pp_items :=
       [ {| cl_product_id := "p1"; cl_qty := 3; cl_title := "Mug";
            cl_price_cents := 500; cl_currency := "USD";
            cl_stock := Some 5; cl_reserved := Some 0 |} ];
     pp_order :=
       {| o_id := "order-1"; o_user_id := "u1"; o_status := "placed";
          o_subtotal_cents := 1500; o_shipping_cents := 150;
          o_tax_cents := 0; o_total_cents := 1650; o_currency := "USD";
          o_shipping_address_id := "a1"; o_billing_address_id := "a1";
          o_shipping_method_id := "std";
          o_created_at := "t1"; o_updated_at := "t1" |};
     pp_method := mk_method "std" "standard" 5000 None |}.

(** Two cart requests of the buyer of [demo_db]: one more mug, then four
    mugs removed. *)
Definition demo_calls : list cart_call :=
  [ {| cc_auth := Some "u1"; cc_body := Some (cart_request "p1" 1 (Some "add"));
       cc_now := "t1" |};
    {| cc_auth := Some "u1"; cc_body := Some (cart_request "p1" 4 (Some "remove"));
       cc_now := "t2" |} ].


(** * The read handlers of the checkout worker *)

(** An answer of one of the handlers below: their bodies are kept apart
    from those of the cart-update, summary and place-order handlers. *)
Record answer (B : Type) := send { sent_body : B; sent_status : Z }.
Arguments send {B} _ _.
Arguments sent_body {B} _.
Arguments sent_status {B} _.

(** ** GET /api/cart *)

Inductive cart_get_body :=
  | CartGetNotAuthenticated
  | CartContents (items : list cart_line) (subtotal_cents : Z).

Definition cart_get (auth : option string) (d : db) : answer cart_get_body :=
  match auth with
  | None => send CartGetNotAuthenticated 401
  | Some user_id =>
      let items := load_cart d user_id in
      let subtotal_cents := reduce_subtotal items in
      send (CartContents items subtotal_cents) 200
  end.

(** ** GET /api/orders and GET /api/orders/:id *)

(** The columns both order queries select: every column but [user_id]. *)
Record order_view := {
  ov_id : string;
  ov_status : string;
  ov_subtotal_cents : Z;
  ov_shipping_cents : Z;
  ov_tax_cents : Z;
  ov_total_cents : Z;
  ov_currency : string;
  ov_shipping_address_id : string;
  ov_billing_address_id : string;
  ov_shipping_method_id : string;
  ov_created_at : string;
  ov_updated_at : string
}.

Definition view_of_order (o : order) : order_view :=
  {| ov_id := o_id o; ov_status := o_status o;
     ov_subtotal_cents := o_subtotal_cents o;
     ov_shipping_cents := o_shipping_cents o;
     ov_tax_cents := o_tax_cents o;
     ov_total_cents := o_total_cents o;
     ov_currency := o_currency o;
     ov_shipping_address_id := o_shipping_address_id o;
     ov_billing_address_id := o_billing_address_id o;
     ov_shipping_method_id := o_shipping_method_id o;
     ov_created_at := o_created_at o; ov_updated_at := o_updated_at o |}.

(** The columns the order-detail query selects from [order_items]. *)
Record order_item_view := {
  oiv_product_id : string;
  oiv_title_snapshot : string;
  oiv_price_cents : Z;
  oiv_qty : Z
}.

Definition view_of_order_item (oi : order_item) : order_item_view :=
  {| oiv_product_id := oi_product_id oi;
     oiv_title_snapshot := oi_title_snapshot oi;
     oiv_price_cents := oi_price_cents oi;
     oiv_qty := oi_qty oi |}.

(** [ORDER BY created_at DESC] over the user's orders. *)
Fixpoint insert_order_desc (o : order) (l : list order) : list order :=
  match l with
  | [] => [o]
  | b :: r =>
      if String.leb (o_created_at b) (o_created_at o) then o :: l
      else b :: insert_order_desc o r
  end.

Definition orders_of (d : db) (user_id : string) : list order :=
  foldr insert_order_desc []
    (List.filter (fun o => String.eqb (o_user_id o) user_id) (orders d)).

Inductive orders_body :=
  | OrdersNotAuthenticated
  | OrdersList (orders : list order_view).

Definition orders_get (auth : option string) (d : db) : answer orders_body :=
  match auth with
  | None => send OrdersNotAuthenticated 401
  | Some user_id => send (OrdersList (map view_of_order (orders_of d user_id))) 200
  end.

Inductive order_detail_body :=
  | DetailNotAuthenticated
  | MissingOrderId
  | OrderNotFound
  | OrderDetail (o : order_view) (items : list order_item_view).

(** [orderId] is [request.params?.id]; an absent or empty id is falsy. *)
Definition order_get (auth : option string) (orderId : option string) (d : db)
    : answer order_detail_body :=
  match auth with
  | None => send DetailNotAuthenticated 401
  | Some user_id =>
      match orderId with
      | None => send MissingOrderId 400
      | Some id =>
          if String.eqb id "" then send MissingOrderId 400 else
          match List.find (fun o => String.eqb (o_id o) id
                                    && String.eqb (o_user_id o) user_id)
                          (orders d) with
          | None => send OrderNotFound 404
          | Some order =>
              let itemsRes :=
                List.filter (fun oi => String.eqb (oi_order_id oi) id)
                            (order_items d) in
              send (OrderDetail (view_of_order order)
                      (map view_of_order_item itemsRes)) 200
          end
      end
  end.

(** Descending order of creation, as the two [ORDER BY created_at DESC]
    queries promise it. *)
Definition created_desc {A} (created_at : A -> string) (x y : A) : Prop :=
  String.leb (created_at y) (created_at x) = true.


(** The order-item columns of a cart line, as step 7 of place-order
    snapshots them. *)
Definition item_view_of_line (item : cart_line) : order_item_view :=
  {| oiv_product_id := cl_product_id item;
     oiv_title_snapshot := cl_title item;
     oiv_price_cents := cl_price_cents item;
     oiv_qty := cl_qty item |}.

(** [Σ price_cents × qty] over the items of an order. *)
Definition sum_item_views (items : list order_item_view) : Z :=
  foldr (fun it acc => oiv_price_cents it * oiv_qty it + acc) 0 items.


(** The row the cart query returns for a cart line and its product. *)
Definition line_of (d : db) (product_id : string) (ci : cart_item) (p : product)
    : cart_line :=
  {| cl_product_id := product_id; cl_qty := ci_qty ci;
     cl_title := p_title p; cl_price_cents := p_price_cents p;
     cl_currency := p_currency p;
     cl_stock := inv_stock <$> inventory d !! product_id;
     cl_reserved := inv_reserved <$> inventory d !! product_id |}.


(** [available = stock - reserved] as place-order computes it from a row of
    the cart query. *)
Definition line_available (line : cart_line) : Z :=
  num_or0 (cl_stock line) - num_or0 (cl_reserved line).


(** [a.is_default_shipping] of the summary's address objects: the column
    coerced with [!!]. *)
Definition is_default_shipping (a : address) : bool :=
  negb (a_is_default_shipping a =? 0).


(** * The realtime worker

    [userSockets] is a [Map] from user id to the [Set] of that user's open
    sockets.  A socket is named by a number; a [Set] is the list of its
    members in insertion order, which is the order [for ... of] visits. *)

Definition set_has (ws : nat) (set : list nat) : bool :=
  existsb (Nat.eqb ws) set.

(** [set.add(ws)] *)
Definition set_add (ws : nat) (set : list nat) : list nat :=
  if set_has ws set then set else (set ++ [ws])%list.

(** [set.delete(ws)] *)
Definition set_delete (ws : nat) (set : list nat) : list nat :=
  List.filter (fun x => negb (Nat.eqb x ws)) set.

Definition addSocket (userId : string) (ws : nat)
    (userSockets : gmap string (list nat)) : gmap string (list nat) :=
  match userSockets !! userId with
  | None => <[userId := set_add ws []]> userSockets
  | Some set => <[userId := set_add ws set]> userSockets
  end.

Definition removeSocket (userId : string) (ws : nat)
    (userSockets : gmap string (list nat)) : gmap string (list nat) :=
  match userSockets !! userId with
  | None => userSockets
  | Some set =>
      let set := set_delete ws set in
      if (length set =? 0)%nat then delete userId userSockets
      else <[userId := set]> userSockets
  end.

(** [{ type: 'order_status', ...payload }] for a payload
    [{ order_id, status }]. *)
Record ws_message := {
  msg_type : string;
  msg_order_id : string;
  msg_status : string
}.

(** How a call ended: it returned, or an exception left it. *)
Inductive outcome := Returned | Threw.

(** The [for (const ws of set)] loop of [broadcastOrderStatus].  [send_ok]
    tells whether [ws.send] succeeds on a socket; when it throws, the
    [catch] awaits [callLogger], and [logger_ok] tells whether that call
    returns: if it throws too, the exception leaves the loop.  The result
    lists the messages handed to sockets, in order. *)
Fixpoint send_each (send_ok : nat -> bool) (logger_ok : bool) (msg : ws_message)
    (set : list nat) : list (nat * ws_message) * outcome :=
  match set with
  | [] => ([], Returned)
  | ws :: rest =>
      if send_ok ws then
        let '(sent, res) := send_each send_ok logger_ok msg rest in
        ((ws, msg) :: sent, res)
      else if logger_ok then send_each send_ok logger_ok msg rest
      else ([], Threw)
  end.

Definition broadcastOrderStatus (send_ok : nat -> bool) (logger_ok : bool)
    (userSockets : gmap string (list nat)) (userId order_id status : string)
    : list (nat * ws_message) * outcome :=
  match userSockets !! userId with
  | None => ([], Returned)
  | Some set =>
      if (length set =? 0)%nat then ([], Returned)
      else
        let msg := {| msg_type := "order_status"; msg_order_id := order_id;
                      msg_status := status |} in
        send_each send_ok logger_ok msg set
  end.

(** ** POST /internal/order-status *)

Record status_body := {
  sb_user_id : option string;
  sb_order_id : option string;
  sb_status : option string
}.

Inductive internal_body :=
  | InternalInvalidJson
  | InternalMissingFields
  | InternalOk.

(** [!x] on a body field: absent or the empty string. *)
Definition field (x : option string) : option string :=
  match x with
  | Some s => if String.eqb s "" then None else Some s
  | None => None
  end.

(** The handler's answer ([None] when the broadcast threw: the handler has
    no [try] around it) and the messages handed to sockets.  [body] is
    [None] for a request whose JSON does not parse; a body of [null] counts
    as [{}], which has no field. *)
Definition internal_order_status (send_ok : nat -> bool) (logger_ok : bool)
    (userSockets : gmap string (list nat)) (body : option status_body)
    : option (answer internal_body) * list (nat * ws_message) :=
  match body with
  | None => (Some (send InternalInvalidJson 400), [])
  | Some b =>
      match field (sb_user_id b), field (sb_order_id b), field (sb_status b) with
      | Some user_id, Some order_id, Some status =>
          match broadcastOrderStatus send_ok logger_ok userSockets
                  user_id order_id status with
          | (sent, Returned) => (Some (send InternalOk 200), sent)
          | (sent, Threw) => (None, sent)
          end
      | _, _, _ => (Some (send InternalMissingFields 400), [])
      end
  end.

(** ** GET /ws/orders and the life of a socket *)

Inductive ws_body :=
  | WsNotAuthenticated
  | ExpectedWebsocket
  | SwitchingProtocols (socket : nat).

(** [server] is the server end of the new [WebSocketPair];
    [handleWebSocketConnection] registers it. *)
Definition ws_orders (auth : option string) (upgrade : option string) (server : nat)
    (userSockets : gmap string (list nat))
    : answer ws_body * gmap string (list nat) :=
  match auth with
  | None => (send WsNotAuthenticated 401, userSockets)
  | Some userId =>
      if match upgrade with
         | Some h => String.eqb h "websocket"
         | None => false
         end
      then (send (SwitchingProtocols server) 101, addSocket userId server userSockets)
      else (send ExpectedWebsocket 426, userSockets)
  end.

(** What happens to the registry: a request to [/ws/orders], or the
    ['close'] or ['error'] listener of a socket opened for [userId]. *)
Inductive ws_event :=
  | Connect (auth : option string) (upgrade : option string) (server : nat)
  | Closed (userId : string) (ws : nat)
  | Errored (userId : string) (ws : nat).

Definition ws_step (userSockets : gmap string (list nat)) (e : ws_event)
    : gmap string (list nat) :=
  match e with
  | Connect auth upgrade server => (ws_orders auth upgrade server userSockets).2
  | Closed userId ws => removeSocket userId ws userSockets
  | Errored userId ws => removeSocket userId ws userSockets
  end.

Definition ws_run (events : list ws_event) (userSockets : gmap string (list nat))
    : gmap string (list nat) :=
  fold_left ws_step events userSockets.

(** No user is kept with an empty set, and no set lists a socket twice. *)
Definition registry_ok (userSockets : gmap string (list nat)) : Prop :=
  forall userId set,
    userSockets !! userId = Some set -> set <> [] /\ NoDup set.

(** The sockets registered for a user. *)
Definition sockets_of (userSockets : gmap string (list nat)) (userId : string)
    : list nat :=
  default [] (userSockets !! userId).

(** ** The notice place-order sends (step 9)

    After a commit that ran to its end, and when the realtime service is
    bound, place-order posts [{ user_id, order_id, status: 'placed' }] to
    [/internal/order-status]. *)
Definition place_order_notice (realtime_bound : bool) (auth : option string)
    (body : option place_body) (now : string) (ids : nat -> string)
    (fail_at : option nat) (d : db) : option status_body :=
  match auth, place_decide d auth body now (ids O) with
  | Some user_id, inr plan =>
      if (run_writes fail_at (commit_writes ids now plan) d).1 && realtime_bound
      then Some {| sb_user_id := Some user_id;
                   sb_order_id := Some (ids O);
                   sb_status := Some "placed" |}
      else None
  | _, _ => None
  end.


(** Whether socket [ws] of user [userId] is open after an event, given
    whether it was before: a connection that is accepted opens it, its
    ['close'] or ['error'] closes it. *)
Definition track_step (userId : string) (ws : nat) (open : bool) (e : ws_event)
    : bool :=
  match e with
  | Connect (Some u) (Some h) server =>
      if String.eqb h "websocket" && String.eqb u userId && Nat.eqb server ws
      then true else open
  | Connect _ _ _ => open
  | Closed u w | Errored u w =>
      if String.eqb u userId && Nat.eqb w ws then false else open
  end.

Definition tracked (events : list ws_event) (userId : string) (ws : nat) : bool :=
  fold_left (track_step userId ws) events false.


(** The message a broadcast hands out. *)
Definition order_status_message (order_id status : string) : ws_message :=
  {| msg_type := "order_status"; msg_order_id := order_id; msg_status := status |}.


(** * Sessions ([getAuthFromRequest] of common.js)

    The [sessions] and [users] tables, with the columns the lookup reads. *)

Record session := {
  s_id : string;
  s_user_id : string;
  s_issued_at : string;
  s_expires_at : string;
  s_revoked : Z
}.

Record user := {
  usr_id : string;
  usr_role : string;
  usr_status : string
}.

Record auth_db := {
  sessions : list session;
  users : list user
}.

(** [sid] is [cookies.sid]: the value of the request's [sid] cookie, if it
    has one.  The session must have this id, not be revoked and expire
    after [now] (ISO timestamps, compared as text); its user must exist. *)
Definition getAuthFromRequest (sid : option string) (now : string) (a : auth_db)
    : option (session * user) :=
  match field sid with
  | None => None
  | Some sid =>
      match List.find (fun s => String.eqb (s_id s) sid
                                && (s_revoked s =? 0)
                                && String.ltb now (s_expires_at s))
                      (sessions a) with
      | None => None
      | Some session =>
          match List.find (fun u => String.eqb (usr_id u) (s_user_id session))
                          (users a) with
          | None => None
          | Some user => Some (session, user)
          end
      end
  end.

(** [auth.user.id], which is all the checkout and realtime handlers read
    of [auth]; the seller handlers read the role as well. *)
Definition auth_user_id (auth : option (session * user)) : option string :=
  match auth with
  | Some (_, user) => Some (usr_id user)
  | None => None
  end.

Definition auth_id_role (auth : option (session * user)) : option (string * string) :=
  match auth with
  | Some (_, user) => Some (usr_id user, usr_role user)
  | None => None
  end.

(** * The seller handlers of the catalog worker that write the tables of
    the checkout worker *)

(** ** POST /api/seller/products/stock *)

Inductive stock_body :=
  | StockNotAuthenticated
  | StockForbidden
  | StockInvalidJson
  | StockValidationFailed (details : list string)
  | StockProductNotFound
  | StockNotOwner
  | StockInvalidOperation
  | StockNegative
  | StockUpdated (product_id : string) (stock : Z).

(** [productStockUpdateSchema] has the three keys of [cartUpdateSchema]
    under the same rules. *)
Definition productStockUpdateSchema (b : cart_body) : list string + cart_value :=
  cartUpdateSchema b.

Definition is_seller_or_admin (role : string) : bool :=
  String.eqb role "seller" || String.eqb role "admin".

(** [auth] is the caller's id and role.  The write is an upsert that sets
    [stock] and [updated_at]: a new row gets [reserved = 0], an existing row
    keeps its [reserved]. *)
Definition stock_post (auth : option (string * string)) (body : option cart_body)
    (now : string) (d : db) : answer stock_body * db :=
  match auth with
  | None => (send StockNotAuthenticated 401, d)
  | Some (user_id, role) =>
      if negb (is_seller_or_admin role) then (send StockForbidden 403, d) else
      match body with
      | None => (send StockInvalidJson 400, d)
      | Some raw =>
          match productStockUpdateSchema raw with
          | inl details => (send (StockValidationFailed details) 400, d)
          | inr value =>
              let product_id := cv_product_id value in
              let qty := cv_qty value in
              let operation := cv_operation value in
              match products d !! product_id with
              | None => (send StockProductNotFound 404, d)
              | Some product =>
                  if String.eqb role "seller"
                     && match p_seller_id product with
                        | Some s => negb (String.eqb s "")
                                    && negb (String.eqb s user_id)
                        | None => false
                        end
                  then (send StockNotOwner 403, d) else
                  let inv := inventory d !! product_id in
                  let currentStock :=
                    match inv with Some i => inv_stock i | None => 0 end in
                  match (if String.eqb operation "set" then Some qty
                         else if String.eqb operation "add"
                              then Some (currentStock + qty)
                         else if String.eqb operation "remove"
                              then Some (currentStock - qty)
                         else None) with
                  | None => (send StockInvalidOperation 400, d)
                  | Some newStock =>
                      if newStock <? 0 then (send StockNegative 400, d) else
                      (send (StockUpdated product_id newStock) 200,
                       with_inventory d
                         (<[product_id :=
                              {| inv_stock := newStock;
                                 inv_reserved :=
                                   match inv with
                                   | Some i => inv_reserved i
                                   | None => 0
                                   end;
                                 inv_updated_at := now |}]> (inventory d)))
                  end
              end
          end
      end
  end.

(** ** POST /api/seller/orders/status *)

Record order_status_body := {
  osb_order_id : option string;
  osb_status : option string
}.

Definition valid_order_status (s : string) : bool :=
  String.eqb s "placed" || String.eqb s "processing" || String.eqb s "shipped"
  || String.eqb s "completed" || String.eqb s "cancelled".

(** [sellerOrderStatusSchema]: both keys required, [order_id] any non-empty
    string, [status] one of the five. *)
Definition sellerOrderStatusSchema (b : order_status_body)
    : list string + (string * string) :=
  let e_id :=
    match osb_order_id b with
    | Some s => if nonempty s then [] else ["order_id"]
    | None => ["order_id"]
    end in
  let e_status :=
    match osb_status b with
    | Some s => if valid_order_status s then [] else ["status"]
    | None => ["status"]
    end in
  match (e_id ++ e_status)%list, osb_order_id b, osb_status b with
  | [], Some order_id, Some status => inr (order_id, status)
  | errs, _, _ => inl errs
  end.

(** The count of the order's items whose product is sold by the caller. *)
Definition seller_items_on_order (d : db) (order_id seller : string) : nat :=
  length
    (List.filter
       (fun oi =>
          String.eqb (oi_order_id oi) order_id
          && match products d !! oi_product_id oi with
             | Some p => match p_seller_id p with
                         | Some s => String.eqb s seller
                         | None => false
                         end
             | None => false
             end)
       (order_items d)).

(** [UPDATE orders SET status = ?, updated_at = ? WHERE id = ?] *)
Definition set_order_status (order_id status now : string) (o : order) : order :=
  if String.eqb (o_id o) order_id then
    {| o_id := o_id o; o_user_id := o_user_id o; o_status := status;
       o_subtotal_cents := o_subtotal_cents o;
       o_shipping_cents := o_shipping_cents o;
       o_tax_cents := o_tax_cents o;
       o_total_cents := o_total_cents o;
       o_currency := o_currency o;
       o_shipping_address_id := o_shipping_address_id o;
       o_billing_address_id := o_billing_address_id o;
       o_shipping_method_id := o_shipping_method_id o;
       o_created_at := o_created_at o; o_updated_at := now |}
  else o.

Inductive order_status_answer :=
  | StatusNotAuthenticated
  | StatusForbidden
  | StatusInvalidJson
  | StatusValidationFailed (details : list string)
  | StatusNotSellerOnOrder
  | StatusOk.

Definition seller_order_status_post (auth : option (string * string))
    (body : option order_status_body) (now : string) (d : db)
    : answer order_status_answer * db :=
  match auth with
  | None => (send StatusNotAuthenticated 401, d)
  | Some (user_id, role) =>
      if negb (is_seller_or_admin role) then (send StatusForbidden 403, d) else
      match body with
      | None => (send StatusInvalidJson 400, d)
      | Some raw =>
          match sellerOrderStatusSchema raw with
          | inl details => (send (StatusValidationFailed details) 400, d)
          | inr (order_id, status) =>
              if String.eqb role "seller"
                 && (seller_items_on_order d order_id user_id =? 0)%nat
              then (send StatusNotSellerOnOrder 403, d)
              else (send StatusOk 200,
                    with_orders d (map (set_order_status order_id status now)
                                     (orders d)))
          end
      end
  end.


(** The stock and the reserved count of a product, 0 without a row. *)
Definition stock_of (d : db) (product_id : string) : Z :=
  match inventory d !! product_id with Some i => inv_stock i | None => 0 end.

Definition reserved_of (d : db) (product_id : string) : Z :=
  match inventory d !! product_id with Some i => inv_reserved i | None => 0 end.

(** The stock a stock update asks for. *)
Definition requested_stock (d : db) (v : cart_value) : option Z :=
  if String.eqb (cv_operation v) "set" then Some (cv_qty v)
  else if String.eqb (cv_operation v) "add"
       then Some (stock_of d (cv_product_id v) + cv_qty v)
  else if String.eqb (cv_operation v) "remove"
       then Some (stock_of d (cv_product_id v) - cv_qty v)
  else None.

(** A seller may touch a product that has no seller or is the seller's own;
    an admin may touch any. *)
Definition may_touch (user_id role : string) (p : product) : Prop :=
  role = "admin"
  \/ (role = "seller"
      /\ (p_seller_id p = None \/ p_seller_id p = Some ""
          \/ p_seller_id p = Some user_id)).


(** * Requests served one after the other *)

(** A request to one of the four handlers that write the tables of the
    checkout worker, with everything the handler reads besides the
    database. *)
Inductive request :=
  | CartUpdate (auth : option string) (body : option cart_body) (now : string)
  | PlaceOrder (auth : option string) (body : option place_body) (now : string)
      (ids : nat -> string) (fail_at : option nat)
  | StockUpdate (auth : option (string * string)) (body : option cart_body)
      (now : string)
  | OrderStatusUpdate (auth : option (string * string))
      (body : option order_status_body) (now : string).

Definition serve (d : db) (r : request) : db :=
  match r with
  | CartUpdate auth body now => (cart_items_post auth body now d).2
  | PlaceOrder auth body now ids fail_at => (place_order auth body now ids fail_at d).2
  | StockUpdate auth body now => (stock_post auth body now d).2
  | OrderStatusUpdate auth body now => (seller_order_status_post auth body now d).2
  end.

Definition serve_all (requests : list request) (d : db) : db :=
  fold_left serve requests d.

(** No stock and no reserved count is negative. *)
Definition stock_ok (d : db) : Prop :=
  forall pid row, inventory d !! pid = Some row ->
                  0 <= inv_stock row /\ 0 <= inv_reserved row.

(** Every order adds up, with no tax. *)
Definition orders_ok (d : db) : Prop :=
  forall o, In o (orders d) ->
            o_tax_cents o = 0
            /\ o_total_cents o
               = o_subtotal_cents o + o_shipping_cents o + o_tax_cents o.


(** The columns of an order that a status update does not set. *)
Definition order_fixed_columns (o : order)
    : string * string * Z * Z * Z * Z * string * string * string * string * string :=
  (o_id o, o_user_id o, o_subtotal_cents o, o_shipping_cents o, o_tax_cents o,
   o_total_cents o, o_currency o, o_shipping_address_id o,
   o_billing_address_id o, o_shipping_method_id o, o_created_at o).

(** The three invariants of the shared tables. *)
Definition db_ok (d : db) : Prop := cart_inv d /\ stock_ok d /\ orders_ok d.


(** ** More scenarios *)

(** The accepted order of [demo_db]'s buyer, standard shipping. *)
Definition demo_order_request : option place_body :=
  Some (demo_place_body "std" None).

(** [demo_db] with two mugs left in stock, for a cart of three. *)
Definition demo_db_low : db :=
  with_inventory demo_db
    {[ "p1" := {| inv_stock := 2; inv_reserved := 0; inv_updated_at := "t0" |} ]}.

(** One live session of the buyer and one revoked one. *)
Definition demo_auth_db : auth_db :=
  {| sessions :=
       [ {| s_id := "s1"; s_user_id := "u1"; s_issued_at := "2026-01-01T00:00:00.000Z";
            s_expires_at := "2026-02-01T00:00:00.000Z"; s_revoked := 0 |};
         {| s_id := "s2"; s_user_id := "u1"; s_issued_at := "2026-01-01T00:00:00.000Z";
            s_expires_at := "2026-02-01T00:00:00.000Z"; s_revoked := 1 |} ];
     users := [ {| usr_id := "u1"; usr_role := "buyer"; usr_status := "active" |} ] |}.

Definition demo_now : string := "2026-01-15T12:00:00.000Z".

(** The buyer has one socket open. *)
Definition demo_sockets : gmap string (list nat) := {[ "u1" := [7%nat] ]}.

Definition demo_requests : list request :=
  [ CartUpdate (Some "u1") (Some (cart_request "p1" 1 (Some "add"))) "t1";
    StockUpdate (Some ("seller", "seller")) (Some (cart_request "p1" 2 (Some "remove")))
      "t2";
    PlaceOrder (Some "u1") demo_order_request "t3" demo_ids (Some 2%nat);
    OrderStatusUpdate (Some ("seller", "seller"))
      (Some {| osb_order_id := Some "order-1"; osb_status := Some "shipped" |}) "t4" ].


(** * Properties *)

(** ** Arithmetic of the quote *)

Lemma ceil_1_6_least (c : Z) : 8 * c <= 5 * ceil_1_6 c < 8 * c + 5.
Proof.
  unfold ceil_1_6.
  pose proof (Z.div_mod (- (8 * c)) 5 ltac:(lia)).
  pose proof (Z.mod_pos_bound (- (8 * c)) 5 ltac:(lia)).
  lia.
Qed.

Lemma surcharge_150 : surcharge 150 = 440.
Proof. reflexivity. Qed.

Lemma capped_cost_free base f subtotal_cents :
  free_over_reached f subtotal_cents = true ->
  capped_cost base f subtotal_cents = 0.
Proof. intros H. unfold capped_cost. rewrite H. reflexivity. Qed.

Lemma capped_cost_le_cap base f subtotal_cents :
  0 < floor_tenth subtotal_cents ->
  capped_cost base f subtotal_cents <= floor_tenth subtotal_cents.
Proof.
  intros Hcap. unfold capped_cost.
  destruct (free_over_reached f subtotal_cents); simpl.
  - lia.
  - destruct (Z.ltb_spec 0 base); simpl; [|lia].
    destruct (Z.ltb_spec 0 (floor_tenth subtotal_cents)); lia.
Qed.

Lemma free_over_reached_iff f subtotal_cents t :
  f = Some t -> t <= subtotal_cents -> free_over_reached f subtotal_cents = true.
Proof. intros -> H. simpl. apply Z.leb_le, H. Qed.

(** ** The in-place update behind the tie-break *)

Section UpdateFirst.
Context {A : Type} (p : A -> bool) (f : A -> A).

Lemma update_first_length (l : list A) :
  length (update_first p f l) = length l.
Proof.
  induction l as [|x r IH]; simpl; [reflexivity|].
  destruct (p x); simpl; congruence.
Qed.

(** Position by position, an element is kept, or it is the one [find]
    returns and [f] has been applied to it. *)
Lemma update_first_lookup (l : list A) (i : nat) (x : A) :
  l !! i = Some x ->
  update_first p f l !! i = Some x
  \/ (update_first p f l !! i = Some (f x) /\ List.find p l = Some x).
Proof.
  revert i. induction l as [|y r IH]; intros i Hi; [discriminate|].
  simpl. destruct (p y) eqn:Hy.
  - destruct i as [|i]; simpl in *.
    + right. inversion Hi; subst. split; reflexivity.
    + left. exact Hi.
  - destruct i as [|i]; simpl in *.
    + left. exact Hi.
    + apply IH, Hi.
Qed.

Lemma find_update_first (l : list A) (x : A) :
  List.find p l = Some x -> p (f x) = true ->
  List.find p (update_first p f l) = Some (f x).
Proof.
  induction l as [|y r IH]; simpl; [discriminate|].
  destruct (p y) eqn:Hy; intros Hx Hfx.
  - inversion Hx; subst. simpl. rewrite Hfx. reflexivity.
  - simpl. rewrite Hy. apply IH; assumption.
Qed.
End UpdateFirst.

Lemma has_speed_exclusive s :
  has_speed "standard" s = true -> has_speed "express" s = true -> False.
Proof.
  unfold has_speed. intros H1 H2.
  apply String.eqb_eq in H1. apply String.eqb_eq in H2. congruence.
Qed.

Lemma find_some_inv {A} (p : A -> bool) l x :
  List.find p l = Some x -> p x = true /\ In x l.
Proof. intros H. apply List.find_some in H. tauto. Qed.

(** Two different finds succeed only in an array of two or more. *)
Lemma two_speeds_two_options opts s e :
  List.find is_standard opts = Some s ->
  List.find is_express opts = Some e ->
  (2 <=? length opts)%nat = true.
Proof.
  intros Hs He.
  destruct opts as [|x [|y r]]; [discriminate| |reflexivity].
  exfalso. simpl in Hs, He.
  destruct (is_standard x) eqn:Hx; [|discriminate].
  destruct (is_express x) eqn:Hx'; [|discriminate].
  eapply has_speed_exclusive; eassumption.
Qed.

Lemma tie_break_fires opts s e :
  List.find is_standard opts = Some s ->
  List.find is_express opts = Some e ->
  so_cost_cents s = so_cost_cents e ->
  0 < so_cost_cents e ->
  tie_break opts = update_first is_express recompute opts.
Proof.
  intros Hs He Heq Hpos. unfold tie_break.
  rewrite (two_speeds_two_options _ _ _ Hs He), Hs, He.
  rewrite (proj2 (Z.eqb_eq _ _) Heq), (proj2 (Z.ltb_lt _ _) Hpos).
  reflexivity.
Qed.

Lemma tie_break_length opts : length (tie_break opts) = length opts.
Proof.
  unfold tie_break.
  repeat match goal with
         | |- context [if ?b then _ else _] => destruct b
         | |- context [match ?o with Some _ => _ | None => _ end] => destruct o
         end; try reflexivity.
  apply update_first_length.
Qed.

(** Position by position: a quote is unchanged by the tie-break, or it is
    the first express quote, positive and equal to the first standard one,
    and it has been recomputed. *)
Lemma tie_break_lookup opts i o :
  opts !! i = Some o ->
  tie_break opts !! i = Some o
  \/ (tie_break opts !! i = Some (recompute o)
      /\ List.find is_express opts = Some o
      /\ 0 < so_cost_cents o
      /\ exists s, List.find is_standard opts = Some s
                   /\ so_cost_cents s = so_cost_cents o).
Proof.
  intros Hi. unfold tie_break.
  destruct (2 <=? length opts)%nat; [|left; exact Hi].
  destruct (List.find is_standard opts) as [s|] eqn:Hs; [|left; exact Hi].
  destruct (List.find is_express opts) as [e|] eqn:He; [|left; exact Hi].
  destruct (Z.eqb_spec (so_cost_cents s) (so_cost_cents e)) as [Heq|];
    [|left; exact Hi].
  destruct (Z.ltb_spec 0 (so_cost_cents e)) as [Hpos|]; [|left; exact Hi].
  simpl.
  destruct (update_first_lookup is_express recompute opts i o Hi) as [H|[H Hf]].
  - left. exact H.
  - right. rewrite He in Hf. inversion Hf; subst e.
    split; [exact H|]. split; [reflexivity|]. split; [exact Hpos|].
    exists s. split; [reflexivity|exact Heq].
Qed.

Lemma summary_options_length rows subtotal_cents :
  length (summary_shipping_options rows subtotal_cents) = length rows.
Proof.
  unfold summary_shipping_options. rewrite tie_break_length.
  apply length_map.
Qed.

Lemma pre_option_lookup rows subtotal_cents i m :
  rows !! i = Some m ->
  map (option_of_method subtotal_cents) rows !! i
  = Some (option_of_method subtotal_cents m).
Proof.
  revert i. induction rows as [|x r IH]; intros [|i] H; simpl in *;
    try discriminate.
  - inversion H; reflexivity.
  - apply IH, H.
Qed.

(** A method whose free threshold is reached is quoted 0 by the summary
    computation: the cap and the tie-break both leave a zero cost alone. *)
Lemma summary_free_over_zero rows subtotal_cents i m t :
  rows !! i = Some m ->
  sm_free_over_cents m = Some t -> t <= subtotal_cents ->
  exists o, summary_shipping_options rows subtotal_cents !! i = Some o
            /\ so_id o = sm_id m /\ so_cost_cents o = 0.
Proof.
  intros Hi Hf Ht.
  pose proof (pre_option_lookup rows subtotal_cents i m Hi) as Hpre.
  assert (Hz : so_cost_cents (option_of_method subtotal_cents m) = 0).
  { simpl. apply capped_cost_free. eapply free_over_reached_iff; eassumption. }
  unfold summary_shipping_options.
  destruct (tie_break_lookup _ _ _ Hpre) as [H|(_ & _ & Hpos & _)].
  - eexists. split; [exact H|]. split; [reflexivity|exact Hz].
  - lia.
Qed.

(** The same for the place-order computation: neither the surcharge nor
    the cap is entered with a zero cost. *)
Lemma place_free_over_zero m alt subtotal_cents t :
  sm_free_over_cents m = Some t -> t <= subtotal_cents ->
  place_shipping_cents m alt subtotal_cents = 0.
Proof.
  intros Hf Ht. unfold place_shipping_cents.
  rewrite (free_over_reached_iff _ _ _ Hf Ht). simpl.
  rewrite andb_false_r. reflexivity.
Qed.

(** With a positive cap, the place-order computation ends at or below it. *)
Lemma place_shipping_le_cap m alt subtotal_cents :
  0 < floor_tenth subtotal_cents ->
  place_shipping_cents m alt subtotal_cents <= floor_tenth subtotal_cents.
Proof.
  intros Hcap. unfold place_shipping_cents.
  match goal with
  | |- (if (0 <? ?x) && _ then _ else _) <= _ => generalize x; intros s
  end.
  rewrite (proj2 (Z.ltb_lt _ _) Hcap), andb_true_r.
  destruct (Z.ltb_spec 0 s); lia.
Qed.

(** With a positive cap, every summary quote is at or below it, except the
    express quote the tie-break recomputed from a capped cost. *)
Lemma summary_quote_bound rows subtotal_cents i o :
  0 < floor_tenth subtotal_cents ->
  summary_shipping_options rows subtotal_cents !! i = Some o ->
  so_cost_cents o <= floor_tenth subtotal_cents
  \/ (is_express o = true
      /\ exists m, rows !! i = Some m
           /\ 0 < capped_cost (sm_base_cents m) (sm_free_over_cents m) subtotal_cents
              <= floor_tenth subtotal_cents
           /\ so_cost_cents o
              = surcharge (capped_cost (sm_base_cents m) (sm_free_over_cents m)
                             subtotal_cents)).
Proof.
  intros Hcap Ho.
  assert (Hlt : (i < length rows)%nat).
  { rewrite <- (summary_options_length rows subtotal_cents).
    eapply lookup_lt_Some, Ho. }
  destruct (lookup_lt_is_Some_2 rows i Hlt) as [m Hm].
  pose proof (pre_option_lookup rows subtotal_cents i m Hm) as Hpre.
  pose proof (capped_cost_le_cap (sm_base_cents m) (sm_free_over_cents m)
                subtotal_cents Hcap) as Hle.
  unfold summary_shipping_options in Ho.
  destruct (tie_break_lookup _ _ _ Hpre) as [H|(H & Hfind & Hpos & _)];
    rewrite H in Ho; inversion Ho; subst o; clear Ho.
  - left. exact Hle.
  - right. split.
    + apply find_some_inv in Hfind. apply Hfind.
    + exists m. simpl in *. repeat split; try assumption; lia.
Qed.

(** ** What the handlers computed when they answer *)

(** A successful summary carries the quotes of the active methods of the
    selected address's zone, at the subtotal it reports. *)
Lemma summary_ok_inv auth d items subtotal_cents addrs sel opts st :
  summary_response auth d = json (SummaryOk items subtotal_cents addrs sel opts) st ->
  exists user_id a,
    auth = Some user_id
    /\ items = load_cart d user_id
    /\ items <> []
    /\ subtotal_cents = reduce_subtotal items
    /\ addrs = addresses_of d user_id
    /\ sel = a_id a
    /\ opts = summary_shipping_options
                (active_methods_of_zone d (zone_of a)) subtotal_cents.
Proof.
  unfold summary_response. intros H.
  destruct auth as [user_id|]; [|discriminate].
  destruct (load_cart d user_id) as [|it its] eqn:Hitems; [discriminate|].
  change (length (it :: its) =? 0)%nat with false in H. cbv iota in H.
  destruct (addresses_of d user_id) as [|first rest] eqn:Haddr; [discriminate|].
  cbv zeta in H.
  match type of H with
  | context [zone_of ?a] => set (sa := a) in *
  end.
  destruct (length _ =? 0)%nat; [discriminate|].
  inversion H; subst; clear H.
  exists user_id, sa.
  repeat split; try reflexivity; try (symmetry; assumption). discriminate.
Qed.

Lemma check_stock_subtotal items acc subtotal_cents :
  check_stock items acc = inr subtotal_cents ->
  subtotal_cents
  = fold_left (fun sum item => sum + cl_price_cents item * cl_qty item) items acc.
Proof.
  revert acc. induction items as [|it r IH]; intros acc H; simpl in *.
  - congruence.
  - destruct (_ <? _); [discriminate|]. apply IH, H.
Qed.

(** Every line passed the stock check when the loop ran to its end. *)
Lemma check_stock_available items acc subtotal_cents :
  check_stock items acc = inr subtotal_cents ->
  Forall (fun item =>
            cl_qty item <= num_or0 (cl_stock item) - num_or0 (cl_reserved item))
         items.
Proof.
  revert acc. induction items as [|it r IH]; intros acc H; simpl in *.
  - constructor.
  - destruct (Z.ltb_spec (num_or0 (cl_stock it) - num_or0 (cl_reserved it))
                (cl_qty it)); [discriminate|].
    constructor; [lia|]. eapply IH, H.
Qed.

(** A plan exists exactly when every check of steps 1 to 4 passed; the
    order it holds is the one built in steps 5 and 6. *)
Lemma place_decide_inr d auth body now orderId plan :
  place_decide d auth body now orderId = inr plan ->
  exists user_id raw value subtotal_cents shippingAddress shippingMethod,
    auth = Some user_id /\ body = Some raw
    /\ checkoutPlaceSchema raw = inr value
    /\ load_cart d user_id <> []
    /\ check_stock (load_cart d user_id) 0 = inr subtotal_cents
    /\ List.find (fun a => String.eqb (a_id a) (pv_shipping_address_id value)
                           && String.eqb (a_user_id a) user_id) (addresses d)
       = Some shippingAddress
    /\ List.find (fun m => String.eqb (sm_id m) (pv_shipping_method_id value)
                           && (sm_active m =? 1)) (shipping_methods d)
       = Some shippingMethod
    /\ sm_zone shippingMethod = zone_of shippingAddress
    /\ plan =
       {| pp_user_id := user_id;
          pp_items := load_cart d user_id;
          pp_order :=
            {| o_id := orderId; o_user_id := user_id; o_status := "placed";
               o_subtotal_cents := subtotal_cents;
               o_shipping_cents :=
                 place_shipping_cents shippingMethod
                   (active_methods_of_zone d (zone_of shippingAddress))
                   subtotal_cents;
               o_tax_cents := 0;
               o_total_cents :=
                 subtotal_cents
                 + place_shipping_cents shippingMethod
                     (active_methods_of_zone d (zone_of shippingAddress))
                     subtotal_cents;
               o_currency := "USD";
               o_shipping_address_id := a_id shippingAddress;
               o_billing_address_id := billing_of value shippingAddress;
               o_shipping_method_id := sm_id shippingMethod;
               o_created_at := now; o_updated_at := now |};
          pp_method := shippingMethod |}.
Proof.
  unfold place_decide. intros H.
  destruct auth as [user_id|]; [|discriminate].
  destruct body as [raw|]; [|discriminate].
  destruct (checkoutPlaceSchema raw) as [|value] eqn:Hv; [discriminate|].
  destruct (load_cart d user_id) as [|it its] eqn:Hitems; [discriminate|].
  change (length (it :: its) =? 0)%nat with false in H. cbv iota in H.
  destruct (check_stock (it :: its) 0) as [|subtotal_cents] eqn:Hcs; [discriminate|].
  destruct (List.find _ (addresses d)) as [sa|] eqn:Ha; [|discriminate].
  destruct (List.find _ (shipping_methods d)) as [sm|] eqn:Hm; [|discriminate].
  destruct (String.eqb_spec (sm_zone sm) (zone_of sa)) as [Hz|]; [|discriminate].
  simpl in H. inversion H; subst plan; clear H.
  exists user_id, raw, value, subtotal_cents, sa, sm.
  rewrite Hitems.
  repeat split; try assumption; try reflexivity. discriminate.
Qed.

(** ** The shipping quote *)

(** C1: the shipping cost the summary shows for a method and the
    shipping_cents place-order charges for it, back to back on the same
    database, are meant to be equal.  They are not: with a subtotal of 1500
    and a standard and an express method both of base 5000, the summary caps
    both at 150 and then recomputes express to 440, while place-order
    compares the capped standard cost with the uncapped express cost, skips
    the surcharge and caps express at 150. *)
Theorem summary_and_place_order_disagree :
  quoted_cost (checkout_summary (Some "u1") demo_db).1 "exp" = Some 440
  /\ (checkout_summary (Some "u1") demo_db).2 = demo_db
  /\ charged_cost
       (place_order (Some "u1") (Some (demo_place_body "exp" None)) "t1"
          demo_ids None demo_db).1
     = Some 150.
Proof. split; [|split]; reflexivity. Qed.

(** C3 as stated fails twice: the express quote the tie-break recomputes
    is above the cap (440 against 150), and a subtotal under 10 has a cap of
    0, which caps nothing (100 against 0). *)
Lemma quotes_within_cap_fails :
  ~ quotes_within_cap
      [mk_method "std" "standard" 5000 None; mk_method "exp" "express" 5000 None]
      1500
  /\ ~ quotes_within_cap [mk_method "std" "standard" 100 None] 5.
Proof.
  split; intros [Hs Hp].
  - specialize (Hs (set_cost (option_of_method 1500 (mk_method "exp" "express" 5000 None)) 440)).
    vm_compute in Hs. apply Hs; auto.
  - specialize (Hs (option_of_method 5 (mk_method "std" "standard" 100 None))).
    vm_compute in Hs. apply Hs; auto.
Qed.

(** With a cap that is not positive the cap step does nothing: the cost
    is the base cost, or 0 above the free threshold. *)
Lemma capped_cost_no_cap base f subtotal_cents :
  floor_tenth subtotal_cents <= 0 ->
  capped_cost base f subtotal_cents
  = if free_over_reached f subtotal_cents then 0 else base.
Proof.
  intros Hcap. unfold capped_cost. cbv zeta.
  replace (0 <? floor_tenth subtotal_cents) with false
    by (symmetry; apply Z.ltb_ge; exact Hcap).
  rewrite andb_false_r. reflexivity.
Qed.

(** C3, amended, for the quotes of the summary.  When the cap
    [floor(subtotal_cents * 0.10)] is positive, every quote is at most the
    cap after the free-threshold and cap steps, and in the final options
    every quote is at most the cap except the express quote recomputed by
    the tie-break, whose cost is [ceil(c * 1.6) + 200] for its capped cost
    [0 < c <= cap].  When the cap is not positive (a subtotal under 10), no
    cap is applied: after the free-threshold and cap steps a quote is 0
    above the method's free threshold and the method's base cost otherwise,
    however large, and the final quote is that cost [c], or
    [ceil(c * 1.6) + 200] for the recomputed express quote. *)
Theorem quotes_capped_iff_cap_positive
    (rows : list shipping_method) (subtotal_cents : Z) :
  (0 < floor_tenth subtotal_cents ->
   (forall o, In o (map (option_of_method subtotal_cents) rows) ->
              so_cost_cents o <= floor_tenth subtotal_cents)
   /\ (forall i o,
         summary_shipping_options rows subtotal_cents !! i = Some o ->
         so_cost_cents o <= floor_tenth subtotal_cents
         \/ (is_express o = true
             /\ exists m, rows !! i = Some m
                  /\ 0 < capped_cost (sm_base_cents m) (sm_free_over_cents m)
                           subtotal_cents
                       <= floor_tenth subtotal_cents
                  /\ so_cost_cents o
                     = surcharge (capped_cost (sm_base_cents m)
                                    (sm_free_over_cents m) subtotal_cents))))
  /\ (floor_tenth subtotal_cents <= 0 ->
      (forall i m,
         rows !! i = Some m ->
         so_cost_cents <$> map (option_of_method subtotal_cents) rows !! i
         = Some (if free_over_reached (sm_free_over_cents m) subtotal_cents
                 then 0 else sm_base_cents m))
      /\ (forall i o,
            summary_shipping_options rows subtotal_cents !! i = Some o ->
            exists m,
              rows !! i = Some m
              /\ let c := if free_over_reached (sm_free_over_cents m) subtotal_cents
                          then 0 else sm_base_cents m in
                 so_cost_cents o = c
                 \/ (is_express o = true /\ 0 < c
                     /\ so_cost_cents o = surcharge c))).
Proof.
  split.
  - intros Hcap. split.
    + intros o Ho. apply in_map_iff in Ho as (m & <- & _).
      simpl. apply capped_cost_le_cap, Hcap.
    + intros i o. apply summary_quote_bound, Hcap.
  - intros Hcap. split.
    + intros i m Hm. rewrite (pre_option_lookup rows subtotal_cents i m Hm).
      simpl. f_equal. apply capped_cost_no_cap, Hcap.
    + intros i o Hi. unfold summary_shipping_options in Hi.
      assert (Hlen : (i < length rows)%nat).
      { apply lookup_lt_Some in Hi. rewrite tie_break_length in Hi.
        rewrite length_map in Hi. exact Hi. }
      apply lookup_lt_is_Some in Hlen. destruct Hlen as [m Hm].
      exists m. split; [exact Hm|]. cbv zeta.
      pose proof (pre_option_lookup rows subtotal_cents i m Hm) as Hpre.
      pose proof (capped_cost_no_cap (sm_base_cents m) (sm_free_over_cents m)
                    subtotal_cents Hcap) as Hc.
      destruct (tie_break_lookup _ _ _ Hpre) as [H|(H & Hf & Hpos & _)];
        rewrite H in Hi; inversion Hi; subst o; clear Hi.
      * left. simpl. exact Hc.
      * right. apply find_some_inv in Hf. destruct Hf as [Hexp _].
        simpl in Hpos. rewrite Hc in Hpos.
        split; [exact Hexp|]. split; [exact Hpos|].
        simpl. rewrite Hc. reflexivity.
Qed.

Lemma quotes_capped_iff_cap_positive_witness :
  0 < floor_tenth 1500
  /\ (forall o,
        In o (map (option_of_method 1500)
                [mk_method "std" "standard" 5000 None;
                 mk_method "exp" "express" 5000 None]) ->
        so_cost_cents o <= floor_tenth 1500).
Proof.
  assert (H : 0 < floor_tenth 1500) by reflexivity.
  split; [exact H|].
  apply (proj1 (quotes_capped_iff_cap_positive
                  [mk_method "std" "standard" 5000 None;
                   mk_method "exp" "express" 5000 None]
                  1500) H).
Defined.

(** C4 as stated fails twice: with two standard methods only the first is
    compared with the express one (costs 100, 200, 200: express stays 200),
    and equal negative costs are non-zero but not recomputed. *)
Lemma any_equal_pair_recomputed_fails :
  ~ any_equal_pair_recomputed
      [mk_method "std" "standard" 100 None; mk_method "eco" "standard" 200 None;
       mk_method "exp" "express" 200 None] 100000
  /\ ~ any_equal_pair_recomputed
         [mk_method "std" "standard" (-5) None; mk_method "exp" "express" (-5) None]
         100000.
Proof.
  split; intros H.
  - specialize (H 1%nat 2%nat _ _ eq_refl eq_refl eq_refl eq_refl eq_refl).
    vm_compute in H. specialize (H ltac:(discriminate)). discriminate.
  - specialize (H 0%nat 1%nat _ _ eq_refl eq_refl eq_refl eq_refl eq_refl).
    vm_compute in H. specialize (H ltac:(discriminate)). discriminate.
Qed.

(** Where [find] stops: the first element that satisfies [p] has a position,
    nothing before it satisfies [p], and [update_first] changes the list at
    that position only. *)
Lemma find_first_position {A} (p : A -> bool) (f : A -> A) (l : list A) (x : A) :
  List.find p l = Some x ->
  exists j,
    l !! j = Some x
    /\ (forall k y, (k < j)%nat -> l !! k = Some y -> p y = false)
    /\ update_first p f l !! j = Some (f x)
    /\ (forall i, i <> j -> update_first p f l !! i = l !! i).
Proof.
  induction l as [|y r IH]; simpl; intros Hf; [discriminate|].
  destruct (p y) eqn:Hy.
  - inversion Hf; subst y; clear Hf. exists O.
    split; [reflexivity|]. split; [intros k z Hk; lia|].
    split; [reflexivity|]. intros [|i] Hi; [congruence|reflexivity].
  - destruct (IH Hf) as (j & Hj & Hbefore & Hupd & Hother). exists (S j).
    split; [exact Hj|]. split.
    { intros [|k] z Hk Hz; simpl in Hz.
      - inversion Hz; subst z. exact Hy.
      - apply (Hbefore k z); [lia|exact Hz]. }
    split; [exact Hupd|].
    intros [|i] Hi; [reflexivity|]. simpl. apply Hother. congruence.
Qed.

(** The speed tests compare the speed in lower case. *)
Lemma has_speed_lower speed s :
  has_speed speed s = String.eqb (toLowerCase s) speed.
Proof.
  unfold has_speed, str_or. destruct (String.eqb_spec s "") as [->|]; reflexivity.
Qed.

(** C4, amended: the tie-break of the summary looks at two quotes only, the
    first whose speed is "standard" and the first whose speed is "express",
    speeds compared in lower case.  If the two have equal positive cost
    after the free-threshold and cap steps, the cost of that express quote
    is recomputed as [ceil(cost * 1.6) + 200], the least integer [n] with
    [5 n >= 8 cost] plus 200, and every other quote, later express quotes
    included, is unchanged; from 150 it becomes 440.  A quote whose cost is
    0 (or less) is never recomputed, and when the two costs differ, are not
    positive, or one of the two speeds is missing, no quote is changed. *)
Theorem tie_break_recomputes_first_express
    (rows : list shipping_method) (subtotal_cents : Z) :
  let pre := map (option_of_method subtotal_cents) rows in
  let final := summary_shipping_options rows subtotal_cents in
  (forall o,
     is_standard o = String.eqb (toLowerCase (so_speed o)) "standard"
     /\ is_express o = String.eqb (toLowerCase (so_speed o)) "express")
  /\ (forall standard express,
        List.find is_standard pre = Some standard ->
        List.find is_express pre = Some express ->
        so_cost_cents standard = so_cost_cents express ->
        0 < so_cost_cents express ->
        exists j,
          pre !! j = Some express
          /\ (forall k o, (k < j)%nat -> pre !! k = Some o -> is_express o = false)
          /\ final !! j
             = Some (set_cost express (ceil_1_6 (so_cost_cents express) + 200))
          /\ 8 * so_cost_cents express <= 5 * ceil_1_6 (so_cost_cents express)
                                       < 8 * so_cost_cents express + 5
          /\ (forall i, i <> j -> final !! i = pre !! i)
          /\ (so_cost_cents express = 150 ->
              so_cost_cents <$> final !! j = Some 440))
  /\ (forall i o, pre !! i = Some o -> so_cost_cents o <= 0 -> final !! i = Some o)
  /\ (forall standard express,
        List.find is_standard pre = Some standard ->
        List.find is_express pre = Some express ->
        so_cost_cents standard <> so_cost_cents express
        \/ so_cost_cents express <= 0 ->
        final = pre)
  /\ (List.find is_standard pre = None \/ List.find is_express pre = None ->
      final = pre).
Proof.
  intros pre final. split; [|split; [|split; [|split]]].
  - intros o. unfold is_standard, is_express. rewrite !has_speed_lower.
    split; reflexivity.
  - intros standard express Hs He Heq Hpos.
    assert (Hfire : final = update_first is_express recompute pre)
      by exact (tie_break_fires _ _ _ Hs He Heq Hpos).
    destruct (find_first_position is_express recompute pre express He)
      as (j & Hj & Hbefore & Hupd & Hother).
    exists j. rewrite Hfire.
    split; [exact Hj|]. split; [exact Hbefore|]. split; [exact Hupd|].
    split; [apply ceil_1_6_least|]. split; [exact Hother|].
    intros H150. rewrite Hupd. simpl. rewrite H150. reflexivity.
  - intros i o Hi Hle. subst final. unfold summary_shipping_options.
    destruct (tie_break_lookup _ _ _ Hi) as [H|(_ & _ & Hpos & _)];
      [exact H|lia].
  - intros standard express Hs He Hno. subst final.
    unfold summary_shipping_options, tie_break. fold pre. rewrite Hs, He.
    replace ((so_cost_cents standard =? so_cost_cents express)
             && (0 <? so_cost_cents express)) with false.
    + destruct (2 <=? length pre)%nat; reflexivity.
    + symmetry. apply andb_false_iff. destruct Hno as [Hne|Hle].
      * left. apply Z.eqb_neq, Hne.
      * right. apply Z.ltb_ge, Hle.
  - intros Hnone. subst final.
    unfold summary_shipping_options, tie_break. fold pre.
    destruct (2 <=? length pre)%nat; [|reflexivity].
    destruct Hnone as [-> | H].
    + reflexivity.
    + rewrite H. destruct (List.find is_standard pre); reflexivity.
Qed.

Lemma tie_break_recomputes_first_express_witness :
  so_cost_cents <$>
    summary_shipping_options
      [mk_method "std" "Standard" 5000 None; mk_method "exp" "EXPRESS" 5000 None]
      1500 !! 1%nat
  = Some 440.
Proof.
  destruct (proj1 (proj2
              (tie_break_recomputes_first_express
                 [mk_method "std" "Standard" 5000 None;
                  mk_method "exp" "EXPRESS" 5000 None] 1500))
              (option_of_method 1500 (mk_method "std" "Standard" 5000 None))
              (option_of_method 1500 (mk_method "exp" "EXPRESS" 5000 None))
              eq_refl eq_refl eq_refl eq_refl)
    as (j & Hj & _ & _ & _ & _ & H440).
  destruct j as [|[|j]]; [discriminate Hj| |discriminate Hj].
  apply H440. reflexivity.
Defined.

(** C5: a method whose free_over_cents is set and reached by the subtotal
    is quoted exactly 0, in the summary's shipping options (the cap and the
    tie-break leave a zero cost alone) and in place-order's shipping_cents
    (the surcharge and the cap are both guarded by a positive cost). *)
Theorem free_over_threshold_costs_zero
    (rows alt : list shipping_method) (subtotal_cents t : Z)
    (i : nat) (m : shipping_method) :
  rows !! i = Some m ->
  sm_free_over_cents m = Some t ->
  t <= subtotal_cents ->
  (exists o, summary_shipping_options rows subtotal_cents !! i = Some o
             /\ so_id o = sm_id m /\ so_cost_cents o = 0)
  /\ place_shipping_cents m alt subtotal_cents = 0.
Proof.
  intros Hi Hf Ht. split.
  - eapply summary_free_over_zero; eassumption.
  - eapply place_free_over_zero; eassumption.
Qed.

Lemma free_over_threshold_costs_zero_witness :
  place_shipping_cents (mk_method "exp" "express" 10000 (Some 200000))
    [mk_method "std" "standard" 5000 (Some 200000)] 250000 = 0.
Proof.
  refine (proj2 (free_over_threshold_costs_zero
            [mk_method "exp" "express" 10000 (Some 200000)]
            [mk_method "std" "standard" 5000 (Some 200000)]
            250000 200000 0%nat _ eq_refl eq_refl _)).
  vm_compute. discriminate.
Defined.

(** The same at the handlers: in a successful summary, the option at the
    position of a zone method whose threshold is reached costs 0. *)
Lemma summary_response_free_over_zero auth d items subtotal_cents addrs sel opts st :
  summary_response auth d = json (SummaryOk items subtotal_cents addrs sel opts) st ->
  exists a,
    sel = a_id a
    /\ forall i m t,
         active_methods_of_zone d (zone_of a) !! i = Some m ->
         sm_free_over_cents m = Some t -> t <= subtotal_cents ->
         exists o, opts !! i = Some o /\ so_id o = sm_id m /\ so_cost_cents o = 0.
Proof.
  intros H. apply summary_ok_inv in H.
  destruct H as (u & a & _ & _ & _ & _ & _ & Hsel & ->).
  exists a. split; [exact Hsel|].
  intros i m t. apply summary_free_over_zero.
Qed.

(** And an order is charged 0 when the chosen method's threshold is reached
    by the order's subtotal. *)
Lemma place_decide_free_over_zero d auth body now orderId plan t :
  place_decide d auth body now orderId = inr plan ->
  sm_free_over_cents (pp_method plan) = Some t ->
  t <= o_subtotal_cents (pp_order plan) ->
  o_shipping_cents (pp_order plan) = 0
  /\ o_total_cents (pp_order plan) = o_subtotal_cents (pp_order plan).
Proof.
  intros H. apply place_decide_inr in H.
  destruct H as (u & raw & v & sub & sa & sm & _ & _ & _ & _ & _ & _ & _ & _ & ->).
  simpl. intros Hf Ht.
  rewrite (place_free_over_zero sm _ sub t Hf Ht). split; lia.
Qed.

(** ** The cart handler *)

Lemma cartUpdateSchema_inr raw v :
  cartUpdateSchema raw = inr v ->
  cb_product_id raw = Some (cv_product_id v)
  /\ cb_qty raw = Some (cv_qty v)
  /\ 1 <= cv_qty v <= 999
  /\ cv_operation v = default "set" (cb_operation raw)
  /\ valid_operation (cv_operation v) = true.
Proof.
  unfold cartUpdateSchema. intros H.
  destruct (cb_product_id raw) as [s|]; [|discriminate].
  destruct (1 <=? Z.of_nat (String.length s)); [|discriminate].
  destruct (cb_qty raw) as [q|]; [|discriminate].
  destruct (Z.leb_spec 1 q); [|discriminate].
  destruct (Z.leb_spec q 999); [|discriminate].
  destruct (cb_operation raw) as [o|]; simpl in *.
  - destruct (valid_operation o) eqn:Ho; [|discriminate].
    inversion H; subst; simpl. repeat split; try lia. exact Ho.
  - inversion H; subst; simpl. repeat split; lia.
Qed.

Lemma cartUpdateSchema_valid product_id qty operation :
  product_id <> "" -> 1 <= qty <= 999 ->
  valid_operation (default "set" operation) = true ->
  cartUpdateSchema (cart_request product_id qty operation)
  = inr {| cv_product_id := product_id; cv_qty := qty;
           cv_operation := default "set" operation |}.
Proof.
  intros Hp Hq Ho. unfold cartUpdateSchema, cart_request. simpl.
  destruct product_id as [|c s]; [congruence|].
  replace (1 <=? Z.of_nat (String.length (String c s))) with true
    by (symmetry; apply Z.leb_le; simpl; lia).
  replace (1 <=? qty) with true by (symmetry; apply Z.leb_le; lia).
  replace (qty <=? 999) with true by (symmetry; apply Z.leb_le; lia).
  destruct operation as [o|]; simpl in *; [rewrite Ho|]; reflexivity.
Qed.

(** What the handler has established when it reaches its write. *)
Lemma cart_decide_inr d auth body user_id product_id w :
  cart_decide d auth body = inr (user_id, product_id, w) ->
  auth = Some user_id
  /\ (exists raw v, body = Some raw /\ cartUpdateSchema raw = inr v
                    /\ cv_product_id v = product_id)
  /\ match w with
     | DeleteLine existing =>
         existing = bool_decide (is_Some (cart_items d !! (user_id, product_id)))
     | UpsertLine newQty available =>
         1 <= newQty /\ available = available_of d product_id
     end.
Proof.
  unfold cart_decide. intros H.
  destruct auth as [u|]; [|discriminate].
  destruct body as [raw|]; [|discriminate].
  destruct (cartUpdateSchema raw) as [|v] eqn:Hv; [discriminate|].
  destruct (products d !! cv_product_id v) as [p|]; [|discriminate].
  destruct (String.eqb (p_status p) "active"); [|discriminate].
  unfold current_qty in H.
  destruct (cart_items d !! (u, cv_product_id v)) as [ci|] eqn:Hex.
  all: match type of H with
       | context [match ?c with Some _ => _ | None => false end] => destruct c
       end.
  all: repeat match type of H with
         | (if ?b then inl _ else _) = _ => destruct b; [discriminate|]
         | (match (if ?b then _ else _) with _ => _ end) = _ => destruct b
         | (match (match ?o with Some _ => _ | None => _ end) with _ => _ end) = _ =>
             destruct o
         | inl _ = inr _ => discriminate
         end.
  all: cbv zeta in H.
  all: repeat match type of H with
         | (if ?b then inl _ else _) = _ => destruct b; [discriminate|]
         end.
  all: match type of H with
       | (if ?x <=? 0 then _ else _) = _ => destruct (Z.leb_spec x 0)
       end; inversion H; subst; clear H.
  all: split; [reflexivity|]; split; [eauto|].
  all: try (rewrite Hex; reflexivity).
  all: split; [lia|reflexivity].
Qed.

(** One step through a handler's chain of early returns. *)
Ltac early_return_step H :=
  match type of H with
  | inr _ = inl _ => discriminate
  | inl _ = inr _ => discriminate
  | (match (match ?o with Some _ => _ | None => _ end) with _ => _ end) = _ =>
      destruct o
  | (match (match ?o with inl _ => _ | inr _ => _ end) with _ => _ end) = _ =>
      destruct o
  | (match (if ?b then _ else _) with _ => _ end) = _ => destruct b
  | (if ?b then _ else _) = _ => destruct b
  | _ => progress cbv beta iota zeta in H
  end.

(** Every early return of the handler is an error response. *)
Lemma cart_decide_inl d auth body r :
  cart_decide d auth body = inl r ->
  r_ok r = false /\ reported_qty r = None.
Proof.
  unfold cart_decide. intros H.
  repeat first
    [ early_return_step H
    | match type of H with
      | inl (json _ _) = inl _ => inversion H; subst; clear H; split; reflexivity
      end ].
Qed.

Lemma with_cart_items_id d : with_cart_items d (cart_items d) = d.
Proof. destruct d; reflexivity. Qed.

(** The three ways a cart request ends: an error with no write, the line
    deleted and [qty: 0] reported, or the line upserted with a quantity of
    at least 1. *)
Lemma cart_post_cases auth body now d :
  (r_ok (cart_items_post auth body now d).1 = false
   /\ reported_qty (cart_items_post auth body now d).1 = None
   /\ (cart_items_post auth body now d).2 = d)
  \/ exists u pid,
       auth = Some u /\ body ≫= cb_product_id = Some pid
       /\ ((cart_items_post auth body now d
            = (json (CartRemoved 0) 200,
               with_cart_items d (delete (u, pid) (cart_items d))))
           \/ exists q a,
                1 <= q
                /\ cart_items_post auth body now d
                   = (json (CartUpdated q a) 200,
                      with_cart_items d
                        (<[(u, pid) := {| ci_qty := q; ci_updated_at := now |}]>
                           (cart_items d)))).
Proof.
  unfold cart_items_post.
  destruct (cart_decide d auth body) as [r|[[u pid] w]] eqn:Hd.
  - left. apply cart_decide_inl in Hd. simpl. tauto.
  - right. apply cart_decide_inr in Hd.
    destruct Hd as (-> & (raw & v & -> & Hv & <-) & Hw).
    apply cartUpdateSchema_inr in Hv. destruct Hv as (Hpid & _).
    exists u, (cv_product_id v). split; [reflexivity|]. split; [exact Hpid|].
    destruct w as [existing|q a].
    + left. subst existing. case_bool_decide as Hex; [reflexivity|].
      rewrite delete_id, with_cart_items_id; [reflexivity|].
      destruct (cart_items d !! (u, cv_product_id v)) eqn:E; [|reflexivity].
      exfalso. apply Hex. eauto.
    + right. exists q, a. split; [apply Hw|reflexivity].
Qed.

Lemma run_cart_cons c calls d :
  run_cart (c :: calls) d
  = ((cart_items_post (cc_auth c) (cc_body c) (cc_now c) d).1
       :: (run_cart calls (cart_items_post (cc_auth c) (cc_body c) (cc_now c) d).2).1,
     (run_cart calls (cart_items_post (cc_auth c) (cc_body c) (cc_now c) d).2).2).
Proof.
  simpl. destruct (cart_items_post _ _ _ d) as [r d1]. simpl.
  destruct (run_cart calls d1); reflexivity.
Qed.

(** A line stored after one request has a quantity of at least 1 or was
    stored, the same, before the request. *)
Lemma cart_post_lines auth body now d k ci :
  cart_items (cart_items_post auth body now d).2 !! k = Some ci ->
  1 <= ci_qty ci \/ cart_items d !! k = Some ci.
Proof.
  destruct (cart_post_cases auth body now d)
    as [(_ & _ & ->)|(u & pid & _ & _ & [->|(q & a & Hq & ->)])]; simpl.
  - tauto.
  - intros H. apply lookup_delete_Some in H. tauto.
  - intros H. apply lookup_insert_Some in H.
    destruct H as [[_ <-]|[_ H]]; simpl; tauto.
Qed.

Lemma run_cart_lines calls d k ci :
  cart_items (run_cart calls d).2 !! k = Some ci ->
  1 <= ci_qty ci \/ cart_items d !! k = Some ci.
Proof.
  revert d. induction calls as [|c calls IH]; intros d; [simpl; tauto|].
  rewrite run_cart_cons. simpl. intros H.
  apply IH in H. destruct H as [H|H]; [tauto|].
  eapply cart_post_lines, H.
Qed.

Lemma cart_post_reported auth body now d q :
  reported_qty (cart_items_post auth body now d).1 = Some q -> 0 <= q.
Proof.
  destruct (cart_post_cases auth body now d)
    as [(_ & Hn & _)|(u & pid & _ & _ & [->|(q' & a & Hq & ->)])]; simpl.
  - rewrite Hn. discriminate.
  - intros [= <-]. lia.
  - intros [= <-]. lia.
Qed.

Lemma run_cart_reported calls d :
  Forall (fun r => forall q, reported_qty r = Some q -> 0 <= q) (run_cart calls d).1.
Proof.
  revert d. induction calls as [|c calls IH]; intros d; [constructor|].
  rewrite run_cart_cons. simpl. constructor; [|apply IH].
  intros q. apply cart_post_reported.
Qed.

Lemma seller_check_passes p u :
  p_seller_id p <> Some u ->
  match p_seller_id p with
  | Some s => negb (String.eqb s "") && String.eqb s u
  | None => false
  end = false.
Proof.
  intros H. destruct (p_seller_id p) as [s|]; [|reflexivity].
  destruct (String.eqb_spec s u) as [->|]; [congruence|].
  apply andb_false_r.
Qed.

(** The response of a request that reports a quantity describes the line
    the request left: none for 0, the reported quantity otherwise. *)
Lemma cart_post_reported_line auth body now d q :
  reported_qty (cart_items_post auth body now d).1 = Some q ->
  exists u pid,
    auth = Some u /\ body ≫= cb_product_id = Some pid
    /\ r_ok (cart_items_post auth body now d).1 = true
    /\ (q = 0 -> cart_items (cart_items_post auth body now d).2 !! (u, pid) = None)
    /\ (q <> 0 ->
        cart_items (cart_items_post auth body now d).2 !! (u, pid)
        = Some {| ci_qty := q; ci_updated_at := now |}).
Proof.
  destruct (cart_post_cases auth body now d)
    as [(_ & Hn & _)|(u & pid & Hu & Hb & [->|(q' & a & Hq & ->)])]; simpl.
  - rewrite Hn. discriminate.
  - intros [= <-]. exists u, pid. repeat split; try assumption.
    + intros _. apply lookup_delete_eq.
    + congruence.
  - intros [= <-]. exists u, pid. repeat split; try assumption.
    + lia.
    + intros _. apply lookup_insert_eq.
Qed.

(** Removing the whole quantity of a line deletes the line. *)
Lemma cart_remove_all_deletes d u pid p ci now :
  products d !! pid = Some p -> p_status p = "active" ->
  p_seller_id p <> Some u -> pid <> "" ->
  cart_items d !! (u, pid) = Some ci -> 1 <= ci_qty ci <= 999 ->
  cart_items_post (Some u) (Some (cart_request pid (ci_qty ci) (Some "remove"))) now d
  = (json (CartRemoved 0) 200,
     with_cart_items d (delete (u, pid) (cart_items d))).
Proof.
  intros Hp Hst Hsel Hpid Hci Hq.
  unfold cart_items_post, cart_decide.
  rewrite cartUpdateSchema_valid; [|assumption..|reflexivity].
  cbn [cv_product_id cv_qty cv_operation].
  rewrite Hp, Hst, String.eqb_refl. cbv beta iota.
  rewrite (seller_check_passes p u Hsel).
  cbv beta iota zeta. unfold current_qty. rewrite Hci. cbn.
  rewrite Z.ltb_irrefl, Z.sub_diag. reflexivity.
Qed.

(** C6: over any sequence of cart requests (set, add or remove) from any
    cart state, every reported qty is at least 0; no request stores a line
    with a quantity under 1 (a line found afterwards has qty of at least 1
    or is a line of the initial state that no request wrote), so carts whose
    lines all have qty of at least 1 stay so; a reported qty of 0 is a
    success that leaves no line for the product, any other reported qty is
    the stored one; and removing the whole quantity of a line deletes it. *)
Theorem cart_quantities_stay_valid (calls : list cart_call) (d : db) :
  Forall (fun r => forall q, reported_qty r = Some q -> 0 <= q) (run_cart calls d).1
  /\ (forall k ci, cart_items (run_cart calls d).2 !! k = Some ci ->
                   1 <= ci_qty ci \/ cart_items d !! k = Some ci)
  /\ (cart_inv d -> cart_inv (run_cart calls d).2)
  /\ (forall auth body now q,
        reported_qty (cart_items_post auth body now d).1 = Some q ->
        exists u pid,
          auth = Some u /\ body ≫= cb_product_id = Some pid
          /\ r_ok (cart_items_post auth body now d).1 = true
          /\ (q = 0 ->
              cart_items (cart_items_post auth body now d).2 !! (u, pid) = None)
          /\ (q <> 0 ->
              cart_items (cart_items_post auth body now d).2 !! (u, pid)
              = Some {| ci_qty := q; ci_updated_at := now |}))
  /\ (forall u pid p ci now,
        products d !! pid = Some p -> p_status p = "active" ->
        p_seller_id p <> Some u -> pid <> "" ->
        cart_items d !! (u, pid) = Some ci -> 1 <= ci_qty ci <= 999 ->
        cart_items_post (Some u)
          (Some (cart_request pid (ci_qty ci) (Some "remove"))) now d
        = (json (CartRemoved 0) 200,
           with_cart_items d (delete (u, pid) (cart_items d)))).
Proof.
  split; [apply run_cart_reported|].
  split; [apply run_cart_lines|].
  split.
  - intros Hinv k ci Hk.
    destruct (run_cart_lines calls d k ci Hk) as [H|H]; [exact H|].
    eapply Hinv, H.
  - split.
    + intros auth body now q. apply cart_post_reported_line.
    + intros u pid p ci now. apply cart_remove_all_deletes.
Qed.

(** C7: a set or add request that raises the line above its current
    quantity and above [available = stock - reserved] is rejected with
    status 400 and the database is left as it was: "out of stock" (with
    [available: 0]) when nothing is available, "exceeds available" carrying
    the available count when something is. *)
Theorem increase_beyond_available_rejected
    (d : db) (u pid : string) (qty : Z) (operation : option string)
    (now : string) (p : product) :
  products d !! pid = Some p -> p_status p = "active" ->
  p_seller_id p <> Some u ->
  pid <> "" -> 1 <= qty <= 999 ->
  default "set" operation = "set" \/ default "set" operation = "add" ->
  let currentQty := current_qty d u pid in
  let available := available_of d pid in
  let newQty :=
    if String.eqb (default "set" operation) "set" then qty else currentQty + qty in
  currentQty < newQty -> available < newQty ->
  (available <= 0 ->
   cart_items_post (Some u) (Some (cart_request pid qty operation)) now d
   = (json (OutOfStock 0) 400, d))
  /\ (0 < available ->
      cart_items_post (Some u) (Some (cart_request pid qty operation)) now d
      = (json (ExceedsAvailable available) 400, d)).
Proof.
  intros Hp Hst Hsel Hpid Hq Hop currentQty available newQty Hinc Hexc.
  assert (H : cart_items_post (Some u) (Some (cart_request pid qty operation)) now d
              = (json (if available <=? 0 then OutOfStock 0
                       else ExceedsAvailable available) 400, d)).
  { unfold cart_items_post, cart_decide.
    rewrite cartUpdateSchema_valid;
      [|assumption..|destruct Hop as [->| ->]; reflexivity].
    cbn [cv_product_id cv_qty cv_operation].
    rewrite Hp, Hst, String.eqb_refl. cbv beta iota.
    rewrite (seller_check_passes p u Hsel).
    cbv beta iota zeta.
    fold currentQty available. subst newQty. clearbody currentQty available.
    destruct Hop as [Ho|Ho]; rewrite Ho in *; cbn in *.
    - replace (currentQty <? qty) with true by (symmetry; apply Z.ltb_lt; lia).
      replace (available <? qty) with true by (symmetry; apply Z.ltb_lt; lia).
      destruct (available <=? 0); reflexivity.
    - replace (currentQty <? currentQty + qty) with true
        by (symmetry; apply Z.ltb_lt; lia).
      replace (available <? currentQty + qty) with true
        by (symmetry; apply Z.ltb_lt; lia).
      destruct (available <=? 0); reflexivity. }
  rewrite H. split; intros Ha.
  - replace (available <=? 0) with true by (symmetry; apply Z.leb_le; lia).
    reflexivity.
  - replace (available <=? 0) with false by (symmetry; apply Z.leb_gt; lia).
    reflexivity.
Qed.

(** ** The commit sequence *)

(** The statements run in order up to the failing one; the handler reports
    success exactly when none failed. *)
Lemma run_writes_prefix fail_at ws d :
  run_writes fail_at ws d
  = (match fail_at with
     | Some k => (length ws <=? k)%nat
     | None => true
     end,
     apply_writes (applied_prefix fail_at ws) d).
Proof.
  revert fail_at d. induction ws as [|w ws IH]; intros fail_at d.
  - destruct fail_at as [[|k]|]; reflexivity.
  - destruct fail_at as [[|k]|]; simpl.
    + reflexivity.
    + rewrite IH. reflexivity.
    + rewrite IH. reflexivity.
Qed.

Lemma apply_writes_app ws1 ws2 d :
  apply_writes (ws1 ++ ws2) d = apply_writes ws2 (apply_writes ws1 d).
Proof. unfold apply_writes. apply fold_left_app. Qed.

Section ItemWrites.
Variables (ids : nat -> string) (orderId now : string).

Lemma item_writes_orders items n d :
  orders (apply_writes (item_writes ids n orderId now items) d) = orders d.
Proof.
  revert n d. induction items as [|it r IH]; intros n d; [reflexivity|].
  simpl. unfold apply_writes in *. simpl. rewrite IH. reflexivity.
Qed.

Lemma item_writes_cart items n d :
  cart_items (apply_writes (item_writes ids n orderId now items) d)
  = cart_items d.
Proof.
  revert n d. induction items as [|it r IH]; intros n d; [reflexivity|].
  simpl. unfold apply_writes in *. simpl. rewrite IH. reflexivity.
Qed.

Lemma item_writes_order_items items n d :
  order_items (apply_writes (item_writes ids n orderId now items) d)
  = (order_items d ++ item_rows ids n orderId items)%list.
Proof.
  revert n d. induction items as [|it r IH]; intros n d.
  - simpl. rewrite app_nil_r. reflexivity.
  - simpl. unfold apply_writes in *. simpl. rewrite IH. simpl.
    rewrite <- app_assoc. reflexivity.
Qed.

Lemma item_writes_inventory items n d :
  inventory (apply_writes (item_writes ids n orderId now items) d)
  = decrement_all now items (inventory d).
Proof.
  revert n d. induction items as [|it r IH]; intros n d; [reflexivity|].
  simpl. unfold apply_writes, decrement_all in *. simpl. rewrite IH.
  reflexivity.
Qed.

Lemma item_writes_length items n :
  length (item_writes ids n orderId now items) = (2 * length items)%nat.
Proof.
  revert n. induction items as [|it r IH]; intros n; [reflexivity|].
  simpl. rewrite IH. lia.
Qed.
End ItemWrites.

(** Only the first statement of the commit touches [orders]. *)
Lemma apply_writes_take_orders ws k d :
  Forall (fun w => match w with InsertOrder _ => False | _ => True end) ws ->
  orders (apply_writes (take k ws) d) = orders d.
Proof.
  intros H. revert k d. induction H as [|w ws Hw _ IH]; intros k d.
  - destruct k; reflexivity.
  - destruct k as [|k]; [reflexivity|].
    simpl. unfold apply_writes in *. simpl. rewrite IH.
    destruct w; try reflexivity. contradiction.
Qed.

Lemma item_writes_no_order ids n orderId now items :
  Forall (fun w => match w with InsertOrder _ => False | _ => True end)
         (item_writes ids n orderId now items).
Proof.
  revert n. induction items as [|it r IH]; intros n; simpl; auto.
Qed.

(** The orders table after a commit, failed or not: unchanged when the
    order insert itself failed, one row longer otherwise. *)
Lemma commit_orders ids now plan fail_at d :
  orders (apply_writes (applied_prefix fail_at (commit_writes ids now plan)) d)
  = match fail_at with
    | Some O => orders d
    | _ => (orders d ++ [pp_order plan])%list
    end.
Proof.
  unfold commit_writes.
  set (rest := (item_writes ids 1 (o_id (pp_order plan)) now (pp_items plan)
                ++ [ClearCart (pp_user_id plan)])%list).
  assert (Hno : Forall (fun w => match w with InsertOrder _ => False | _ => True end)
                  rest).
  { apply Forall_app. split; [apply item_writes_no_order|]. auto. }
  clearbody rest.
  destruct fail_at as [[|k]|]; simpl.
  - reflexivity.
  - change (orders (apply_writes (take k rest)
                      (apply_write (InsertOrder (pp_order plan)) d))
            = (orders d ++ [pp_order plan])%list).
    rewrite (apply_writes_take_orders rest k _ Hno). reflexivity.
  - change (orders (apply_writes rest
                      (apply_write (InsertOrder (pp_order plan)) d))
            = (orders d ++ [pp_order plan])%list).
    rewrite <- (firstn_all rest).
    rewrite (apply_writes_take_orders rest _ _ Hno). reflexivity.
Qed.

(** ** The place-order handler *)

Lemma place_decide_inl d auth body now orderId r :
  place_decide d auth body now orderId = inl r -> r_ok r = false.
Proof.
  unfold place_decide. intros H.
  destruct auth as [u|]; [|inversion H; reflexivity].
  destruct body as [raw|]; [|inversion H; reflexivity].
  destruct (checkoutPlaceSchema raw) as [|value]; [inversion H; reflexivity|].
  cbv beta iota zeta in H.
  destruct (length (load_cart d u) =? 0)%nat; [inversion H; reflexivity|].
  assert (Hcs : forall items acc r', check_stock items acc = inl r' -> r_ok r' = false).
  { induction items as [|it its IH]; intros acc r' Hr; simpl in Hr; [discriminate|].
    destruct (_ <? _); [inversion Hr; reflexivity|]. eapply IH, Hr. }
  destruct (check_stock (load_cart d u) 0) as [r'|subtotal_cents] eqn:E.
  { inversion H; subst. eapply Hcs, E. }
  repeat first
    [ early_return_step H
    | match type of H with
      | inl (json _ _) = inl _ => inversion H; subst; clear H; reflexivity
      end ].
Qed.

Lemma place_order_rejected d auth body now ids fail_at r :
  place_decide d auth body now (ids O) = inl r ->
  place_order auth body now ids fail_at d = (r, d).
Proof. unfold place_order. intros ->. reflexivity. Qed.

(** Once the checks have passed, the handler's answer and the database it
    leaves are decided by how far the commit statements ran. *)
Lemma place_order_committed d auth body now ids fail_at plan :
  place_decide d auth body now (ids O) = inr plan ->
  place_order auth body now ids fail_at d
  = (if match fail_at with
        | Some k => (length (commit_writes ids now plan) <=? k)%nat
        | None => true
        end
     then json (OrderPlaced (order_summary_of plan)) 200
     else json InternalError 500,
     apply_writes (applied_prefix fail_at (commit_writes ids now plan)) d).
Proof.
  unfold place_order. intros ->. rewrite run_writes_prefix.
  destruct fail_at as [k|]; [|reflexivity].
  destruct (length _ <=? k)%nat; reflexivity.
Qed.

Lemma fold_left_subtotal items acc :
  fold_left (fun sum item => sum + cl_price_cents item * cl_qty item) items acc
  = acc + sum_price_qty items.
Proof.
  revert acc. induction items as [|it r IH]; intros acc; simpl.
  - lia.
  - rewrite IH. unfold sum_price_qty. simpl. lia.
Qed.

(** The order a plan holds adds up. *)
Lemma plan_order_totals d auth body now orderId plan :
  place_decide d auth body now orderId = inr plan ->
  o_tax_cents (pp_order plan) = 0
  /\ o_total_cents (pp_order plan)
     = o_subtotal_cents (pp_order plan) + o_shipping_cents (pp_order plan)
       + o_tax_cents (pp_order plan)
  /\ o_subtotal_cents (pp_order plan)
     = sum_price_qty (load_cart d (o_user_id (pp_order plan)))
  /\ pp_items plan = load_cart d (o_user_id (pp_order plan)).
Proof.
  intros H. apply place_decide_inr in H.
  destruct H as (u & raw & v & sub & sa & sm & _ & _ & _ & _ & Hcs & _ & _ & _ & ->).
  simpl. apply check_stock_subtotal in Hcs. rewrite fold_left_subtotal in Hcs.
  repeat split; lia.
Qed.

(** C8: every order row place-order writes has tax_cents = 0 and
    total_cents = subtotal_cents + shipping_cents + tax_cents, and its
    subtotal_cents is the sum of price_cents * qty over the buyer's cart
    lines; a successful call writes exactly one such row, and whatever
    happens to the later statements no other row is added. *)
Theorem order_rows_add_up
    (auth : option string) (body : option place_body) (now : string)
    (ids : nat -> string) (fail_at : option nat) (d : db) :
  exists new,
    orders (place_order auth body now ids fail_at d).2 = (orders d ++ new)%list
    /\ Forall (fun o =>
                 o_tax_cents o = 0
                 /\ o_total_cents o
                    = o_subtotal_cents o + o_shipping_cents o + o_tax_cents o
                 /\ o_subtotal_cents o = sum_price_qty (load_cart d (o_user_id o)))
              new
    /\ (r_ok (place_order auth body now ids fail_at d).1 = true ->
        exists o s,
          new = [o]
          /\ r_body (place_order auth body now ids fail_at d).1 = OrderPlaced s
          /\ os_subtotal_cents s = o_subtotal_cents o
          /\ os_shipping_cents s = o_shipping_cents o
          /\ os_tax_cents s = o_tax_cents o
          /\ os_total_cents s = o_total_cents o).
Proof.
  destruct (place_decide d auth body now (ids O)) as [r|plan] eqn:Hd.
  - rewrite (place_order_rejected _ _ _ _ _ fail_at _ Hd). simpl.
    exists []. rewrite app_nil_r. split; [reflexivity|]. split; [constructor|].
    rewrite (place_decide_inl _ _ _ _ _ _ Hd). discriminate.
  - rewrite (place_order_committed _ _ _ _ _ fail_at _ Hd). simpl.
    rewrite commit_orders.
    destruct (plan_order_totals _ _ _ _ _ _ Hd) as (Ht & Htot & Hsub & _).
    destruct fail_at as [[|k]|].
    + exists []. rewrite app_nil_r. split; [reflexivity|]. split; [constructor|].
      simpl. discriminate.
    + exists [pp_order plan]. split; [reflexivity|].
      split; [constructor; [tauto|constructor]|].
      match goal with
      | |- context [if ?b then _ else _] => destruct b
      end; simpl; [|discriminate].
      intros _. exists (pp_order plan), (order_summary_of plan).
      repeat split; reflexivity.
    + exists [pp_order plan]. split; [reflexivity|].
      split; [constructor; [tauto|constructor]|].
      intros _. exists (pp_order plan), (order_summary_of plan).
      repeat split; reflexivity.
Qed.

(** ** The empty cart *)

Lemma omap_all_none {A B} (f : A -> option B) (l : list A) :
  (forall x, x ∈ l -> f x = None) -> omap f l = [].
Proof.
  induction l as [|x r IH]; intros H; [reflexivity|].
  simpl. rewrite (H x) by constructor.
  apply IH. intros y Hy. apply H. constructor. exact Hy.
Qed.

(** A user without cart rows gets no line out of the cart query. *)
Lemma load_cart_empty d u :
  (forall pid, cart_items d !! (u, pid) = None) -> load_cart d u = [].
Proof.
  intros Hnone. unfold load_cart. apply omap_all_none.
  intros [[u' pid] ci] Hin. apply elem_of_map_to_list in Hin.
  unfold join_cart_row. destruct (decide (u' = u)) as [->|]; [|reflexivity].
  rewrite Hnone in Hin. discriminate.
Qed.

(** C9: for a user whose cart is empty, place-order answers with the
    "Cart is empty" conflict (status 400) whenever the request itself is
    well formed, never succeeds, and leaves every table as it was; the
    summary answers with the same error and changes nothing either. *)
Theorem empty_cart_conflict (d : db) (u : string) :
  (forall pid, cart_items d !! (u, pid) = None) ->
  (forall raw value now ids fail_at,
     checkoutPlaceSchema raw = inr value ->
     place_order (Some u) (Some raw) now ids fail_at d = (json CartEmpty 400, d))
  /\ (forall body now ids fail_at,
        r_ok (place_order (Some u) body now ids fail_at d).1 = false
        /\ (place_order (Some u) body now ids fail_at d).2 = d)
  /\ checkout_summary (Some u) d = (json CartEmpty 400, d).
Proof.
  intros Hnone. pose proof (load_cart_empty d u Hnone) as Hempty.
  assert (Hdec : forall raw value now orderId,
             checkoutPlaceSchema raw = inr value ->
             place_decide d (Some u) (Some raw) now orderId = inl (json CartEmpty 400)).
  { intros raw value now orderId Hv. unfold place_decide.
    rewrite Hv. cbv beta iota zeta. rewrite Hempty. reflexivity. }
  split; [|split].
  - intros raw value now ids fail_at Hv.
    apply place_order_rejected. eapply Hdec, Hv.
  - intros body now ids fail_at.
    destruct (place_decide d (Some u) body now (ids O)) as [r|plan] eqn:E.
    + rewrite (place_order_rejected _ _ _ _ _ fail_at _ E). simpl.
      split; [|reflexivity]. eapply place_decide_inl, E.
    + exfalso. apply place_decide_inr in E.
      destruct E as (u' & raw & v & sub & sa & sm & Hu & _ & _ & Hne & _).
      inversion Hu; subst u'. apply Hne, Hempty.
  - unfold checkout_summary, summary_response. rewrite Hempty. reflexivity.
Qed.

(** ** The billing address *)

Lemma checkoutPlaceSchema_billing raw b :
  b <> "" ->
  match checkoutPlaceSchema (with_billing raw None) with
  | inl errs => checkoutPlaceSchema (with_billing raw (Some b)) = inl errs
  | inr v =>
      pv_billing_address_id v = None
      /\ checkoutPlaceSchema (with_billing raw (Some b))
         = inr {| pv_shipping_method_id := pv_shipping_method_id v;
                  pv_shipping_address_id := pv_shipping_address_id v;
                  pv_billing_address_id := Some b |}
  end.
Proof.
  intros Hb. unfold checkoutPlaceSchema, with_billing. simpl.
  assert (Hne : nonempty b = true).
  { unfold nonempty. destruct (String.eqb_spec b ""); [contradiction|reflexivity]. }
  rewrite Hne. simpl.
  destruct (pb_shipping_method_id raw) as [m|];
    destruct (pb_shipping_address_id raw) as [a|]; simpl;
    try destruct (nonempty m); try destruct (nonempty a); simpl;
    try reflexivity; split; reflexivity.
Qed.

(** The checks of place-order do not look at the billing address: with any
    non-empty billing id the handler stops at the same error or builds the
    same plan, the billing id on the order apart. *)
Lemma place_decide_billing d auth raw b now orderId :
  b <> "" ->
  match place_decide d auth (Some (with_billing raw None)) now orderId with
  | inl r =>
      place_decide d auth (Some (with_billing raw (Some b))) now orderId = inl r
  | inr plan =>
      o_billing_address_id (pp_order plan) = o_shipping_address_id (pp_order plan)
      /\ place_decide d auth (Some (with_billing raw (Some b))) now orderId
         = inr (plan_with_billing plan b)
  end.
Proof.
  intros Hb. pose proof (checkoutPlaceSchema_billing raw b Hb) as Hs.
  unfold place_decide.
  destruct auth as [u|]; [|reflexivity].
  destruct (checkoutPlaceSchema (with_billing raw None)) as [errs|v].
  { rewrite Hs. reflexivity. }
  destruct Hs as [Hnone ->]. cbv beta iota zeta.
  cbn [pv_shipping_method_id pv_shipping_address_id pv_billing_address_id].
  destruct (length (load_cart d u) =? 0)%nat; [reflexivity|].
  destruct (check_stock (load_cart d u) 0) as [r|sub]; [reflexivity|].
  destruct (List.find _ (addresses d)) as [sa|]; [|reflexivity].
  destruct (List.find _ (shipping_methods d)) as [sm|]; [|reflexivity].
  destruct (negb _); [reflexivity|].
  unfold billing_of. rewrite Hnone. simpl. split; [reflexivity|].
  unfold plan_with_billing, order_with_billing. simpl.
  unfold str_or. destruct (String.eqb_spec b ""); [contradiction|reflexivity].
Qed.

Lemma commit_writes_length ids now plan :
  length (commit_writes ids now plan) = (2 + 2 * length (pp_items plan))%nat.
Proof.
  unfold commit_writes. simpl. rewrite length_app, item_writes_length. simpl. lia.
Qed.

(** C10: place-order never fails because of billing_address_id.  Any
    non-empty string is accepted as it is: the handler answers with the same
    status, and on failure the same error, as for the request without a
    billing id, with no lookup of the id among the addresses; the order row
    and the response carry the supplied string verbatim; and when the id is
    omitted they carry the id of the resolved shipping address. *)
Theorem billing_address_is_not_checked
    (d : db) (auth : option string) (raw : place_body) (b : string)
    (now : string) (ids : nat -> string) (fail_at : option nat) :
  b <> "" ->
  let supplied :=
    place_order auth (Some (with_billing raw (Some b))) now ids fail_at d in
  let omitted :=
    place_order auth (Some (with_billing raw None)) now ids fail_at d in
  r_ok supplied.1 = r_ok omitted.1
  /\ r_status supplied.1 = r_status omitted.1
  /\ (r_ok omitted.1 = false -> supplied.1 = omitted.1)
  /\ (forall s, r_body supplied.1 = OrderPlaced s ->
        os_billing_address_id s = b
        /\ exists o, orders supplied.2 = (orders d ++ [o])%list
                     /\ o_billing_address_id o = b)
  /\ (forall s, r_body omitted.1 = OrderPlaced s ->
        os_billing_address_id s = os_shipping_address_id s
        /\ exists o, orders omitted.2 = (orders d ++ [o])%list
                     /\ o_billing_address_id o = o_shipping_address_id o).
Proof.
  intros Hb supplied omitted. subst supplied omitted.
  pose proof (place_decide_billing d auth raw b now (ids O) Hb) as H.
  destruct (place_decide d auth (Some (with_billing raw None)) now (ids O))
    as [r|plan] eqn:Ho.
  - rewrite (place_order_rejected _ _ _ _ _ fail_at _ H).
    rewrite (place_order_rejected _ _ _ _ _ fail_at _ Ho). cbn [fst snd].
    pose proof (place_decide_inl _ _ _ _ _ _ Ho) as Hr.
    split; [reflexivity|]. split; [reflexivity|]. split; [reflexivity|].
    split; intros s Hs; unfold r_ok in Hr; rewrite Hs in Hr; discriminate.
  - destruct H as [Hbill H].
    rewrite (place_order_committed _ _ _ _ _ fail_at _ H).
    rewrite (place_order_committed _ _ _ _ _ fail_at _ Ho).
    rewrite !commit_writes_length. cbn [fst snd plan_with_billing pp_items].
    rewrite !commit_orders.
    match goal with
    | |- context [if ?c then _ else _] => destruct c eqn:Hdone
    end.
    + assert (Hk : fail_at <> Some O).
      { intros ->. simpl in Hdone. discriminate. }
      split; [reflexivity|]. split; [reflexivity|]. split; [discriminate|].
      split; intros s Hs; cbn [r_body] in Hs; inversion Hs; subst s; clear Hs.
      * split; [reflexivity|]. exists (pp_order (plan_with_billing plan b)).
        destruct fail_at as [[|k]|]; [congruence| |]; split; reflexivity.
      * split; [exact Hbill|]. exists (pp_order plan).
        destruct fail_at as [[|k]|]; [congruence| |];
          (split; [reflexivity|exact Hbill]).
    + split; [reflexivity|]. split; [reflexivity|]. split; [reflexivity|].
      split; intros s Hs; discriminate.
Qed.

(** ** Atomicity of the commit *)

Lemma clear_cart_lookup (u : string) (m : gmap (string * string) cart_item)
    (pid : string) :
  filter (fun kv : string * string * cart_item => kv.1.1 ≠ u) m !! (u, pid) = None.
Proof.
  apply map_lookup_filter_None. right. intros x _ Hne. apply Hne. reflexivity.
Qed.



(** ** The statements at work on the scenario *)

Lemma demo_plan_decided :
  place_decide demo_db (Some "u1") (Some (demo_place_body "std" None)) "t1"
    (demo_ids O)
  = inr demo_plan.
Proof. vm_compute. reflexivity. Defined.

Lemma demo_cart_inv : cart_inv demo_db.
Proof.
  intros k ci H. unfold demo_db in H. cbn [cart_items] in H.
  apply lookup_singleton_Some in H. destruct H as [_ <-].
  simpl. lia.
Defined.


Lemma cart_quantities_stay_valid_witness :
  cart_inv demo_db /\ cart_inv (run_cart demo_calls demo_db).2.
Proof.
  split; [exact demo_cart_inv|].
  exact (proj1 (proj2 (proj2 (cart_quantities_stay_valid demo_calls demo_db)))
           demo_cart_inv).
Defined.

Lemma increase_beyond_available_rejected_witness :
  cart_items_post (Some "u1") (Some (cart_request "p1" 3 (Some "add"))) "t1" demo_db
  = (json (ExceedsAvailable 5) 400, demo_db).
Proof.
  pose proof (increase_beyond_available_rejected demo_db "u1" "p1" 3 (Some "add") "t1"
                {| p_title := "Mug"; p_price_cents := 500; p_currency := "USD";
                   p_status := "active"; p_seller_id := Some "seller" |}) as W.
  cbv zeta in W.
  refine (proj2 (W _ _ _ _ _ _ _ _) _).
  - vm_compute. reflexivity.
  - reflexivity.
  - discriminate.
  - discriminate.
  - lia.
  - right. reflexivity.
  - vm_compute. reflexivity.
  - vm_compute. reflexivity.
  - vm_compute. reflexivity.
Defined.

Lemma order_rows_add_up_witness :
  exists o,
    orders (place_order (Some "u1") (Some (demo_place_body "std" None)) "t1"
              demo_ids None demo_db).2 = [o]
    /\ o_total_cents o = 1650.
Proof.
  destruct (order_rows_add_up (Some "u1") (Some (demo_place_body "std" None)) "t1"
              demo_ids None demo_db) as (new & Hnew & _ & Hok).
  destruct (Hok eq_refl) as (o & s & -> & _).
  exists o. split; [exact Hnew|].
  vm_compute in Hnew. inversion Hnew. reflexivity.
Defined.

Lemma empty_cart_conflict_witness :
  (forall pid, cart_items demo_db !! ("u2", pid) = None)
  /\ checkout_summary (Some "u2") demo_db = (json CartEmpty 400, demo_db)
  /\ place_order (Some "u2") (Some (demo_place_body "std" None)) "t1" demo_ids None
       demo_db
     = (json CartEmpty 400, demo_db).
Proof.
  assert (H : forall pid, cart_items demo_db !! ("u2", pid) = None).
  { intros pid. unfold demo_db. cbn [cart_items].
    apply lookup_singleton_ne. congruence. }
  split; [exact H|].
  destruct (empty_cart_conflict demo_db "u2" H) as (Hplace & _ & Hsummary).
  split; [exact Hsummary|].
  eapply Hplace. vm_compute. reflexivity.
Defined.

Lemma billing_address_is_not_checked_witness :
  "no-such-address" <> ""
  /\ r_ok (place_order (Some "u1")
             (Some (with_billing (demo_place_body "std" None)
                      (Some "no-such-address")))
             "t1" demo_ids None demo_db).1
     = true.
Proof.
  assert (H : "no-such-address" <> "") by discriminate.
  split; [exact H|].
  pose proof (billing_address_is_not_checked demo_db (Some "u1")
                (demo_place_body "std" None) "no-such-address" "t1" demo_ids None H)
    as W.
  cbv zeta in W. destruct W as (W & _).
  rewrite W. vm_compute. reflexivity.
Defined.

(** * More of the checkout worker *)

(** ** The order of [ORDER BY created_at DESC] *)

Lemma string_leb_trans (a b c : string) :
  String.leb a b = true -> String.leb b c = true -> String.leb a c = true.
Proof.
  unfold String.leb. revert b c.
  induction a as [|x a IH]; intros [|y b] [|z c]; simpl; try congruence.
  unfold Ascii.compare.
  destruct (N.compare_spec (N_of_ascii x) (N_of_ascii y)) as [Hxy|Hxy|Hxy];
    destruct (N.compare_spec (N_of_ascii y) (N_of_ascii z)) as [Hyz|Hyz|Hyz];
    destruct (N.compare_spec (N_of_ascii x) (N_of_ascii z)) as [Hxz|Hxz|Hxz];
    try congruence; try lia.
  apply IH.
Qed.

Lemma string_leb_refl (a : string) : String.leb a a = true.
Proof. destruct (String.leb_total a a); assumption. Qed.

Section CreatedDesc.
Context {A : Type} (created_at : A -> string).
Variable insert : A -> list A -> list A.
Hypothesis insert_nil : forall a, insert a [] = [a].
Hypothesis insert_cons : forall a b r,
  insert a (b :: r)
  = if String.leb (created_at b) (created_at a) then a :: b :: r
    else b :: insert a r.

Lemma insert_desc_perm a l : Permutation (insert a l) (a :: l).
Proof.
  induction l as [|b r IH]; [rewrite insert_nil; reflexivity|].
  rewrite insert_cons. destruct (String.leb _ _); [reflexivity|].
  rewrite IH. apply perm_swap.
Qed.

Lemma foldr_insert_desc_perm l : Permutation (foldr insert [] l) l.
Proof.
  induction l as [|a l IH]; [reflexivity|].
  simpl. rewrite insert_desc_perm. constructor. exact IH.
Qed.

Lemma insert_desc_sorted a l :
  StronglySorted (created_desc created_at) l ->
  StronglySorted (created_desc created_at) (insert a l).
Proof.
  induction 1 as [|b r Hr IH Hb]; [rewrite insert_nil; repeat constructor|].
  rewrite insert_cons. destruct (String.leb _ _) eqn:Hle.
  - constructor; [constructor; assumption|].
    constructor; [exact Hle|].
    eapply Forall_impl; [exact Hb|].
    intros c Hc. unfold created_desc in *. eapply string_leb_trans; eassumption.
  - constructor; [exact IH|].
    rewrite (insert_desc_perm a r). constructor; [|exact Hb].
    unfold created_desc.
    destruct (String.leb_total (created_at b) (created_at a)); congruence.
Qed.

Lemma foldr_insert_desc_sorted l :
  StronglySorted (created_desc created_at) (foldr insert [] l).
Proof.
  induction l as [|a l IH]; [constructor|].
  simpl. apply insert_desc_sorted, IH.
Qed.
End CreatedDesc.

(** ** GET /api/orders *)

Lemma orders_of_perm d u :
  Permutation (orders_of d u)
    (List.filter (fun o => String.eqb (o_user_id o) u) (orders d)).
Proof.
  unfold orders_of.
  apply (foldr_insert_desc_perm o_created_at insert_order_desc);
    intros; reflexivity.
Qed.

Lemma orders_of_sorted d u :
  StronglySorted (created_desc o_created_at) (orders_of d u).
Proof.
  unfold orders_of.
  apply (foldr_insert_desc_sorted o_created_at insert_order_desc);
    intros; reflexivity.
Qed.

Lemma sorted_map_view (os : list order) :
  StronglySorted (created_desc o_created_at) os ->
  StronglySorted (created_desc ov_created_at) (map view_of_order os).
Proof.
  induction 1 as [|o r Hr IH Ho]; simpl; constructor; [exact IH|].
  apply Forall_forall. intros ov Hov.
  apply list_elem_of_In, in_map_iff in Hov. destruct Hov as (o' & <- & Hin).
  rewrite Forall_forall in Ho. apply Ho, list_elem_of_In, Hin.
Qed.

(** The order list of a signed-in user holds that user's orders, each
    once, and no other; it is sorted by creation time, latest first.
    Without a session the answer is a 401. *)
Theorem orders_list_is_own_and_sorted (d : db) (u : string) :
  orders_get None d = send OrdersNotAuthenticated 401
  /\ exists ovs,
       orders_get (Some u) d = send (OrdersList ovs) 200
       /\ Permutation ovs
            (map view_of_order
               (List.filter (fun o => String.eqb (o_user_id o) u) (orders d)))
       /\ StronglySorted (created_desc ov_created_at) ovs
       /\ (forall ov, In ov ovs ->
             exists o, In o (orders d) /\ o_user_id o = u /\ ov = view_of_order o).
Proof.
  split; [reflexivity|].
  exists (map view_of_order (orders_of d u)).
  split; [reflexivity|]. split.
  { apply Permutation_map, orders_of_perm. }
  split.
  { apply sorted_map_view, orders_of_sorted. }
  intros ov Hov. apply in_map_iff in Hov. destruct Hov as (o & <- & Hin).
  apply (Permutation_in _ (orders_of_perm d u)) in Hin.
  apply filter_In in Hin. destruct Hin as [Hin Hu].
  apply String.eqb_eq in Hu. eauto.
Qed.

(** ** GET /api/orders/:id *)

Lemma find_none_iff {A} (p : A -> bool) (l : list A) :
  List.find p l = None <-> forall x, In x l -> p x = false.
Proof.
  split.
  - intros H x Hx. eapply List.find_none; eassumption.
  - induction l as [|y r IH]; intros H; [reflexivity|].
    simpl. rewrite (H y) by (left; reflexivity).
    apply IH. intros x Hx. apply H. right. exact Hx.
Qed.

Lemma find_app_last {A} (p : A -> bool) (l : list A) (y : A) :
  (forall x, In x l -> p x = false) -> p y = true ->
  List.find p (l ++ [y]) = Some y.
Proof.
  intros Hl Hy. induction l as [|x r IH]; simpl.
  - rewrite Hy. reflexivity.
  - rewrite (Hl x) by (left; reflexivity).
    apply IH. intros z Hz. apply Hl. right. exact Hz.
Qed.

Lemma filter_none {A} (p : A -> bool) (l : list A) :
  (forall x, In x l -> p x = false) -> List.filter p l = [].
Proof.
  induction l as [|x r IH]; intros H; [reflexivity|].
  simpl. rewrite (H x) by (left; reflexivity).
  apply IH. intros z Hz. apply H. right. exact Hz.
Qed.

Lemma filter_all {A} (p : A -> bool) (l : list A) :
  (forall x, In x l -> p x = true) -> List.filter p l = l.
Proof.
  induction l as [|x r IH]; intros H; [reflexivity|].
  simpl. rewrite (H x) by (left; reflexivity).
  f_equal. apply IH. intros z Hz. apply H. right. exact Hz.
Qed.

(** An order's detail is only given to the user who placed it: what the
    handler answers is an order of the caller with the requested id
    together with the items stored under that id, and when every order with
    the requested id belongs to somebody else the answer is "Order not
    found" (404), the same as for an id that does not exist. *)
Theorem order_detail_is_for_the_owner (d : db) (u id : string) :
  (forall ov items,
     sent_body (order_get (Some u) (Some id) d) = OrderDetail ov items ->
     exists o,
       In o (orders d) /\ o_id o = id /\ o_user_id o = u
       /\ ov = view_of_order o
       /\ items
          = map view_of_order_item
              (List.filter (fun oi => String.eqb (oi_order_id oi) id)
                 (order_items d)))
  /\ (id <> "" ->
      (forall o, In o (orders d) -> o_id o = id -> o_user_id o <> u) ->
      order_get (Some u) (Some id) d = send OrderNotFound 404).
Proof.
  unfold order_get. split.
  - intros ov items H.
    destruct (String.eqb id ""); [discriminate|].
    destruct (List.find _ (orders d)) as [o|] eqn:Hf; [|discriminate].
    simpl in H. inversion H; subst; clear H.
    apply find_some_inv in Hf. destruct Hf as [Hp Hin].
    apply andb_true_iff in Hp. destruct Hp as [Hid Hu].
    apply String.eqb_eq in Hid. apply String.eqb_eq in Hu.
    exists o. repeat split; assumption.
  - intros Hid Hother.
    destruct (String.eqb_spec id ""); [contradiction|].
    replace (List.find _ (orders d)) with (@None order); [reflexivity|].
    symmetry. apply find_none_iff. intros o Hin.
    destruct (String.eqb_spec (o_id o) id) as [He|]; [|reflexivity].
    destruct (String.eqb_spec (o_user_id o) u) as [Hu|]; [|reflexivity].
    exfalso. eapply Hother; eassumption.
Qed.

Lemma item_rows_views ids n orderId items :
  map view_of_order_item (item_rows ids n orderId items)
  = map item_view_of_line items.
Proof.
  revert n. induction items as [|it r IH]; intros n; [reflexivity|].
  simpl. rewrite IH. reflexivity.
Qed.

Lemma item_rows_order_id ids n orderId items oi :
  In oi (item_rows ids n orderId items) -> oi_order_id oi = orderId.
Proof.
  revert n. induction items as [|it r IH]; intros n; simpl; [tauto|].
  intros [<-|H]; [reflexivity|]. eapply IH, H.
Qed.

Lemma sum_item_views_lines items :
  sum_item_views (map item_view_of_line items) = sum_price_qty items.
Proof.
  induction items as [|it r IH]; [reflexivity|].
  unfold sum_item_views, sum_price_qty in *. simpl. rewrite IH. reflexivity.
Qed.

(** A successful place-order went through the plan and every statement. *)
Lemma place_order_ok_inv d auth body now ids fail_at :
  r_ok (place_order auth body now ids fail_at d).1 = true ->
  exists plan,
    place_decide d auth body now (ids O) = inr plan
    /\ place_order auth body now ids fail_at d
       = (json (OrderPlaced (order_summary_of plan)) 200,
          apply_writes (commit_writes ids now plan) d).
Proof.
  intros Hok.
  destruct (place_decide d auth body now (ids O)) as [r|plan] eqn:Hd.
  - rewrite (place_order_rejected _ _ _ _ _ fail_at _ Hd) in Hok. simpl in Hok.
    rewrite (place_decide_inl _ _ _ _ _ _ Hd) in Hok. discriminate.
  - exists plan. split; [reflexivity|].
    rewrite (place_order_committed _ _ _ _ _ fail_at _ Hd) in *.
    destruct fail_at as [k|]; [|reflexivity].
    cbn [fst applied_prefix] in *.
    destruct (length (commit_writes ids now plan) <=? k)%nat eqn:Hk;
      [|discriminate].
    rewrite firstn_all2; [reflexivity|].
    apply Nat.leb_le. exact Hk.
Qed.

(** The database a complete commit leaves, table by table. *)
Lemma commit_state ids now plan d :
  let d' := apply_writes (commit_writes ids now plan) d in
  products d' = products d
  /\ addresses d' = addresses d
  /\ shipping_methods d' = shipping_methods d
  /\ orders d' = (orders d ++ [pp_order plan])%list
  /\ order_items d'
     = (order_items d
        ++ item_rows ids 1 (o_id (pp_order plan)) (pp_items plan))%list
  /\ inventory d' = decrement_all now (pp_items plan) (inventory d)
  /\ cart_items d'
     = filter (fun kv => kv.1.1 ≠ pp_user_id plan) (cart_items d).
Proof.
  assert (Hframe : forall ws d0,
             products (apply_writes ws d0) = products d0
             /\ addresses (apply_writes ws d0) = addresses d0
             /\ shipping_methods (apply_writes ws d0) = shipping_methods d0).
  { induction ws as [|w ws IH]; intros d0; [repeat split|].
    unfold apply_writes in *. simpl.
    destruct (IH (apply_write w d0)) as (-> & -> & ->).
    destruct w; repeat split. }
  intros d'. destruct (Hframe (commit_writes ids now plan) d) as (Hp & Ha & Hs).
  split; [exact Hp|]. split; [exact Ha|]. split; [exact Hs|].
  subst d'. unfold commit_writes.
  change (InsertOrder (pp_order plan) :: ?l)%list
    with ([InsertOrder (pp_order plan)] ++ l)%list.
  rewrite !apply_writes_app. simpl.
  rewrite item_writes_orders, item_writes_order_items, item_writes_inventory,
    item_writes_cart.
  repeat split; reflexivity.
Qed.

(** An order that place-order accepted can be read back by its buyer under
    the id the response gave: the detail shows the money columns of the
    response, status "placed", and one item per cart line with the title,
    price and quantity the cart query showed when the order was placed; the
    items add up to the subtotal.  The order id must be fresh (no order or
    order item already stored under it) and not empty. *)
Theorem placed_order_reads_back
    (d : db) (auth : option string) (body : option place_body) (now : string)
    (ids : nat -> string) (fail_at : option nat) :
  r_ok (place_order auth body now ids fail_at d).1 = true ->
  ids O <> "" ->
  (forall o, In o (orders d) -> o_id o <> ids O) ->
  (forall oi, In oi (order_items d) -> oi_order_id oi <> ids O) ->
  exists u s ov items,
    auth = Some u
    /\ r_body (place_order auth body now ids fail_at d).1 = OrderPlaced s
    /\ os_id s = ids O
    /\ order_get auth (Some (os_id s)) (place_order auth body now ids fail_at d).2
       = send (OrderDetail ov items) 200
    /\ ov_id ov = os_id s /\ ov_status ov = "placed"
    /\ ov_subtotal_cents ov = os_subtotal_cents s
    /\ ov_shipping_cents ov = os_shipping_cents s
    /\ ov_tax_cents ov = os_tax_cents s
    /\ ov_total_cents ov = os_total_cents s
    /\ ov_shipping_address_id ov = os_shipping_address_id s
    /\ ov_billing_address_id ov = os_billing_address_id s
    /\ items = map item_view_of_line (load_cart d u)
    /\ sum_item_views items = ov_subtotal_cents ov
    /\ ov_total_cents ov = sum_item_views items + ov_shipping_cents ov.
Proof.
  intros Hok Hid Hfresh Hfresh_items.
  destruct (place_order_ok_inv _ _ _ _ _ _ Hok) as (plan & Hd & ->).
  destruct (commit_state ids now plan d) as (_ & _ & _ & Ho & Hoi & _ & _).
  destruct (plan_order_totals _ _ _ _ _ _ Hd) as (Htax & Htot & Hsub & Hitems).
  pose proof Hd as Hinv. apply place_decide_inr in Hinv.
  destruct Hinv as (u & raw & v & sub & sa & sm & -> & _ & _ & _ & _ & _ & _ & _ & Hplan).
  assert (Hoid : o_id (pp_order plan) = ids O) by (rewrite Hplan; reflexivity).
  assert (Huid : o_user_id (pp_order plan) = u) by (rewrite Hplan; reflexivity).
  assert (Hst : o_status (pp_order plan) = "placed") by (rewrite Hplan; reflexivity).
  exists u, (order_summary_of plan), (view_of_order (pp_order plan)),
    (map item_view_of_line (load_cart d u)).
  cbn [fst snd r_body].
  split; [reflexivity|]. split; [reflexivity|]. split; [exact Hoid|].
  split.
  { unfold order_get. cbn [order_summary_of os_id]. rewrite Hoid.
    destruct (String.eqb_spec (ids O) ""); [contradiction|].
    rewrite Ho, Hoi.
    rewrite (find_app_last _ (orders d) (pp_order plan)).
    - rewrite List.filter_app.
      rewrite (filter_none _ (order_items d)).
      + rewrite filter_all.
        * simpl. rewrite item_rows_views, Hitems, Huid. reflexivity.
        * intros oi Hin. apply item_rows_order_id in Hin.
          rewrite Hin, Hoid. apply String.eqb_refl.
      + intros oi Hin. apply String.eqb_neq. apply Hfresh_items, Hin.
    - intros o Hin. apply andb_false_iff. left.
      apply String.eqb_neq. apply Hfresh, Hin.
    - rewrite Hoid, Huid, !String.eqb_refl. reflexivity. }
  rewrite sum_item_views_lines.
  cbn [view_of_order order_summary_of ov_id ov_status ov_subtotal_cents
       ov_shipping_cents ov_tax_cents ov_total_cents ov_shipping_address_id
       ov_billing_address_id os_id os_subtotal_cents os_shipping_cents
       os_tax_cents os_total_cents os_shipping_address_id os_billing_address_id].
  rewrite Huid in Hsub.
  repeat split; try reflexivity; try assumption; try lia.
Qed.

(** ** GET /api/cart *)

(** The cart page, the checkout summary and place-order agree on the cart:
    the subtotal of GET /api/cart is the sum of price * qty over the lines it
    lists, a summary on the same database lists the same lines and subtotal,
    and an order placed on it stores that subtotal. *)
Theorem cart_subtotal_is_shared (d : db) (u : string) :
  exists items subtotal_cents,
    cart_get (Some u) d = send (CartContents items subtotal_cents) 200
    /\ subtotal_cents = sum_price_qty items
    /\ (forall items' subtotal_cents' addrs sel opts st,
          summary_response (Some u) d
          = json (SummaryOk items' subtotal_cents' addrs sel opts) st ->
          items' = items /\ subtotal_cents' = subtotal_cents)
    /\ (forall body now orderId plan,
          place_decide d (Some u) body now orderId = inr plan ->
          pp_items plan = items
          /\ o_subtotal_cents (pp_order plan) = subtotal_cents).
Proof.
  exists (load_cart d u), (reduce_subtotal (load_cart d u)).
  split; [reflexivity|]. split.
  { unfold reduce_subtotal. rewrite fold_left_subtotal. lia. }
  split.
  - intros items' sub' addrs sel opts st H. apply summary_ok_inv in H.
    destruct H as (u' & a & [= <-] & -> & _ & -> & _). split; reflexivity.
  - intros body now orderId plan H.
    pose proof (plan_order_totals _ _ _ _ _ _ H) as (_ & _ & Hsub & Hitems).
    apply place_decide_inr in H.
    destruct H as (u' & raw & v & sub & sa & sm & [= <-] & _ & _ & _ & _ & _ & _ & _ & ->).
    simpl in *. split; [reflexivity|].
    unfold reduce_subtotal. rewrite fold_left_subtotal. lia.
Qed.

(** With no line in the cart query, place-order never gets to its plan. *)
Lemma place_order_without_lines d u body now ids fail_at :
  load_cart d u = [] ->
  r_ok (place_order (Some u) body now ids fail_at d).1 = false
  /\ (place_order (Some u) body now ids fail_at d).2 = d.
Proof.
  intros Hempty.
  destruct (place_decide d (Some u) body now (ids O)) as [r|plan] eqn:E.
  - rewrite (place_order_rejected _ _ _ _ _ fail_at _ E). simpl.
    split; [|reflexivity]. eapply place_decide_inl, E.
  - exfalso. apply place_decide_inr in E.
    destruct E as (u' & raw & v & sub & sa & sm & Hu & _ & _ & Hne & _).
    inversion Hu; subst u'. apply Hne, Hempty.
Qed.

(** A successful order empties the buyer's cart: right after it GET
    /api/cart shows no line and a subtotal of 0, the summary answers "Cart is
    empty", and a second place-order, whatever its body, fails and writes
    nothing, so a repeated submit cannot create a second order. *)
Theorem cart_is_empty_after_an_order
    (d : db) (auth : option string) (body : option place_body) (now : string)
    (ids : nat -> string) (fail_at : option nat) :
  r_ok (place_order auth body now ids fail_at d).1 = true ->
  exists u,
    auth = Some u
    /\ cart_get auth (place_order auth body now ids fail_at d).2
       = send (CartContents [] 0) 200
    /\ summary_response auth (place_order auth body now ids fail_at d).2
       = json CartEmpty 400
    /\ (forall body' now' ids' fail_at',
          r_ok (place_order auth body' now' ids' fail_at'
                  (place_order auth body now ids fail_at d).2).1 = false
          /\ (place_order auth body' now' ids' fail_at'
                (place_order auth body now ids fail_at d).2).2
             = (place_order auth body now ids fail_at d).2).
Proof.
  intros Hok.
  destruct (place_order_ok_inv _ _ _ _ _ _ Hok) as (plan & Hd & ->).
  destruct (commit_state ids now plan d) as (_ & _ & _ & _ & _ & _ & Hc).
  apply place_decide_inr in Hd.
  destruct Hd as (u & raw & v & sub & sa & sm & -> & _ & _ & _ & _ & _ & _ & _ & Hplan).
  assert (Hu : pp_user_id plan = u) by (rewrite Hplan; reflexivity).
  cbn [snd].
  assert (Hempty : load_cart (apply_writes (commit_writes ids now plan) d) u = []).
  { apply load_cart_empty. intros pid. rewrite Hc, Hu. apply clear_cart_lookup. }
  exists u. split; [reflexivity|]. split.
  { unfold cart_get. rewrite Hempty. reflexivity. }
  split.
  { unfold summary_response. rewrite Hempty. reflexivity. }
  intros body' now' ids' fail_at'. apply place_order_without_lines, Hempty.
Qed.

(** ** The cart query *)

(** The cart query returns one row per cart line of the user whose product
    exists, and nothing else. *)
Lemma in_load_cart d u line :
  In line (load_cart d u)
  <-> exists ci p,
        cart_items d !! (u, cl_product_id line) = Some ci
        /\ products d !! cl_product_id line = Some p
        /\ line = line_of d (cl_product_id line) ci p.
Proof.
  unfold load_cart. rewrite <- list_elem_of_In, list_elem_of_omap. split.
  - intros ([[u' pid] ci] & Hin & Hf). apply elem_of_map_to_list in Hin.
    unfold join_cart_row in Hf.
    destruct (decide (u' = u)) as [->|]; [|discriminate].
    destruct (products d !! pid) as [p|] eqn:Hp; [|discriminate].
    inversion Hf; subst line; clear Hf. simpl.
    exists ci, p. repeat split; assumption.
  - intros (ci & p & Hci & Hp & Hline).
    exists (u, cl_product_id line, ci). split.
    + apply elem_of_map_to_list. exact Hci.
    + unfold join_cart_row. rewrite decide_True by reflexivity.
      rewrite Hp. symmetry. f_equal. exact Hline.
Qed.

(** No product appears twice in a user's cart. *)
Lemma load_cart_nodup d u : NoDup (map cl_product_id (load_cart d u)).
Proof.
  unfold load_cart.
  pose proof (NoDup_fst_map_to_list (cart_items d)) as Hnd.
  induction (map_to_list (cart_items d)) as [|[[u' pid] ci] r IH]; [constructor|].
  simpl in Hnd. apply NoDup_cons in Hnd. destruct Hnd as [Hk Hnd].
  change (omap (join_cart_row d u) ((u', pid, ci) :: r))
    with (match join_cart_row d u (u', pid, ci) with
          | Some y => y :: omap (join_cart_row d u) r
          | None => omap (join_cart_row d u) r
          end).
  destruct (join_cart_row d u (u', pid, ci)) as [line|] eqn:Hf;
    [|apply IH, Hnd].
  cbn [map]. apply NoDup_cons. split; [|apply IH, Hnd].
  intros Hin. apply Hk.
  apply list_elem_of_In, in_map_iff in Hin. destruct Hin as (line' & Heq & Hin').
  apply list_elem_of_In, list_elem_of_omap in Hin'.
  destruct Hin' as ([[u2 pid2] ci2] & Hin2 & Hf2).
  unfold join_cart_row in Hf, Hf2.
  destruct (decide (u' = u)) as [->|]; [|discriminate].
  destruct (decide (u2 = u)) as [->|]; [|discriminate].
  destruct (products d !! pid); [|discriminate].
  destruct (products d !! pid2); [|discriminate].
  inversion Hf; subst line. inversion Hf2; subst line'. simpl in Heq. subst pid2.
  apply list_elem_of_In, in_map_iff. exists (u, pid, ci2). split; [reflexivity|].
  apply list_elem_of_In, Hin2.
Qed.

(** ** What a cart update leaves alone *)

(** A cart update writes one cart line at most, the caller's line for the
    requested product: products, inventory (stock is read, never reserved),
    addresses, shipping methods, orders and order items are left as they
    were, and so is every cart line of another user or another product. *)
Theorem cart_update_touches_one_line
    (auth : option string) (body : option cart_body) (now : string) (d : db) :
  products (cart_items_post auth body now d).2 = products d
  /\ inventory (cart_items_post auth body now d).2 = inventory d
  /\ addresses (cart_items_post auth body now d).2 = addresses d
  /\ shipping_methods (cart_items_post auth body now d).2 = shipping_methods d
  /\ orders (cart_items_post auth body now d).2 = orders d
  /\ order_items (cart_items_post auth body now d).2 = order_items d
  /\ (forall u pid,
        auth <> Some u \/ body ≫= cb_product_id <> Some pid ->
        cart_items (cart_items_post auth body now d).2 !! (u, pid)
        = cart_items d !! (u, pid)).
Proof.
  destruct (cart_post_cases auth body now d)
    as [(_ & _ & ->)|(u0 & pid0 & Hu & Hb & [->|(q & a & Hq & ->)])];
    cbn [fst snd with_cart_items products inventory addresses shipping_methods
         orders order_items cart_items];
    repeat (split; [reflexivity|]); intros u pid Hne.
  - reflexivity.
  - apply lookup_delete_ne. intros [= <- <-]. destruct Hne; congruence.
  - apply lookup_insert_ne. intros [= <- <-]. destruct Hne; congruence.
Qed.

(** A cart update is only accepted for a product that exists and is
    active. *)
Lemma cart_decide_inr_product d auth body user_id product_id w :
  cart_decide d auth body = inr (user_id, product_id, w) ->
  exists p, products d !! product_id = Some p /\ p_status p = "active".
Proof.
  unfold cart_decide. intros H.
  destruct auth as [u|]; [|discriminate].
  destruct body as [raw|]; [|discriminate].
  destruct (cartUpdateSchema raw) as [|v] eqn:Hv; [discriminate|].
  destruct (products d !! cv_product_id v) as [p|] eqn:Hp; [|discriminate].
  destruct (String.eqb_spec (p_status p) "active") as [Hst|]; [|discriminate].
  assert (Hpid : product_id = cv_product_id v).
  { repeat first
      [ early_return_step H
      | match type of H with
        | inr _ = inr _ => inversion H; reflexivity
        end ]. }
  subst product_id. exists p. split; assumption.
Qed.

Lemma line_of_with_cart_items d c pid ci p :
  line_of (with_cart_items d c) pid ci p = line_of d pid ci p.
Proof. reflexivity. Qed.

(** What a cart update reports is what GET /api/cart shows next: no line
    for the product after [qty: 0], one line with the reported quantity and
    the product's current title and price otherwise; the other lines of the
    cart are the same as before the update. *)
Theorem cart_update_shows_in_cart
    (auth : option string) (body : option cart_body) (now : string) (d : db)
    (q : Z) :
  reported_qty (cart_items_post auth body now d).1 = Some q ->
  exists u pid items subtotal_cents,
    auth = Some u /\ body ≫= cb_product_id = Some pid
    /\ cart_get auth (cart_items_post auth body now d).2
       = send (CartContents items subtotal_cents) 200
    /\ (forall line, In line items -> cl_product_id line = pid ->
                     q <> 0 /\ cl_qty line = q)
    /\ (q <> 0 ->
        exists p,
          products d !! pid = Some p
          /\ In (line_of d pid {| ci_qty := q; ci_updated_at := now |} p) items)
    /\ (forall line, cl_product_id line <> pid ->
                     (In line items <-> In line (load_cart d u))).
Proof.
  intros Hq. unfold cart_items_post in *.
  destruct (cart_decide d auth body) as [r|[[u pid] w]] eqn:Hd.
  { apply cart_decide_inl in Hd. simpl in Hq. destruct Hd as [_ Hn].
    rewrite Hn in Hq. discriminate. }
  destruct (cart_decide_inr_product _ _ _ _ _ _ Hd) as (p & Hp & _).
  apply cart_decide_inr in Hd.
  destruct Hd as (-> & (raw & v & -> & Hv & <-) & Hw).
  apply cartUpdateSchema_inr in Hv. destruct Hv as (Hpid & _).
  set (pid := cv_product_id v) in *.
  destruct w as [existing|newQty available].
  - (* the line is deleted *)
    simpl in Hq. inversion Hq; subst q; clear Hq. cbn [fst snd].
    set (d' := if existing then _ else d).
    assert (Hnone : cart_items d' !! (u, pid) = None).
    { subst d' existing. case_bool_decide as Hex; simpl.
      - apply lookup_delete_eq.
      - destruct (cart_items d !! (u, pid)) eqn:E; [|reflexivity].
        exfalso. apply Hex. eauto. }
    assert (Hother : forall pid', pid' <> pid ->
               cart_items d' !! (u, pid') = cart_items d !! (u, pid')).
    { intros pid' Hne. subst d'. destruct existing; [|reflexivity]. simpl.
      apply lookup_delete_ne. congruence. }
    assert (Hprod : products d' = products d /\ inventory d' = inventory d).
    { subst d'. destruct existing; split; reflexivity. }
    destruct Hprod as [Hprod Hinv].
    exists u, pid, (load_cart d' u), (reduce_subtotal (load_cart d' u)).
    split; [reflexivity|]. split; [exact Hpid|]. split; [reflexivity|].
    split; [|split].
    + intros line Hin Hl. apply in_load_cart in Hin.
      destruct Hin as (ci & p' & Hci & _). rewrite Hl, Hnone in Hci. discriminate.
    + congruence.
    + intros line Hne. rewrite !in_load_cart.
      unfold line_of. rewrite Hprod, Hinv, (Hother _ Hne). reflexivity.
  - (* the line is upserted *)
    destruct Hw as [Hpos ->].
    simpl in Hq. inversion Hq; subst q; clear Hq. cbn [fst snd].
    set (c' := <[(u, pid) := {| ci_qty := newQty; ci_updated_at := now |}]>
                 (cart_items d)).
    exists u, pid, (load_cart (with_cart_items d c') u),
      (reduce_subtotal (load_cart (with_cart_items d c') u)).
    split; [reflexivity|]. split; [exact Hpid|]. split; [reflexivity|].
    split; [|split].
    + intros line Hin Hl. split; [lia|]. apply in_load_cart in Hin.
      destruct Hin as (ci & p' & Hci & _ & Hline).
      simpl in Hci. rewrite Hl in Hci. subst c'.
      rewrite lookup_insert_eq in Hci. inversion Hci; subst ci.
      rewrite Hline. reflexivity.
    + intros _. exists p. split; [exact Hp|].
      apply in_load_cart. simpl.
      exists {| ci_qty := newQty; ci_updated_at := now |}, p.
      split; [apply lookup_insert_eq|]. split; [exact Hp|reflexivity].
    + intros line Hne. rewrite !in_load_cart. simpl.
      subst c'. rewrite lookup_insert_ne by congruence. reflexivity.
Qed.

(** ** Stock and the accepted order *)

Lemma line_available_of d u line :
  In line (load_cart d u) ->
  line_available line = available_of d (cl_product_id line).
Proof.
  intros Hin. apply in_load_cart in Hin. destruct Hin as (ci & p & _ & _ & ->).
  unfold line_available, available_of, line_of. simpl.
  destruct (inventory d !! _); reflexivity.
Qed.

Lemma decrement_all_lookup now items (inv : gmap string inventory_row) pid :
  NoDup (map cl_product_id items) ->
  decrement_all now items inv !! pid
  = match List.find (fun it => String.eqb (cl_product_id it) pid) items with
    | Some it => decremented (cl_qty it) now <$> inv !! pid
    | None => inv !! pid
    end.
Proof.
  revert inv. induction items as [|it r IH]; intros inv Hnd; [reflexivity|].
  simpl in Hnd. apply NoDup_cons in Hnd. destruct Hnd as [Hnotin Hnd].
  unfold decrement_all in *. simpl. rewrite (IH _ Hnd).
  destruct (String.eqb_spec (cl_product_id it) pid) as [<-|Hne].
  - replace (List.find _ r) with (@None cart_line).
    + apply lookup_alter_eq.
    + symmetry. apply find_none_iff. intros x Hx.
      apply String.eqb_neq. intros Heq. apply Hnotin.
      apply list_elem_of_In, in_map_iff. exists x. split; assumption.
  - rewrite lookup_alter_ne by exact Hne. reflexivity.
Qed.

Lemma find_by_product_id items line :
  NoDup (map cl_product_id items) -> In line items ->
  List.find (fun it => String.eqb (cl_product_id it) (cl_product_id line)) items
  = Some line.
Proof.
  induction items as [|it r IH]; intros Hnd Hin; [destruct Hin|].
  simpl in Hnd. apply NoDup_cons in Hnd. destruct Hnd as [Hnotin Hnd].
  simpl. destruct Hin as [->|Hin].
  - rewrite String.eqb_refl. reflexivity.
  - destruct (String.eqb_spec (cl_product_id it) (cl_product_id line)) as [Heq|].
    + exfalso. apply Hnotin. rewrite Heq.
      apply list_elem_of_In, in_map. exact Hin.
    + apply IH; assumption.
Qed.

(** An accepted order takes its quantities out of stock and never oversells
    on its own: every line fitted into what was available, the stock of its
    product is lowered by the line's quantity (reserved is kept, updated_at
    set), what is available afterwards is not negative, and the inventory of
    products outside the cart is untouched. *)
Theorem accepted_order_takes_stock
    (d : db) (auth : option string) (body : option place_body) (now : string)
    (ids : nat -> string) (fail_at : option nat) :
  r_ok (place_order auth body now ids fail_at d).1 = true ->
  exists u,
    auth = Some u
    /\ (forall line,
          In line (load_cart d u) ->
          cl_qty line <= available_of d (cl_product_id line)
          /\ inventory (place_order auth body now ids fail_at d).2
               !! cl_product_id line
             = decremented (cl_qty line) now
                 <$> inventory d !! cl_product_id line
          /\ 0 <= available_of (place_order auth body now ids fail_at d).2
                    (cl_product_id line))
    /\ (forall pid,
          (forall line, In line (load_cart d u) -> cl_product_id line <> pid) ->
          inventory (place_order auth body now ids fail_at d).2 !! pid
          = inventory d !! pid).
Proof.
  intros Hok.
  destruct (place_order_ok_inv _ _ _ _ _ _ Hok) as (plan & Hd & ->).
  destruct (commit_state ids now plan d) as (_ & _ & _ & _ & _ & Hinv & _).
  apply place_decide_inr in Hd.
  destruct Hd as (u & raw & v & sub & sa & sm & -> & _ & _ & _ & Hcs & _ & _ & _ & Hplan).
  assert (Hitems : pp_items plan = load_cart d u) by (rewrite Hplan; reflexivity).
  cbn [snd]. exists u. split; [reflexivity|].
  pose proof (load_cart_nodup d u) as Hnd.
  apply check_stock_available in Hcs. rewrite Forall_forall in Hcs.
  split.
  - intros line Hin.
    pose proof (Hcs line (proj2 (list_elem_of_In _ _) Hin)) as Hfit.
    fold (line_available line) in Hfit. rewrite (line_available_of d u line Hin) in Hfit.
    assert (Hrow : inventory (apply_writes (commit_writes ids now plan) d)
                     !! cl_product_id line
                   = decremented (cl_qty line) now
                       <$> inventory d !! cl_product_id line).
    { rewrite Hinv, Hitems, (decrement_all_lookup _ _ _ _ Hnd).
      rewrite (find_by_product_id _ _ Hnd Hin). reflexivity. }
    split; [exact Hfit|]. split; [exact Hrow|].
    unfold available_of in *. rewrite Hrow.
    destruct (inventory d !! cl_product_id line) as [row|]; simpl in *; lia.
  - intros pid Hout.
    rewrite Hinv, Hitems, (decrement_all_lookup _ _ _ _ Hnd).
    replace (List.find _ (load_cart d u)) with (@None cart_line); [reflexivity|].
    symmetry. apply find_none_iff. intros x Hx.
    apply String.eqb_neq. apply Hout, Hx.
Qed.

Lemma checkoutPlaceSchema_inr raw v :
  checkoutPlaceSchema raw = inr v ->
  pb_shipping_method_id raw = Some (pv_shipping_method_id v)
  /\ pb_shipping_address_id raw = Some (pv_shipping_address_id v)
  /\ pb_billing_address_id raw = pv_billing_address_id v
  /\ pv_shipping_method_id v <> "" /\ pv_shipping_address_id v <> ""
  /\ pv_billing_address_id v <> Some "".
Proof.
  unfold checkoutPlaceSchema, nonempty. intros H.
  destruct (pb_shipping_method_id raw) as [m|]; [|discriminate].
  destruct (pb_shipping_address_id raw) as [a|];
    [|destruct (String.eqb m ""); discriminate].
  destruct (String.eqb_spec m ""); [discriminate|].
  destruct (String.eqb_spec a ""); [discriminate|].
  destruct (pb_billing_address_id raw) as [b|]; simpl in H.
  - destruct (String.eqb_spec b ""); [discriminate|].
    inversion H; subst; simpl. repeat split; congruence.
  - inversion H; subst; simpl. repeat split; congruence.
Qed.

(** What place-order never accepts: an order is only placed for a signed-in
    user with a non-empty cart whose every line fits the available stock,
    shipped to an address that belongs to that user, with an active shipping
    method whose zone is the zone of that address. *)
Theorem accepted_order_was_checked
    (d : db) (auth : option string) (body : option place_body) (now : string)
    (ids : nat -> string) (fail_at : option nat) :
  r_ok (place_order auth body now ids fail_at d).1 = true ->
  exists u raw a m,
    auth = Some u /\ body = Some raw
    /\ load_cart d u <> []
    /\ Forall (fun line => cl_qty line <= line_available line) (load_cart d u)
    /\ In a (addresses d) /\ a_user_id a = u
    /\ pb_shipping_address_id raw = Some (a_id a)
    /\ In m (shipping_methods d) /\ sm_active m = 1
    /\ pb_shipping_method_id raw = Some (sm_id m)
    /\ sm_zone m = zone_of a.
Proof.
  intros Hok.
  destruct (place_order_ok_inv _ _ _ _ _ _ Hok) as (plan & Hd & _).
  apply place_decide_inr in Hd.
  destruct Hd as (u & raw & v & sub & sa & sm & -> & -> & Hv & Hne & Hcs & Ha & Hm & Hz & _).
  apply checkoutPlaceSchema_inr in Hv. destruct Hv as (Hmid & Haid & _).
  apply find_some_inv in Ha. destruct Ha as [Hpa Hina].
  apply andb_true_iff in Hpa. destruct Hpa as [Hida Hua].
  apply String.eqb_eq in Hida. apply String.eqb_eq in Hua.
  apply find_some_inv in Hm. destruct Hm as [Hpm Hinm].
  apply andb_true_iff in Hpm. destruct Hpm as [Hidm Hact].
  apply String.eqb_eq in Hidm. apply Z.eqb_eq in Hact.
  exists u, raw, sa, sm.
  repeat split; try assumption; try congruence.
  eapply check_stock_available, Hcs.
Qed.

Lemma check_stock_rejects items acc :
  (exists line, In line items /\ line_available line < cl_qty line) ->
  exists line,
    In line items /\ line_available line < cl_qty line
    /\ check_stock items acc
       = inl (json (InsufficientStock (cl_product_id line) (line_available line)) 400).
Proof.
  revert acc. induction items as [|it r IH]; intros acc (line & Hin & Hlt);
    [destruct Hin|].
  simpl. fold (line_available it).
  destruct (Z.ltb_spec (line_available it) (cl_qty it)) as [Hit|Hit].
  - exists it. split; [left; reflexivity|]. split; [exact Hit|reflexivity].
  - destruct Hin as [->|Hin]; [lia|].
    destruct (IH (acc + cl_price_cents it * cl_qty it)) as (l' & Hin' & Hlt' & Hcs).
    { exists line. split; assumption. }
    exists l'. split; [right; exact Hin'|]. split; [exact Hlt'|exact Hcs].
Qed.

(** One line over what is available rejects the whole order: a well-formed
    place-order on a cart with such a line answers "Insufficient stock" (400)
    naming an offending product and its available count, and nothing is
    written, not even for the lines that would fit. *)
Theorem insufficient_stock_rejects_the_order
    (d : db) (u : string) (raw : place_body) (v : place_value) (now : string)
    (ids : nat -> string) (fail_at : option nat) :
  checkoutPlaceSchema raw = inr v ->
  (exists line, In line (load_cart d u)
                /\ available_of d (cl_product_id line) < cl_qty line) ->
  exists line,
    In line (load_cart d u)
    /\ available_of d (cl_product_id line) < cl_qty line
    /\ place_order (Some u) (Some raw) now ids fail_at d
       = (json (InsufficientStock (cl_product_id line)
                  (available_of d (cl_product_id line))) 400,
          d).
Proof.
  intros Hv (line & Hin & Hlt).
  destruct (check_stock_rejects (load_cart d u) 0) as (l' & Hin' & Hlt' & Hcs).
  { exists line. split; [exact Hin|].
    rewrite (line_available_of d u line Hin). exact Hlt. }
  rewrite (line_available_of d u l' Hin') in *.
  exists l'. split; [exact Hin'|]. split; [exact Hlt'|].
  apply place_order_rejected. unfold place_decide. rewrite Hv.
  cbv beta iota zeta.
  destruct (load_cart d u) as [|it its] eqn:E; [destruct Hin'|].
  change (length (it :: its) =? 0)%nat with false. cbv iota.
  rewrite Hcs. reflexivity.
Qed.

(** ** Where the summary and place-order agree *)

(** A method that is not express is charged by place-order what the
    summary computes for it: both stop after the free threshold and the
    cap. *)
Lemma non_express_same_cost rows alt subtotal_cents i m :
  rows !! i = Some m ->
  has_speed "express" (sm_speed m) = false ->
  exists o,
    summary_shipping_options rows subtotal_cents !! i = Some o
    /\ so_id o = sm_id m
    /\ so_cost_cents o = place_shipping_cents m alt subtotal_cents.
Proof.
  intros Hi Hne.
  pose proof (pre_option_lookup rows subtotal_cents i m Hi) as Hpre.
  assert (Hplace : place_shipping_cents m alt subtotal_cents
                   = capped_cost (sm_base_cents m) (sm_free_over_cents m)
                       subtotal_cents).
  { unfold place_shipping_cents. rewrite Hne. reflexivity. }
  unfold summary_shipping_options.
  destruct (tie_break_lookup _ _ _ Hpre) as [H|(_ & Hfind & _)].
  - eexists. split; [exact H|]. split; [reflexivity|].
    rewrite Hplace. reflexivity.
  - apply find_some_inv in Hfind. destruct Hfind as [He _].
    unfold is_express in He. simpl in He. congruence.
Qed.

Lemma in_addresses_of d u a :
  In a (addresses_of d u) <-> In a (addresses d) /\ a_user_id a = u.
Proof.
  unfold addresses_of.
  assert (Hp : Permutation
                 (foldr insert_by_created_desc []
                    (List.filter (fun a => String.eqb (a_user_id a) u) (addresses d)))
                 (List.filter (fun a => String.eqb (a_user_id a) u) (addresses d))).
  { apply (foldr_insert_desc_perm a_created_at insert_by_created_desc);
      intros; reflexivity. }
  split.
  - intros H. apply (Permutation_in _ Hp) in H. apply filter_In in H.
    destruct H as [H Hu]. apply String.eqb_eq in Hu. tauto.
  - intros [H Hu]. apply (Permutation_in _ (Permutation_sym Hp)).
    apply filter_In. split; [exact H|]. apply String.eqb_eq, Hu.
Qed.

(** The summary, read with the address it selected. *)
Lemma summary_ok_selected u d items subtotal_cents addrs sel opts st :
  summary_response (Some u) d = json (SummaryOk items subtotal_cents addrs sel opts) st ->
  exists first rest,
    addresses_of d u = first :: rest
    /\ addrs = addresses_of d u
    /\ subtotal_cents = reduce_subtotal (load_cart d u)
    /\ sel = a_id (default first (List.find is_default_shipping addrs))
    /\ opts = summary_shipping_options
                (active_methods_of_zone d
                   (zone_of (default first (List.find is_default_shipping addrs))))
                subtotal_cents.
Proof.
  unfold summary_response. intros H.
  destruct (load_cart d u) as [|it its] eqn:Hitems; [discriminate|].
  change (length (it :: its) =? 0)%nat with false in H. cbv iota in H.
  destruct (addresses_of d u) as [|first rest] eqn:Haddr; [discriminate|].
  cbv zeta in H.
  destruct (length _ =? 0)%nat; [discriminate|].
  inversion H; subst; clear H.
  exists first, rest. repeat split; reflexivity.
Qed.

Lemma nodup_key_inj {A K} (key : A -> K) (l : list A) (x y : A) :
  NoDup (map key l) -> In x l -> In y l -> key x = key y -> x = y.
Proof.
  induction l as [|z r IH]; intros Hnd Hx Hy Hk; [destruct Hx|].
  simpl in Hnd. apply NoDup_cons in Hnd. destruct Hnd as [Hz Hnd].
  destruct Hx as [->|Hx], Hy as [->|Hy].
  - reflexivity.
  - exfalso. apply Hz. rewrite Hk. apply list_elem_of_In, in_map, Hy.
  - exfalso. apply Hz. rewrite <- Hk. apply list_elem_of_In, in_map, Hx.
  - apply IH; assumption.
Qed.

(** For every method that is not express, what the summary quotes is what
    place-order charges: when the order is placed, on the same database, for
    the address the summary selected, the order's shipping_cents is the cost
    of the summary's option for the chosen method.  Address ids are taken to
    be unique, as the table's primary key makes them. *)
Theorem quote_is_charged_unless_express
    (d : db) (u : string) (raw : place_body) (now orderId : string)
    (plan : place_plan) (items : list cart_line) (subtotal_cents : Z)
    (addrs : list address) (sel : string) (opts : list shipping_option) (st : Z) :
  NoDup (map a_id (addresses d)) ->
  summary_response (Some u) d
  = json (SummaryOk items subtotal_cents addrs sel opts) st ->
  place_decide d (Some u) (Some raw) now orderId = inr plan ->
  pb_shipping_address_id raw = Some sel ->
  has_speed "express" (sm_speed (pp_method plan)) = false ->
  exists o,
    In o opts
    /\ so_id o = sm_id (pp_method plan)
    /\ so_cost_cents o = o_shipping_cents (pp_order plan)
    /\ o_subtotal_cents (pp_order plan) = subtotal_cents.
Proof.
  intros Hnd Hsum Hplace Hsel Hne.
  apply summary_ok_selected in Hsum.
  destruct Hsum as (first & rest & Haddr & -> & -> & -> & ->).
  set (a := default first (List.find is_default_shipping (addresses_of d u))) in *.
  assert (Ha : In a (addresses_of d u)).
  { subst a. destruct (List.find _ _) as [x|] eqn:Hf; simpl.
    - apply find_some_inv in Hf. apply Hf.
    - rewrite Haddr. left. reflexivity. }
  apply in_addresses_of in Ha. destruct Ha as [Ha Hau].
  apply place_decide_inr in Hplace.
  destruct Hplace as (u' & raw' & v & sub & sa & sm & [= <-] & [= <-] & Hv & _
                      & Hcs & Hfa & Hfm & Hz & ->).
  cbn [pp_method pp_order o_shipping_cents o_subtotal_cents] in *.
  apply checkoutPlaceSchema_inr in Hv. destruct Hv as (_ & Haid & _).
  apply find_some_inv in Hfa. destruct Hfa as [Hpa Hina].
  apply andb_true_iff in Hpa. destruct Hpa as [Hida _].
  apply String.eqb_eq in Hida.
  assert (Hsame : sa = a).
  { apply (nodup_key_inj a_id (addresses d)); try assumption. congruence. }
  subst sa.
  apply check_stock_subtotal in Hcs.
  change (sub = reduce_subtotal (load_cart d u)) in Hcs. subst sub.
  apply find_some_inv in Hfm. destruct Hfm as [Hpm Hinm].
  apply andb_true_iff in Hpm. destruct Hpm as [_ Hact].
  assert (Hrow : In sm (active_methods_of_zone d (zone_of a))).
  { unfold active_methods_of_zone. apply filter_In. split; [exact Hinm|].
    rewrite Hact, Hz, String.eqb_refl. reflexivity. }
  apply list_elem_of_In, list_elem_of_lookup in Hrow. destruct Hrow as [i Hi].
  destruct (non_express_same_cost _ (active_methods_of_zone d (zone_of a))
              (reduce_subtotal (load_cart d u)) i sm Hi Hne)
    as (o & Ho & Hid & Hcost).
  exists o. split.
  { apply list_elem_of_In, list_elem_of_lookup. exists i. exact Ho. }
  split; [exact Hid|]. split; [exact Hcost|reflexivity].
Qed.

(** ** The address the summary selects *)

Lemma sorted_find_first {A} (R : A -> A -> Prop) (p : A -> bool) (l : list A) a :
  StronglySorted R l -> List.find p l = Some a ->
  forall b, In b l -> p b = true -> a = b \/ R a b.
Proof.
  induction 1 as [|x r Hr IH Hx]; [discriminate|].
  simpl. destruct (p x) eqn:Hpx.
  - intros [= <-] b [->|Hb] _; [left; reflexivity|].
    right. rewrite Forall_forall in Hx. apply Hx, list_elem_of_In, Hb.
  - intros Hf b [->|Hb] Hpb; [congruence|]. apply IH; assumption.
Qed.

(** The summary lists the caller's addresses, each once and no other,
    latest first, and selects among them the default shipping address (the
    latest one flagged, should several be) or, when none is flagged, the
    latest address; the shipping options are those of the selected address's
    zone. *)
Theorem summary_selects_default_or_latest
    (d : db) (u : string) (items : list cart_line) (subtotal_cents : Z)
    (addrs : list address) (sel : string) (opts : list shipping_option) (st : Z) :
  summary_response (Some u) d
  = json (SummaryOk items subtotal_cents addrs sel opts) st ->
  Permutation addrs
    (List.filter (fun a => String.eqb (a_user_id a) u) (addresses d))
  /\ StronglySorted (created_desc a_created_at) addrs
  /\ exists a,
       In a addrs /\ In a (addresses d) /\ a_user_id a = u /\ sel = a_id a
       /\ opts = summary_shipping_options
                   (active_methods_of_zone d (zone_of a)) subtotal_cents
       /\ ((is_default_shipping a = true
            /\ forall b, In b addrs -> is_default_shipping b = true ->
                         String.leb (a_created_at b) (a_created_at a) = true)
           \/ ((forall b, In b addrs -> is_default_shipping b = false)
               /\ forall b, In b addrs ->
                            String.leb (a_created_at b) (a_created_at a) = true)).
Proof.
  intros Hsum. apply summary_ok_selected in Hsum.
  destruct Hsum as (first & rest & Haddr & -> & -> & -> & ->).
  assert (Hsorted : StronglySorted (created_desc a_created_at) (addresses_of d u)).
  { unfold addresses_of.
    apply (foldr_insert_desc_sorted a_created_at insert_by_created_desc);
      intros; reflexivity. }
  split.
  { unfold addresses_of.
    apply (foldr_insert_desc_perm a_created_at insert_by_created_desc);
      intros; reflexivity. }
  split; [exact Hsorted|].
  destruct (List.find is_default_shipping (addresses_of d u)) as [a|] eqn:Hf;
    cbn [default].
  - pose proof (find_some_inv _ _ _ Hf) as [Hdef Hin].
    pose proof (proj1 (in_addresses_of d u a) Hin) as [Hind Hu].
    exists a. repeat split; try assumption.
    left. split; [exact Hdef|]. intros b Hb Hbdef.
    destruct (sorted_find_first _ _ _ _ Hsorted Hf b Hb Hbdef) as [<-|H];
      [apply string_leb_refl|exact H].
  - assert (Hin : In first (addresses_of d u)) by (rewrite Haddr; left; reflexivity).
    pose proof (proj1 (in_addresses_of d u first) Hin) as [Hind Hu].
    exists first. repeat split; try assumption.
    right. split; [apply find_none_iff, Hf|].
    intros b Hb. rewrite Haddr in Hb, Hsorted.
    apply StronglySorted_inv in Hsorted. destruct Hsorted as [_ Hall].
    destruct Hb as [<-|Hb]; [apply string_leb_refl|].
    rewrite Forall_forall in Hall. apply Hall, list_elem_of_In, Hb.
Qed.

(** * The realtime worker *)

(** ** Sets of sockets *)

Lemma set_has_In ws set : set_has ws set = true <-> In ws set.
Proof.
  unfold set_has. rewrite existsb_exists. split.
  - intros (x & Hx & He). apply Nat.eqb_eq in He. subst x. exact Hx.
  - intros H. exists ws. split; [exact H|apply Nat.eqb_refl].
Qed.

Lemma set_add_In ws set x : In x (set_add ws set) <-> x = ws \/ In x set.
Proof.
  unfold set_add. destruct (set_has ws set) eqn:Hh.
  - apply set_has_In in Hh. split; [tauto|]. intros [->|H]; assumption.
  - rewrite in_app_iff. simpl. split; [intros [H|[->|[]]]|intros [->|H]]; tauto.
Qed.

Lemma set_add_nodup ws set : NoDup set -> NoDup (set_add ws set).
Proof.
  intros Hnd. unfold set_add. destruct (set_has ws set) eqn:Hh; [exact Hnd|].
  apply NoDup_app. split; [exact Hnd|]. split.
  - intros x Hx Hin. apply list_elem_of_In in Hx.
    apply list_elem_of_In in Hin. destruct Hin as [->|[]].
    apply set_has_In in Hx. congruence.
  - apply NoDup_singleton.
Qed.

Lemma set_add_nonempty ws set : set_add ws set <> [].
Proof.
  unfold set_add. destruct (set_has ws set) eqn:Hh.
  - apply set_has_In in Hh. destruct set; [destruct Hh|discriminate].
  - destruct set; discriminate.
Qed.

Lemma set_delete_In ws set x : In x (set_delete ws set) <-> In x set /\ x <> ws.
Proof.
  unfold set_delete. rewrite filter_In, negb_true_iff, Nat.eqb_neq. reflexivity.
Qed.

Lemma set_delete_nodup ws set : NoDup set -> NoDup (set_delete ws set).
Proof.
  unfold set_delete. induction 1 as [|x r Hx Hr IH]; simpl; [constructor|].
  destruct (negb (x =? ws)%nat); [|exact IH].
  constructor; [|exact IH].
  intros Hin. apply Hx. apply list_elem_of_In in Hin. apply filter_In in Hin.
  apply list_elem_of_In. tauto.
Qed.

Lemma set_delete_absent ws set : ~ In ws set -> set_delete ws set = set.
Proof.
  intros H. unfold set_delete. apply filter_all.
  intros x Hx. apply negb_true_iff, Nat.eqb_neq. congruence.
Qed.

Lemma set_delete_added ws set : ~ In ws set -> set_delete ws (set_add ws set) = set.
Proof.
  intros H. unfold set_add.
  destruct (set_has ws set) eqn:Hh; [apply set_has_In in Hh; contradiction|].
  unfold set_delete. rewrite List.filter_app. simpl.
  rewrite Nat.eqb_refl. simpl. rewrite app_nil_r.
  apply (set_delete_absent ws set H).
Qed.

(** ** The registry *)

Lemma addSocket_lookup u ws m u' :
  addSocket u ws m !! u'
  = if decide (u = u') then Some (set_add ws (sockets_of m u)) else m !! u'.
Proof.
  unfold addSocket, sockets_of.
  destruct (m !! u) as [set|] eqn:E; simpl; rewrite lookup_insert;
    destruct (decide (u = u')); reflexivity.
Qed.

Lemma removeSocket_lookup u ws m u' :
  removeSocket u ws m !! u'
  = if decide (u = u')
    then match m !! u with
         | Some set =>
             if (length (set_delete ws set) =? 0)%nat then None
             else Some (set_delete ws set)
         | None => None
         end
    else m !! u'.
Proof.
  unfold removeSocket. destruct (m !! u) as [set|] eqn:E.
  - cbv zeta. destruct (length (set_delete ws set) =? 0)%nat.
    + rewrite lookup_delete. destruct (decide (u = u')); reflexivity.
    + rewrite lookup_insert. destruct (decide (u = u')); reflexivity.
  - destruct (decide (u = u')) as [<-|]; [exact E|reflexivity].
Qed.

Lemma addSocket_ok u ws m : registry_ok m -> registry_ok (addSocket u ws m).
Proof.
  intros Hok u' set. rewrite addSocket_lookup.
  destruct (decide (u = u')) as [<-|]; [|apply Hok].
  intros [= <-]. split; [apply set_add_nonempty|].
  apply set_add_nodup. unfold sockets_of.
  destruct (m !! u) as [s|] eqn:E; simpl; [apply (Hok u s E)|constructor].
Qed.

Lemma removeSocket_ok u ws m : registry_ok m -> registry_ok (removeSocket u ws m).
Proof.
  intros Hok u' set. rewrite removeSocket_lookup.
  destruct (decide (u = u')) as [<-|]; [|apply Hok].
  destruct (m !! u) as [s|] eqn:E; [|discriminate].
  destruct (length (set_delete ws s) =? 0)%nat eqn:Hl; [discriminate|].
  intros [= <-]. split.
  - intros Hnil. rewrite Hnil in Hl. discriminate.
  - apply set_delete_nodup, (Hok u s E).
Qed.

Lemma ws_step_ok m e : registry_ok m -> registry_ok (ws_step m e).
Proof.
  intros Hok. destruct e as [auth upgrade server|u ws|u ws]; simpl.
  - unfold ws_orders. destruct auth as [u|]; [|exact Hok].
    destruct (match upgrade with Some h => _ | None => false end); simpl;
      [apply addSocket_ok, Hok|exact Hok].
  - apply removeSocket_ok, Hok.
  - apply removeSocket_ok, Hok.
Qed.

Lemma ws_run_ok events m : registry_ok m -> registry_ok (ws_run events m).
Proof.
  revert m. induction events as [|e r IH]; intros m Hok; [exact Hok|].
  simpl. apply IH, ws_step_ok, Hok.
Qed.

(** Whatever sockets connect, close or fail, in whatever order, the
    registry that started empty never keeps a user with an empty set and
    never lists a socket twice for a user. *)
Theorem registry_stays_tidy (events : list ws_event) :
  registry_ok (ws_run events ∅)
  /\ forall userId,
       ws_run events ∅ !! userId = None
       <-> sockets_of (ws_run events ∅) userId = [].
Proof.
  assert (Hok : registry_ok (ws_run events ∅)).
  { apply ws_run_ok. intros u set H. rewrite lookup_empty in H. discriminate. }
  split; [exact Hok|].
  intros u. unfold sockets_of. split.
  - intros ->. reflexivity.
  - destruct (ws_run events ∅ !! u) as [set|] eqn:E; [|reflexivity].
    simpl. intros ->. destruct (Hok u [] E) as [Hne _]. congruence.
Qed.

(** Opening a socket and closing it again leaves the registry as it was:
    for a tidy registry and a socket not yet registered for the user,
    [removeSocket] undoes [addSocket], the user's entry included when the
    socket was the user's only one. *)
Theorem remove_undoes_add (m : gmap string (list nat)) (u : string) (ws : nat) :
  registry_ok m ->
  ~ In ws (sockets_of m u) ->
  removeSocket u ws (addSocket u ws m) = m.
Proof.
  intros Hok Hnew. unfold sockets_of in Hnew.
  unfold removeSocket, addSocket.
  destruct (m !! u) as [set|] eqn:E; simpl in Hnew.
  - rewrite lookup_insert_eq. cbv zeta.
    rewrite (set_delete_added ws set Hnew).
    destruct (Hok u set E) as [Hne _].
    destruct set as [|x r]; [congruence|]. simpl.
    rewrite insert_insert_eq. apply insert_id, E.
  - rewrite lookup_insert_eq. cbv zeta.
    rewrite (set_delete_added ws [] Hnew). simpl.
    apply delete_insert_id, E.
Qed.

Lemma sockets_of_addSocket u ws m u' :
  sockets_of (addSocket u ws m) u'
  = if decide (u = u') then set_add ws (sockets_of m u) else sockets_of m u'.
Proof.
  unfold sockets_of at 1. rewrite addSocket_lookup.
  destruct (decide (u = u')); reflexivity.
Qed.

Lemma sockets_of_removeSocket u ws m u' :
  sockets_of (removeSocket u ws m) u'
  = if decide (u = u') then set_delete ws (sockets_of m u) else sockets_of m u'.
Proof.
  unfold sockets_of at 1. rewrite removeSocket_lookup.
  destruct (decide (u = u')) as [<-|]; [|reflexivity].
  unfold sockets_of. destruct (m !! u) as [set|]; [|reflexivity].
  change (default [] (Some set)) with set.
  destruct (set_delete ws set) eqn:E; reflexivity.
Qed.

Lemma set_has_add ws s set : set_has ws (set_add s set) = Nat.eqb s ws || set_has ws set.
Proof.
  apply eq_true_iff_eq. rewrite orb_true_iff, !set_has_In, set_add_In, Nat.eqb_eq.
  split; intros [H|H]; auto.
Qed.

Lemma set_has_delete ws w set :
  set_has ws (set_delete w set) = negb (Nat.eqb w ws) && set_has ws set.
Proof.
  apply eq_true_iff_eq.
  rewrite andb_true_iff, negb_true_iff, !set_has_In, set_delete_In, Nat.eqb_neq.
  split; intros [H1 H2]; split; auto.
Qed.

Lemma ws_step_tracks m e u ws :
  set_has ws (sockets_of (ws_step m e) u)
  = track_step u ws (set_has ws (sockets_of m u)) e.
Proof.
  destruct e as [auth upgrade server|u' w|u' w]; simpl.
  - unfold ws_orders. destruct auth as [u'|]; [|reflexivity].
    destruct upgrade as [h|]; [|reflexivity].
    destruct (String.eqb h "websocket"); [|reflexivity]. simpl.
    rewrite sockets_of_addSocket.
    destruct (decide (u' = u)) as [->|Hne].
    + rewrite String.eqb_refl, set_has_add. simpl.
      destruct (server =? ws)%nat; reflexivity.
    + apply String.eqb_neq in Hne. rewrite Hne. reflexivity.
  - rewrite sockets_of_removeSocket.
    destruct (decide (u' = u)) as [->|Hne].
    + rewrite String.eqb_refl, set_has_delete. simpl.
      destruct (w =? ws)%nat; reflexivity.
    + apply String.eqb_neq in Hne. rewrite Hne. reflexivity.
  - rewrite sockets_of_removeSocket.
    destruct (decide (u' = u)) as [->|Hne].
    + rewrite String.eqb_refl, set_has_delete. simpl.
      destruct (w =? ws)%nat; reflexivity.
    + apply String.eqb_neq in Hne. rewrite Hne. reflexivity.
Qed.

(** The registry knows exactly the open sockets: after any history that
    started with an empty registry, a socket is registered for a user if and
    only if a websocket request of that user opened it and no ['close'] or
    ['error'] of it came after. *)
Theorem registry_lists_the_open_sockets
    (events : list ws_event) (userId : string) (ws : nat) :
  In ws (sockets_of (ws_run events ∅) userId) <-> tracked events userId ws = true.
Proof.
  rewrite <- set_has_In. unfold tracked, ws_run.
  change false with (set_has ws (sockets_of (∅ : gmap string (list nat)) userId)).
  generalize (∅ : gmap string (list nat)).
  induction events as [|e r IH]; intros m; [reflexivity|].
  simpl. rewrite IH, ws_step_tracks. reflexivity.
Qed.

(** ** Broadcasts *)

Lemma send_each_sent send_ok logger_ok msg set ws m :
  In (ws, m) (send_each send_ok logger_ok msg set).1 ->
  In ws set /\ send_ok ws = true /\ m = msg.
Proof.
  induction set as [|x r IH]; simpl; [tauto|].
  destruct (send_ok x) eqn:Hx.
  - destruct (send_each send_ok logger_ok msg r) as [sent res]. simpl in *.
    intros [[= <- <-]|H]; [auto|]. destruct (IH H) as (? & ? & ?). auto.
  - destruct logger_ok; simpl; [|tauto].
    intros H. destruct (IH H) as (? & ? & ?). auto.
Qed.

Lemma send_each_returns send_ok logger_ok msg set :
  logger_ok = true \/ (forall ws, In ws set -> send_ok ws = true) ->
  send_each send_ok logger_ok msg set
  = (map (fun ws => (ws, msg)) (List.filter send_ok set), Returned).
Proof.
  intros H. induction set as [|x r IH]; [reflexivity|].
  simpl. destruct (send_ok x) eqn:Hx.
  - rewrite IH; [reflexivity|].
    destruct H as [H|H]; [left; exact H|right]. intros ws Hws. apply H. right. exact Hws.
  - destruct H as [->|H].
    + apply IH. left. reflexivity.
    + rewrite (H x) in Hx by (left; reflexivity). discriminate.
Qed.

Lemma broadcast_unfold send_ok logger_ok m u order_id status :
  broadcastOrderStatus send_ok logger_ok m u order_id status
  = send_each send_ok logger_ok (order_status_message order_id status)
      (sockets_of m u).
Proof.
  unfold broadcastOrderStatus, sockets_of.
  destruct (m !! u) as [[|x r]|]; reflexivity.
Qed.

(** A broadcast reaches the sockets registered for its user and no other:
    every message handed out goes to one of them and is the order-status
    message of the call; when no send fails, or when the failures are logged
    without error, the call returns and every socket of the user whose send
    works gets the message exactly once, in the order the sockets
    registered; and a socket whose ['close'] or ['error'] has been handled
    gets nothing. *)
Theorem broadcast_reaches_the_users_sockets
    (send_ok : nat -> bool) (logger_ok : bool) (m : gmap string (list nat))
    (u order_id status : string) :
  (forall ws msg,
     In (ws, msg) (broadcastOrderStatus send_ok logger_ok m u order_id status).1 ->
     In ws (sockets_of m u) /\ send_ok ws = true
     /\ msg = order_status_message order_id status)
  /\ (logger_ok = true \/ (forall ws, In ws (sockets_of m u) -> send_ok ws = true) ->
      broadcastOrderStatus send_ok logger_ok m u order_id status
      = (map (fun ws => (ws, order_status_message order_id status))
           (List.filter send_ok (sockets_of m u)),
         Returned))
  /\ (forall w msg,
        ~ In (w, msg)
            (broadcastOrderStatus send_ok logger_ok (removeSocket u w m) u
               order_id status).1).
Proof.
  split; [|split].
  - intros ws msg. rewrite broadcast_unfold. apply send_each_sent.
  - intros H. rewrite broadcast_unfold. apply send_each_returns, H.
  - intros w msg Hin. rewrite broadcast_unfold in Hin.
    apply send_each_sent in Hin. destruct Hin as (Hin & _).
    rewrite sockets_of_removeSocket, decide_True in Hin by reflexivity.
    apply set_delete_In in Hin. destruct Hin as [_ Hne]. congruence.
Qed.

Lemma field_some x s : field x = Some s <-> x = Some s /\ s <> "".
Proof.
  unfold field. destruct x as [t|]; [|split; [discriminate|intros [? _]; discriminate]].
  destruct (String.eqb_spec t "") as [->|Hne]; split.
  - discriminate.
  - intros [[= <-] H]. congruence.
  - intros [= <-]. auto.
  - intros [[= <-] _]. reflexivity.
Qed.

(** The internal endpoint sends nothing for a request it cannot use: a body
    that is not JSON, or one in which user_id, order_id or status is missing
    or empty, is answered with a 400.  Whatever the body, a message only
    ever goes to a socket registered for the user the body names. *)
Theorem internal_order_status_needs_all_fields
    (send_ok : nat -> bool) (logger_ok : bool) (m : gmap string (list nat)) :
  internal_order_status send_ok logger_ok m None
  = (Some (send InternalInvalidJson 400), [])
  /\ (forall b,
        field (sb_user_id b) = None \/ field (sb_order_id b) = None
        \/ field (sb_status b) = None ->
        internal_order_status send_ok logger_ok m (Some b)
        = (Some (send InternalMissingFields 400), []))
  /\ (forall body ws msg,
        In (ws, msg) (internal_order_status send_ok logger_ok m body).2 ->
        exists b u order_id status,
          body = Some b /\ sb_user_id b = Some u /\ u <> ""
          /\ sb_order_id b = Some order_id /\ sb_status b = Some status
          /\ In ws (sockets_of m u)
          /\ msg = order_status_message order_id status).
Proof.
  split; [reflexivity|]. split.
  - intros b H. unfold internal_order_status.
    destruct (field (sb_user_id b)); [|reflexivity].
    destruct (field (sb_order_id b)); [|reflexivity].
    destruct (field (sb_status b)); [|reflexivity].
    destruct H as [H|[H|H]]; discriminate.
  - intros body ws msg. unfold internal_order_status.
    destruct body as [b|]; [|simpl; tauto].
    destruct (field (sb_user_id b)) as [u|] eqn:Hu; [|simpl; tauto].
    destruct (field (sb_order_id b)) as [o|] eqn:Ho; [|simpl; tauto].
    destruct (field (sb_status b)) as [s|] eqn:Hs; [|simpl; tauto].
    apply field_some in Hu, Ho, Hs.
    destruct (broadcastOrderStatus send_ok logger_ok m u o s) as [sent res] eqn:Hb.
    intros Hin.
    assert (Hin' : In (ws, msg) (broadcastOrderStatus send_ok logger_ok m u o s).1).
    { rewrite Hb. destruct res; exact Hin. }
    rewrite broadcast_unfold in Hin'. apply send_each_sent in Hin'.
    exists b, u, o, s. tauto.
Qed.

(** ** From place-order to the buyer's sockets *)

Lemma place_order_notice_failed realtime_bound auth body now ids fail_at d :
  r_ok (place_order auth body now ids fail_at d).1 = false ->
  place_order_notice realtime_bound auth body now ids fail_at d = None.
Proof.
  unfold place_order_notice, place_order. destruct auth as [u|].
  - destruct (place_decide d (Some u) body now (ids O)) as [r|plan]; [reflexivity|].
    destruct (run_writes fail_at (commit_writes ids now plan) d) as [[|] d'];
      simpl; [discriminate|reflexivity].
  - destruct (place_decide d None body now (ids O)); reflexivity.
Qed.

Lemma send_each_throws send_ok msg before ws rest :
  (forall w, In w before -> send_ok w = true) ->
  send_ok ws = false ->
  send_each send_ok false msg (before ++ ws :: rest)%list
  = (map (fun w => (w, msg)) before, Threw).
Proof.
  intros Hbefore Hws. induction before as [|x r IH]; simpl.
  - rewrite Hws. reflexivity.
  - rewrite (Hbefore x) by (left; reflexivity).
    rewrite IH; [reflexivity|]. intros w Hw. apply Hbefore. right. exact Hw.
Qed.

(** An accepted order is announced to its buyer and to nobody else.  With
    the realtime service bound, place-order posts a notice that the internal
    endpoint takes as complete; whatever the sockets do, a message is only
    handed to a socket registered for the buyer whose send works, and it is
    the order-status message with the order id of the response and the
    status "placed".  When no send fails, or when the failures are logged
    without error, the endpoint answers 200 and every socket of the buyer
    whose send works gets the message exactly once, in the order the sockets
    registered.  When a send fails and logging the failure fails too, the
    broadcast throws: the sockets before the failing one have got the
    message, the later ones get nothing, and the endpoint gives no answer.
    Nothing is posted when the service is not bound.  The order id and the
    user id must not be empty, which the endpoint would take as missing. *)
Theorem placed_order_is_announced
    (d : db) (auth : option string) (body : option place_body) (now : string)
    (ids : nat -> string) (fail_at : option nat)
    (send_ok : nat -> bool) (logger_ok : bool) (m : gmap string (list nat)) :
  r_ok (place_order auth body now ids fail_at d).1 = true ->
  ids O <> "" -> auth <> Some "" ->
  exists u s notice,
    auth = Some u
    /\ r_body (place_order auth body now ids fail_at d).1 = OrderPlaced s
    /\ place_order_notice true auth body now ids fail_at d = Some notice
    /\ (forall ws msg,
          In (ws, msg) (internal_order_status send_ok logger_ok m (Some notice)).2 ->
          In ws (sockets_of m u) /\ send_ok ws = true
          /\ msg = order_status_message (os_id s) "placed")
    /\ (logger_ok = true \/ (forall ws, In ws (sockets_of m u) -> send_ok ws = true) ->
        internal_order_status send_ok logger_ok m (Some notice)
        = (Some (send InternalOk 200),
           map (fun ws => (ws, order_status_message (os_id s) "placed"))
             (List.filter send_ok (sockets_of m u))))
    /\ (forall before ws rest,
          logger_ok = false ->
          sockets_of m u = (before ++ ws :: rest)%list ->
          (forall w, In w before -> send_ok w = true) ->
          send_ok ws = false ->
          internal_order_status send_ok logger_ok m (Some notice)
          = (None,
             map (fun w => (w, order_status_message (os_id s) "placed")) before))
    /\ place_order_notice false auth body now ids fail_at d = None.
Proof.
  intros Hok Hid Hauth.
  destruct (place_order_ok_inv _ _ _ _ _ _ Hok) as (plan & Hd & Hpo).
  pose proof Hd as Hinv. apply place_decide_inr in Hinv.
  destruct Hinv as (u & raw & v & sub & sa & sm & -> & _ & _ & _ & _ & _ & _ & _ & Hplan).
  assert (Hoid : os_id (order_summary_of plan) = ids O) by (rewrite Hplan; reflexivity).
  assert (Hdone : (run_writes fail_at (commit_writes ids now plan) d).1 = true).
  { unfold place_order in Hok. rewrite Hd in Hok.
    destruct (run_writes fail_at (commit_writes ids now plan) d) as [[|] d'];
      [reflexivity|discriminate]. }
  exists u, (order_summary_of plan),
    {| sb_user_id := Some u; sb_order_id := Some (ids O); sb_status := Some "placed" |}.
  split; [reflexivity|]. split; [rewrite Hpo; reflexivity|].
  split; [unfold place_order_notice; rewrite Hd, Hdone; reflexivity|].
  assert (Hu : field (Some u) = Some u).
  { apply field_some. split; [reflexivity|]. congruence. }
  assert (Ho : field (Some (ids O)) = Some (ids O)).
  { apply field_some. split; [reflexivity|exact Hid]. }
  assert (Hunfold :
            internal_order_status send_ok logger_ok m
              (Some {| sb_user_id := Some u; sb_order_id := Some (ids O);
                       sb_status := Some "placed" |})
            = match send_each send_ok logger_ok
                      (order_status_message (ids O) "placed") (sockets_of m u) with
              | (sent, Returned) => (Some (send InternalOk 200), sent)
              | (sent, Threw) => (None, sent)
              end).
  { unfold internal_order_status. cbn [sb_user_id sb_order_id sb_status].
    rewrite Hu, Ho. cbn [field]. simpl (String.eqb "placed" "").
    cbv iota. rewrite broadcast_unfold. reflexivity. }
  rewrite Hunfold, Hoid.
  split; [|split; [|split]].
  - intros ws msg Hin. apply (send_each_sent send_ok logger_ok).
    destruct (send_each send_ok logger_ok _ (sockets_of m u)) as [sent [|]];
      exact Hin.
  - intros Hfine. rewrite send_each_returns by exact Hfine. reflexivity.
  - intros before ws rest -> Hset Hbefore Hws.
    rewrite Hset, send_each_throws by assumption. reflexivity.
  - unfold place_order_notice. rewrite Hd, Hdone. reflexivity.
Qed.

(** * Sessions *)

Lemma string_ltb_leb a b : String.ltb a b = negb (String.leb b a).
Proof.
  unfold String.ltb, String.leb. rewrite (String.compare_antisym b a).
  destruct (String.compare a b); reflexivity.
Qed.

(** Whoever a handler acts for holds a live session: when the lookup
    returns a user, the request's sid cookie is the id of a stored session
    that is not revoked and expires after the time of the request, and the
    user is the stored user that session belongs to. *)
Theorem auth_is_a_live_session_user
    (sid : option string) (now : string) (a : auth_db) (s : session) (usr : user) :
  getAuthFromRequest sid now a = Some (s, usr) ->
  sid = Some (s_id s) /\ s_id s <> ""
  /\ In s (sessions a) /\ s_revoked s = 0
  /\ String.ltb now (s_expires_at s) = true
  /\ In usr (users a) /\ usr_id usr = s_user_id s
  /\ auth_user_id (getAuthFromRequest sid now a) = Some (s_user_id s).
Proof.
  intros H. pose proof H as H0. unfold getAuthFromRequest in H.
  destruct (field sid) as [id|] eqn:Hsid; [|discriminate].
  apply field_some in Hsid. destruct Hsid as [-> Hne].
  destruct (List.find _ (sessions a)) as [s'|] eqn:Hs; [|discriminate].
  destruct (List.find _ (users a)) as [u'|] eqn:Hu; [|discriminate].
  inversion H; subst s' u'; clear H.
  apply find_some_inv in Hs. destruct Hs as [Hp Hin].
  apply andb_true_iff in Hp. destruct Hp as [Hp Hexp].
  apply andb_true_iff in Hp. destruct Hp as [Hid Hrev].
  apply String.eqb_eq in Hid. apply Z.eqb_eq in Hrev. subst id.
  pose proof (find_some_inv _ _ _ Hu) as [Hpu Hinu].
  apply String.eqb_eq in Hpu.
  rewrite H0. simpl. rewrite Hpu.
  repeat split; try assumption; reflexivity.
Qed.

(** A revoked or expired session opens nothing: when every stored session
    with the request's sid is revoked or has expired (or the request has no
    sid), the lookup returns no user, and each handler of the checkout and
    realtime workers then answers 401 and leaves the database and the
    socket registry as they were. *)
Theorem dead_session_is_refused
    (sid : option string) (now : string) (a : auth_db) (d : db)
    (m : gmap string (list nat)) :
  (forall s, In s (sessions a) -> sid = Some (s_id s) ->
             s_revoked s <> 0 \/ String.leb (s_expires_at s) now = true) ->
  getAuthFromRequest sid now a = None
  /\ (forall body t,
        cart_items_post (auth_user_id (getAuthFromRequest sid now a)) body t d
        = (json NotAuthenticated 401, d))
  /\ (forall body t ids fail_at,
        place_order (auth_user_id (getAuthFromRequest sid now a)) body t ids fail_at d
        = (json NotAuthenticated 401, d))
  /\ checkout_summary (auth_user_id (getAuthFromRequest sid now a)) d
     = (json NotAuthenticated 401, d)
  /\ cart_get (auth_user_id (getAuthFromRequest sid now a)) d
     = send CartGetNotAuthenticated 401
  /\ orders_get (auth_user_id (getAuthFromRequest sid now a)) d
     = send OrdersNotAuthenticated 401
  /\ (forall id,
        order_get (auth_user_id (getAuthFromRequest sid now a)) id d
        = send DetailNotAuthenticated 401)
  /\ (forall upgrade server,
        ws_orders (auth_user_id (getAuthFromRequest sid now a)) upgrade server m
        = (send WsNotAuthenticated 401, m)).
Proof.
  intros Hdead.
  assert (Hnone : getAuthFromRequest sid now a = None).
  { unfold getAuthFromRequest.
    destruct (field sid) as [id|] eqn:Hsid; [|reflexivity].
    apply field_some in Hsid. destruct Hsid as [-> _].
    replace (List.find _ (sessions a)) with (@None session); [reflexivity|].
    symmetry. apply find_none_iff. intros s Hin.
    destruct (String.eqb_spec (s_id s) id) as [<-|]; [|reflexivity].
    destruct (Hdead s Hin eq_refl) as [Hrev|Hexp].
    - apply Z.eqb_neq in Hrev. rewrite Hrev. reflexivity.
    - rewrite string_ltb_leb, Hexp. apply andb_false_r. }
  rewrite Hnone. repeat split; reflexivity.
Qed.

(** * The seller handlers *)

(** ** Stock updates *)

Lemma is_seller_or_admin_cases role :
  is_seller_or_admin role = true -> role = "seller" \/ role = "admin".
Proof.
  unfold is_seller_or_admin. intros H. apply orb_true_iff in H.
  destruct H as [H|H]; apply String.eqb_eq in H; auto.
Qed.

(** A stock update either changes nothing and reports no new stock, or it
    went through every check and wrote one inventory row. *)
Lemma stock_post_cases auth body now d :
  ((stock_post auth body now d).2 = d
   /\ forall pid n, sent_body (stock_post auth body now d).1 <> StockUpdated pid n)
  \/ exists u role raw v p n,
       auth = Some (u, role) /\ body = Some raw
       /\ productStockUpdateSchema raw = inr v
       /\ products d !! cv_product_id v = Some p
       /\ may_touch u role p
       /\ requested_stock d v = Some n /\ 0 <= n
       /\ stock_post auth body now d
          = (send (StockUpdated (cv_product_id v) n) 200,
             with_inventory d
               (<[cv_product_id v :=
                    {| inv_stock := n;
                       inv_reserved := reserved_of d (cv_product_id v);
                       inv_updated_at := now |}]> (inventory d))).
Proof.
  unfold stock_post.
  destruct auth as [[u role]|]; [|left; split; [reflexivity|discriminate]].
  destruct (is_seller_or_admin role) eqn:Hrole; simpl;
    [|left; split; [reflexivity|discriminate]].
  destruct body as [raw|]; [|left; split; [reflexivity|discriminate]].
  destruct (productStockUpdateSchema raw) as [errs|v] eqn:Hv;
    [left; split; [reflexivity|discriminate]|].
  destruct (products d !! cv_product_id v) as [p|] eqn:Hp;
    [|left; split; [reflexivity|discriminate]].
  assert (Htouch :
            String.eqb role "seller"
            && match p_seller_id p with
               | Some s => negb (String.eqb s "") && negb (String.eqb s u)
               | None => false
               end = false -> may_touch u role p).
  { intros H. unfold may_touch.
    destruct (is_seller_or_admin_cases role Hrole) as [-> | ->]; [|left; reflexivity].
    right. split; [reflexivity|]. simpl in H.
    destruct (p_seller_id p) as [sel|]; [|left; reflexivity].
    destruct (String.eqb_spec sel "") as [Hs|Hs];
      [right; left; rewrite Hs; reflexivity|].
    destruct (String.eqb_spec sel u) as [Hu|Hu];
      [right; right; rewrite Hu; reflexivity|].
    discriminate. }
  destruct (String.eqb role "seller" && _) eqn:Hown;
    [left; split; [reflexivity|discriminate]|].
  specialize (Htouch eq_refl).
  fold (stock_of d (cv_product_id v)). fold (reserved_of d (cv_product_id v)).
  change (if String.eqb (cv_operation v) "set" then Some (cv_qty v)
          else if String.eqb (cv_operation v) "add"
               then Some (stock_of d (cv_product_id v) + cv_qty v)
          else if String.eqb (cv_operation v) "remove"
               then Some (stock_of d (cv_product_id v) - cv_qty v)
          else None)
    with (requested_stock d v).
  destruct (requested_stock d v) as [n|] eqn:Hn;
    [|left; split; [reflexivity|discriminate]].
  destruct (Z.ltb_spec n 0); [left; split; [reflexivity|discriminate]|].
  right. exists u, role, raw, v, p, n. repeat split; try assumption; reflexivity.
Qed.

(** A stock update never leaves a negative stock and never touches what it
    should not: when it reports a new stock, that stock is not negative,
    the caller is an admin, or a seller and the product is the caller's own
    or has no seller (seller_id null or empty), the product's inventory row
    holds the reported stock with its reserved count kept, and every other
    inventory row is as before; when it reports none, nothing changed.
    Products, carts, addresses, shipping methods, orders and order items are
    never written.  The ownership check is skipped for a product without a
    seller: any seller's "set" on such a product is accepted. *)
Theorem stock_update_is_safe
    (auth : option (string * string)) (body : option cart_body) (now : string)
    (d : db) :
  (forall pid n,
     sent_body (stock_post auth body now d).1 = StockUpdated pid n ->
     0 <= n
     /\ (exists u role p,
           auth = Some (u, role) /\ products d !! pid = Some p
           /\ (role = "admin"
               \/ (role = "seller"
                   /\ (p_seller_id p = None \/ p_seller_id p = Some ""
                       \/ p_seller_id p = Some u))))
     /\ body ≫= cb_product_id = Some pid
     /\ inventory (stock_post auth body now d).2 !! pid
        = Some {| inv_stock := n; inv_reserved := reserved_of d pid;
                  inv_updated_at := now |}
     /\ forall pid', pid' <> pid ->
          inventory (stock_post auth body now d).2 !! pid' = inventory d !! pid')
  /\ ((forall pid n, sent_body (stock_post auth body now d).1 <> StockUpdated pid n) ->
      (stock_post auth body now d).2 = d)
  /\ products (stock_post auth body now d).2 = products d
  /\ cart_items (stock_post auth body now d).2 = cart_items d
  /\ addresses (stock_post auth body now d).2 = addresses d
  /\ shipping_methods (stock_post auth body now d).2 = shipping_methods d
  /\ orders (stock_post auth body now d).2 = orders d
  /\ order_items (stock_post auth body now d).2 = order_items d
  /\ (forall u raw v p,
        auth = Some (u, "seller") -> body = Some raw ->
        productStockUpdateSchema raw = inr v -> cv_operation v = "set" ->
        products d !! cv_product_id v = Some p ->
        p_seller_id p = None \/ p_seller_id p = Some "" ->
        sent_body (stock_post auth body now d).1
        = StockUpdated (cv_product_id v) (cv_qty v)).
Proof.
  assert (Hlast : forall u raw v p,
             auth = Some (u, "seller") -> body = Some raw ->
             productStockUpdateSchema raw = inr v -> cv_operation v = "set" ->
             products d !! cv_product_id v = Some p ->
             p_seller_id p = None \/ p_seller_id p = Some "" ->
             sent_body (stock_post auth body now d).1
             = StockUpdated (cv_product_id v) (cv_qty v)).
  { intros u raw v p -> -> Hv Hop Hp Hsel. unfold stock_post.
    change (negb (is_seller_or_admin "seller")) with false. cbv iota.
    rewrite Hv, Hp, Hop.
    assert (Hq : 1 <= cv_qty v).
    { unfold productStockUpdateSchema in Hv. apply cartUpdateSchema_inr in Hv.
      destruct Hv as (_ & _ & Hq & _). lia. }
    replace (match p_seller_id p with
             | Some s => negb (String.eqb s "") && negb (String.eqb s u)
             | None => false
             end) with false
      by (destruct Hsel as [-> | ->]; reflexivity).
    rewrite andb_false_r. cbn.
    replace (cv_qty v <? 0) with false by (symmetry; apply Z.ltb_ge; lia).
    reflexivity. }
  revert Hlast.
  destruct (stock_post_cases auth body now d)
    as [[Hd Hno]|(u & role & raw & v & p & n & -> & -> & Hv & Hp & Ht & Hn & Hpos & ->)];
    intros Hlast.
  - rewrite Hd in *. split; [intros pid n H; destruct (Hno pid n H)|].
    repeat split; try reflexivity. exact Hlast.
  - cbn [fst snd sent_body] in *. split.
    + intros pid n' [= <- <-]. split; [exact Hpos|].
      split; [exists u, role, p; split; [reflexivity|split; [exact Hp|exact Ht]]|].
      apply cartUpdateSchema_inr in Hv. destruct Hv as (Hpid & _).
      split; [exact Hpid|]. simpl.
      split; [apply lookup_insert_eq|].
      intros pid' Hne. apply lookup_insert_ne. congruence.
    + split.
      * intros Hno. exfalso. eapply Hno. reflexivity.
      * repeat split; try reflexivity. exact Hlast.
Qed.

(** What the seller sets is what the buyer can take: after a stock update
    that reports stock [n] for a product, a buyer's request to set the
    product's cart quantity to any [q] up to [n] minus the reserved count is
    accepted, stores [q] and reports that amount as available. *)
Theorem restocked_product_fits_in_cart
    (sauth : option (string * string)) (sbody : option cart_body) (t : string)
    (d : db) (pid : string) (n : Z) (u : string) (p : product) (q : Z)
    (now : string) :
  sent_body (stock_post sauth sbody t d).1 = StockUpdated pid n ->
  products d !! pid = Some p -> p_status p = "active" ->
  p_seller_id p <> Some u -> pid <> "" ->
  1 <= q <= 999 -> q <= n - reserved_of d pid ->
  available_of (stock_post sauth sbody t d).2 pid = n - reserved_of d pid
  /\ cart_items_post (Some u) (Some (cart_request pid q (Some "set"))) now
       (stock_post sauth sbody t d).2
     = (json (CartUpdated q (n - reserved_of d pid)) 200,
        with_cart_items (stock_post sauth sbody t d).2
          (<[(u, pid) := {| ci_qty := q; ci_updated_at := now |}]>
             (cart_items (stock_post sauth sbody t d).2))).
Proof.
  intros Hrep Hp Hst Hsel Hpid Hq Hfit.
  destruct (stock_post_cases sauth sbody t d)
    as [[_ Hno]|(su & role & raw & v & p' & n' & _ & _ & _ & _ & _ & _ & _ & Heq)].
  { destruct (Hno pid n Hrep). }
  rewrite Heq in *. cbn [fst snd sent_body] in *.
  inversion Hrep; subst n'. clear Hrep.
  match goal with H : cv_product_id v = pid |- _ => rewrite H in * end.
  set (d1 := with_inventory d _).
  assert (Hav : available_of d1 pid = n - reserved_of d pid).
  { unfold available_of, d1. simpl. rewrite lookup_insert_eq. reflexivity. }
  split; [exact Hav|].
  unfold cart_items_post, cart_decide.
  rewrite cartUpdateSchema_valid; [|assumption..|reflexivity].
  cbn [cv_product_id cv_qty cv_operation].
  change (products d1) with (products d).
  rewrite Hp, Hst, String.eqb_refl. cbv beta iota.
  rewrite (seller_check_passes p u Hsel).
  cbv beta iota zeta. rewrite Hav. cbn.
  replace (n - reserved_of d pid <=? 0) with false
    by (symmetry; apply Z.leb_gt; lia).
  replace (n - reserved_of d pid <? q) with false
    by (symmetry; apply Z.ltb_ge; lia).
  rewrite !andb_false_r.
  replace (q <=? 0) with false by (symmetry; apply Z.leb_gt; lia).
  reflexivity.
Qed.

(** ** Order status updates *)

Lemma sellerOrderStatusSchema_inr raw order_id status :
  sellerOrderStatusSchema raw = inr (order_id, status) ->
  osb_order_id raw = Some order_id /\ osb_status raw = Some status
  /\ order_id <> "" /\ valid_order_status status = true.
Proof.
  unfold sellerOrderStatusSchema, nonempty. intros H.
  destruct (osb_order_id raw) as [i|]; [|discriminate].
  destruct (osb_status raw) as [s|];
    [|destruct (String.eqb i ""); discriminate].
  destruct (String.eqb_spec i ""); [discriminate|].
  destruct (valid_order_status s) eqn:Hs; [|discriminate].
  simpl in H. inversion H; subst. auto.
Qed.

Lemma set_order_status_fixed order_id status now o :
  order_fixed_columns (set_order_status order_id status now o)
  = order_fixed_columns o.
Proof. unfold set_order_status. destruct (String.eqb _ _); reflexivity. Qed.

(** A status update either changes nothing or rewrites the status of the
    orders with the requested id. *)
Lemma status_post_cases auth body now d :
  ((seller_order_status_post auth body now d).2 = d
   /\ sent_body (seller_order_status_post auth body now d).1 <> StatusOk)
  \/ exists u role raw order_id status,
       auth = Some (u, role) /\ is_seller_or_admin role = true
       /\ body = Some raw
       /\ sellerOrderStatusSchema raw = inr (order_id, status)
       /\ (role = "seller" -> seller_items_on_order d order_id u <> 0%nat)
       /\ seller_order_status_post auth body now d
          = (send StatusOk 200,
             with_orders d (map (set_order_status order_id status now) (orders d))).
Proof.
  unfold seller_order_status_post.
  destruct auth as [[u role]|]; [|left; split; [reflexivity|discriminate]].
  destruct (is_seller_or_admin role) eqn:Hrole; simpl;
    [|left; split; [reflexivity|discriminate]].
  destruct body as [raw|]; [|left; split; [reflexivity|discriminate]].
  destruct (sellerOrderStatusSchema raw) as [errs|[order_id status]] eqn:Hv;
    [left; split; [reflexivity|discriminate]|].
  destruct (String.eqb_spec role "seller") as [Hs|Hs]; simpl.
  - destruct (Nat.eqb_spec (seller_items_on_order d order_id u) 0) as [Hz|Hz];
      [left; split; [reflexivity|discriminate]|].
    right. exists u, role, raw, order_id, status. repeat split; auto.
  - right. exists u, role, raw, order_id, status. repeat split; auto.
Qed.

(** A status update writes the status and nothing else: every table but
    [orders] is left alone; the orders keep their number, their order, and
    every column except status and updated_at (so their totals); an order
    that differs afterwards is the requested one, holds one of the five
    statuses and the time of the request; and a seller who sells no item of
    the order is refused with a 403 and changes nothing. *)
Theorem status_update_writes_the_status_only
    (auth : option (string * string)) (body : option order_status_body)
    (now : string) (d : db) :
  products (seller_order_status_post auth body now d).2 = products d
  /\ inventory (seller_order_status_post auth body now d).2 = inventory d
  /\ cart_items (seller_order_status_post auth body now d).2 = cart_items d
  /\ addresses (seller_order_status_post auth body now d).2 = addresses d
  /\ shipping_methods (seller_order_status_post auth body now d).2
     = shipping_methods d
  /\ order_items (seller_order_status_post auth body now d).2 = order_items d
  /\ map order_fixed_columns (orders (seller_order_status_post auth body now d).2)
     = map order_fixed_columns (orders d)
  /\ (forall o',
        In o' (orders (seller_order_status_post auth body now d).2) ->
        In o' (orders d)
        \/ (body ≫= osb_order_id = Some (o_id o')
            /\ body ≫= osb_status = Some (o_status o')
            /\ valid_order_status (o_status o') = true
            /\ o_updated_at o' = now))
  /\ (forall u raw order_id status,
        auth = Some (u, "seller") -> body = Some raw ->
        sellerOrderStatusSchema raw = inr (order_id, status) ->
        seller_items_on_order d order_id u = 0%nat ->
        seller_order_status_post auth body now d
        = (send StatusNotSellerOnOrder 403, d)).
Proof.
  assert (Hlast : forall u raw order_id status,
             auth = Some (u, "seller") -> body = Some raw ->
             sellerOrderStatusSchema raw = inr (order_id, status) ->
             seller_items_on_order d order_id u = 0%nat ->
             seller_order_status_post auth body now d
             = (send StatusNotSellerOnOrder 403, d)).
  { intros u raw order_id status -> -> Hv Hz. unfold seller_order_status_post.
    simpl. rewrite Hv, Hz. reflexivity. }
  destruct (status_post_cases auth body now d)
    as [[Hd _]|(u & role & raw & order_id & status & -> & _ & -> & Hv & _ & Heq)].
  - rewrite Hd. repeat split; try reflexivity; auto.
  - rewrite Heq. cbn [fst snd with_orders products inventory cart_items addresses
                      shipping_methods order_items orders].
    repeat (split; [reflexivity|]).
    split.
    { rewrite map_map. apply map_ext. intros o. apply set_order_status_fixed. }
    split; [|rewrite <- Heq; exact Hlast].
    intros o' Hin. apply in_map_iff in Hin. destruct Hin as (o & <- & Hin).
    apply sellerOrderStatusSchema_inr in Hv.
    destruct Hv as (Hid & Hst & _ & Hvalid).
    unfold set_order_status.
    destruct (String.eqb_spec (o_id o) order_id) as [He|]; [|left; exact Hin].
    right. simpl. rewrite Hid, Hst, He. auto.
Qed.

(** * Invariants of the shared tables *)

(** However far the statements of the commit ran, the inventory holds the
    decrements of the first cart lines, and the cart is untouched or
    cleared. *)
Lemma item_writes_take_state ids n orderId now u items k d :
  exists j,
    inventory (apply_writes
                 (take k (item_writes ids n orderId now items ++ [ClearCart u])) d)
    = decrement_all now (take j items) (inventory d)
    /\ (cart_items (apply_writes
                      (take k (item_writes ids n orderId now items
                               ++ [ClearCart u])) d)
        = cart_items d
        \/ cart_items (apply_writes
                         (take k (item_writes ids n orderId now items
                                  ++ [ClearCart u])) d)
           = filter (fun kv => kv.1.1 ≠ u) (cart_items d)).
Proof.
  revert n k d. induction items as [|it r IH]; intros n k d.
  - exists O. destruct k as [|k]; simpl.
    + split; [reflexivity|left; reflexivity].
    + rewrite take_nil. split; [reflexivity|right; reflexivity].
  - destruct k as [|[|k]].
    + exists O. split; [reflexivity|left; reflexivity].
    + exists O. split; [reflexivity|left; reflexivity].
    + cbn [item_writes app take]. unfold apply_writes. cbn [fold_left].
      fold (apply_writes
              (take k (item_writes ids (S n) orderId now r ++ [ClearCart u]))
              (apply_write (DecrementStock (cl_product_id it) (cl_qty it) now)
                 (apply_write
                    (InsertOrderItem
                       {| oi_id := ids n; oi_order_id := orderId;
                          oi_product_id := cl_product_id it;
                          oi_title_snapshot := cl_title it;
                          oi_price_cents := cl_price_cents it;
                          oi_qty := cl_qty it |}) d))).
      destruct (IH (S n) k
                  (apply_write (DecrementStock (cl_product_id it) (cl_qty it) now)
                     (apply_write
                        (InsertOrderItem
                           {| oi_id := ids n; oi_order_id := orderId;
                              oi_product_id := cl_product_id it;
                              oi_title_snapshot := cl_title it;
                              oi_price_cents := cl_price_cents it;
                              oi_qty := cl_qty it |}) d)))
        as (j & Hinv & Hcart).
      exists (S j). split; [rewrite Hinv; reflexivity|exact Hcart].
Qed.

Lemma commit_prefix_state ids now plan fail_at d :
  exists j,
    inventory (apply_writes (applied_prefix fail_at (commit_writes ids now plan)) d)
    = decrement_all now (take j (pp_items plan)) (inventory d)
    /\ (cart_items
          (apply_writes (applied_prefix fail_at (commit_writes ids now plan)) d)
        = cart_items d
        \/ cart_items
             (apply_writes (applied_prefix fail_at (commit_writes ids now plan)) d)
           = filter (fun kv => kv.1.1 ≠ pp_user_id plan) (cart_items d)).
Proof.
  unfold commit_writes.
  set (rest := (item_writes ids 1 (o_id (pp_order plan)) now (pp_items plan)
                ++ [ClearCart (pp_user_id plan)])%list).
  assert (Hk : forall k,
             exists j,
               inventory (apply_writes (take k (InsertOrder (pp_order plan) :: rest)) d)
               = decrement_all now (take j (pp_items plan)) (inventory d)
               /\ (cart_items (apply_writes
                                 (take k (InsertOrder (pp_order plan) :: rest)) d)
                   = cart_items d
                   \/ cart_items (apply_writes
                                    (take k (InsertOrder (pp_order plan) :: rest)) d)
                      = filter (fun kv => kv.1.1 ≠ pp_user_id plan) (cart_items d))).
  { intros [|k].
    - exists O. split; [reflexivity|left; reflexivity].
    - cbn [take]. unfold apply_writes. cbn [fold_left].
      apply (item_writes_take_state ids 1 (o_id (pp_order plan)) now
               (pp_user_id plan) (pp_items plan) k
               (apply_write (InsertOrder (pp_order plan)) d)). }
  destruct fail_at as [k|]; cbn [applied_prefix]; [apply Hk|].
  rewrite <- (firstn_all (InsertOrder (pp_order plan) :: rest)). apply Hk.
Qed.

(** Decrements that each fit into what is available keep the stock at or
    above the reserved count. *)
Lemma decrement_all_stock_ok now items (inv : gmap string inventory_row) :
  NoDup (map cl_product_id items) ->
  (forall pid row, inv !! pid = Some row ->
                   0 <= inv_stock row /\ 0 <= inv_reserved row) ->
  (forall it row, In it items -> inv !! cl_product_id it = Some row ->
                  cl_qty it <= inv_stock row - inv_reserved row) ->
  forall pid row,
    decrement_all now items inv !! pid = Some row ->
    0 <= inv_stock row /\ 0 <= inv_reserved row.
Proof.
  intros Hnd Hok Hfit pid row. rewrite (decrement_all_lookup _ _ _ _ Hnd).
  destruct (List.find _ items) as [it|] eqn:Hf; [|apply Hok].
  apply find_some_inv in Hf. destruct Hf as [Hp Hin].
  apply String.eqb_eq in Hp.
  destruct (inv !! pid) as [row0|] eqn:E; [|discriminate].
  intros [= <-]. simpl.
  destruct (Hok pid row0 E) as [Hs Hr].
  rewrite <- Hp in E. pose proof (Hfit it row0 Hin E). lia.
Qed.

Lemma cart_post_frame auth body now d :
  inventory (cart_items_post auth body now d).2 = inventory d
  /\ orders (cart_items_post auth body now d).2 = orders d.
Proof.
  destruct (cart_post_cases auth body now d)
    as [(_ & _ & ->)|(u & pid & _ & _ & [->|(q & a & _ & ->)])];
    split; reflexivity.
Qed.

Lemma serve_cart_ok auth body now d :
  db_ok d -> db_ok (cart_items_post auth body now d).2.
Proof.
  intros (Hc & Hs & Ho). destruct (cart_post_frame auth body now d) as [Hi Hord].
  split; [|split].
  - intros k ci Hk. destruct (cart_post_lines _ _ _ _ _ _ Hk) as [H|H]; [exact H|].
    eapply Hc, H.
  - intros pid row. rewrite Hi. apply Hs.
  - intros o. rewrite Hord. apply Ho.
Qed.

Lemma serve_place_ok auth body now ids fail_at d :
  db_ok d -> db_ok (place_order auth body now ids fail_at d).2.
Proof.
  intros (Hc & Hs & Ho).
  destruct (place_decide d auth body now (ids O)) as [r|plan] eqn:Hd.
  { rewrite (place_order_rejected _ _ _ _ _ fail_at _ Hd).
    exact (conj Hc (conj Hs Ho)). }
  rewrite (place_order_committed _ _ _ _ _ fail_at _ Hd). cbn [snd].
  destruct (commit_prefix_state ids now plan fail_at d) as (j & Hinv & Hcart).
  pose proof (commit_orders ids now plan fail_at d) as Hord.
  destruct (plan_order_totals _ _ _ _ _ _ Hd) as (Htax & Htot & _ & _).
  apply place_decide_inr in Hd.
  destruct Hd as (u & raw & v & sub & sa & sm & _ & _ & _ & _ & Hcs & _ & _ & _ & Hplan).
  assert (Hitems : pp_items plan = load_cart d u) by (rewrite Hplan; reflexivity).
  split; [|split].
  - intros k ci Hk. destruct Hcart as [Hsame|Hcleared].
    + rewrite Hsame in Hk. eapply Hc, Hk.
    + rewrite Hcleared in Hk. apply map_lookup_filter_Some in Hk.
      destruct Hk as [Hk _]. eapply Hc, Hk.
  - intros pid row. rewrite Hinv, Hitems.
    apply decrement_all_stock_ok.
    + rewrite <- firstn_map. eapply sublist_NoDup; [apply load_cart_nodup|].
      apply sublist_take.
    + exact Hs.
    + intros it row0 Hin Hrow.
      assert (Hin' : In it (load_cart d u)).
      { apply list_elem_of_In. eapply subseteq_take. apply list_elem_of_In, Hin. }
      apply check_stock_available in Hcs. rewrite Forall_forall in Hcs.
      pose proof (Hcs it (proj2 (list_elem_of_In _ _) Hin')) as Hfit.
      fold (line_available it) in Hfit.
      rewrite (line_available_of d u it Hin') in Hfit.
      unfold available_of in Hfit. rewrite Hrow in Hfit. exact Hfit.
  - intros o. rewrite Hord.
    destruct fail_at as [[|k]|]; [apply Ho| |];
      (rewrite in_app_iff; intros [Hin|[<-|[]]]; [apply Ho, Hin|split; [exact Htax|exact Htot]]).
Qed.

Lemma serve_stock_ok auth body now d :
  db_ok d -> db_ok (stock_post auth body now d).2.
Proof.
  intros (Hc & Hs & Ho).
  destruct (stock_post_cases auth body now d)
    as [[-> _]|(u & role & raw & v & p & n & _ & _ & _ & _ & _ & _ & Hpos & ->)];
    [exact (conj Hc (conj Hs Ho))|].
  cbn [snd]. split; [exact Hc|]. split; [|exact Ho].
  intros pid row. simpl. rewrite lookup_insert.
  destruct (decide (cv_product_id v = pid)) as [<-|]; [|apply Hs].
  intros [= <-]. simpl. split; [exact Hpos|].
  unfold reserved_of. destruct (inventory d !! cv_product_id v) as [row0|] eqn:E;
    [apply (Hs _ _ E)|lia].
Qed.

Lemma serve_status_ok auth body now d :
  db_ok d -> db_ok (seller_order_status_post auth body now d).2.
Proof.
  intros (Hc & Hs & Ho).
  destruct (status_post_cases auth body now d)
    as [[-> _]|(u & role & raw & order_id & status & _ & _ & _ & _ & _ & ->)];
    [exact (conj Hc (conj Hs Ho))|].
  cbn [snd]. split; [exact Hc|]. split; [exact Hs|].
  intros o' Hin. simpl in Hin. apply in_map_iff in Hin.
  destruct Hin as (o & <- & Hin). destruct (Ho o Hin) as [Htax Htot].
  unfold set_order_status. destruct (String.eqb _ _); simpl; auto.
Qed.

(** Served one after the other, cart updates, place-orders (also those cut
    short by a failing statement), stock updates and order status updates
    keep the shared tables consistent: every cart line keeps a quantity of
    at least 1, no stock and no reserved count becomes negative, and every
    order has no tax and a total equal to subtotal plus shipping. *)
Theorem tables_stay_consistent (requests : list request) (d : db) :
  db_ok d -> db_ok (serve_all requests d).
Proof.
  revert d. induction requests as [|r rs IH]; intros d Hok; [exact Hok|].
  simpl. apply IH. destruct r; simpl.
  - apply serve_cart_ok, Hok.
  - apply serve_place_ok, Hok.
  - apply serve_stock_ok, Hok.
  - apply serve_status_ok, Hok.
Qed.

(** * The statements at work on the scenarios *)

Lemma demo_order_accepted :
  r_ok (place_order (Some "u1") demo_order_request "t1" demo_ids None demo_db).1
  = true.
Proof. vm_compute. reflexivity. Defined.

Lemma demo_summary_answer :
  summary_response (Some "u1") demo_db
  = json (SummaryOk (load_cart demo_db "u1") 1500 (addresses_of demo_db "u1") "a1"
            (summary_shipping_options (active_methods_of_zone demo_db "IN") 1500))
      200.
Proof. vm_compute. reflexivity. Defined.

Lemma placed_order_reads_back_witness :
  exists u s, Some "u1" = Some u /\ os_id s = "order-1".
Proof.
  destruct (placed_order_reads_back demo_db (Some "u1") demo_order_request "t1"
              demo_ids None demo_order_accepted)
    as (u & s & ov & items & Hu & _ & Hid & _).
  - discriminate.
  - intros o [].
  - intros oi [].
  - exists u, s. split; [exact Hu|exact Hid].
Defined.

Lemma cart_is_empty_after_an_order_witness :
  exists u,
    Some "u1" = Some u
    /\ cart_get (Some "u1")
         (place_order (Some "u1") demo_order_request "t1" demo_ids None demo_db).2
       = send (CartContents [] 0) 200.
Proof.
  destruct (cart_is_empty_after_an_order demo_db (Some "u1") demo_order_request "t1"
              demo_ids None demo_order_accepted)
    as (u & Hu & Hcart & _).
  exists u. split; [exact Hu|exact Hcart].
Defined.

Lemma cart_update_shows_in_cart_witness :
  exists u pid, Some "u1" = Some u /\ pid = "p1".
Proof.
  assert (H : reported_qty
                (cart_items_post (Some "u1")
                   (Some (cart_request "p1" 1 (Some "add"))) "t1" demo_db).1
              = Some 4) by (vm_compute; reflexivity).
  destruct (cart_update_shows_in_cart _ _ _ _ _ H)
    as (u & pid & items & sub & Hu & Hpid & _).
  exists u, pid. split; [exact Hu|]. simpl in Hpid. congruence.
Defined.

Lemma accepted_order_takes_stock_witness :
  exists u, Some "u1" = Some u.
Proof.
  destruct (accepted_order_takes_stock demo_db (Some "u1") demo_order_request "t1"
              demo_ids None demo_order_accepted) as (u & Hu & _).
  exists u. exact Hu.
Defined.

Lemma accepted_order_was_checked_witness :
  exists u a, Some "u1" = Some u /\ a_user_id a = u.
Proof.
  destruct (accepted_order_was_checked demo_db (Some "u1") demo_order_request "t1"
              demo_ids None demo_order_accepted)
    as (u & raw & a & m & Hu & _ & _ & _ & _ & Ha & _).
  exists u, a. split; [exact Hu|exact Ha].
Defined.

Lemma insufficient_stock_rejects_the_order_witness :
  exists line,
    place_order (Some "u1") demo_order_request "t1" demo_ids None demo_db_low
    = (json (InsufficientStock (cl_product_id line)
               (available_of demo_db_low (cl_product_id line))) 400,
       demo_db_low).
Proof.
  destruct (insufficient_stock_rejects_the_order demo_db_low "u1"
              (demo_place_body "std" None)
              {| pv_shipping_method_id := "std"; pv_shipping_address_id := "a1";
                 pv_billing_address_id := None |}
              "t1" demo_ids None eq_refl)
    as (line & _ & _ & H).
  - exists {| cl_product_id := "p1"; cl_qty := 3; cl_title := "Mug";
              cl_price_cents := 500; cl_currency := "USD";
              cl_stock := Some 2; cl_reserved := Some 0 |}.
    split; [vm_compute; left; reflexivity|vm_compute; reflexivity].
  - exists line. exact H.
Defined.

Lemma quote_is_charged_unless_express_witness :
  exists o,
    so_id o = "std" /\ so_cost_cents o = o_shipping_cents (pp_order demo_plan).
Proof.
  destruct (quote_is_charged_unless_express demo_db "u1" (demo_place_body "std" None)
              "t1" (demo_ids O) demo_plan _ _ _ _ _ _
              (NoDup_singleton "a1") demo_summary_answer demo_plan_decided
              eq_refl eq_refl)
    as (o & _ & Hid & Hcost & _).
  exists o. split; [exact Hid|exact Hcost].
Defined.

Lemma summary_selects_default_or_latest_witness :
  exists a, "a1" = a_id a /\ a_user_id a = "u1".
Proof.
  destruct (summary_selects_default_or_latest demo_db "u1" _ _ _ _ _ _
              demo_summary_answer)
    as (_ & _ & a & _ & _ & Hu & Hsel & _).
  exists a. split; [exact Hsel|exact Hu].
Defined.

Lemma remove_undoes_add_witness :
  removeSocket "u1" 8%nat (addSocket "u1" 8%nat demo_sockets) = demo_sockets.
Proof.
  apply remove_undoes_add.
  - intros u set H. unfold demo_sockets in H.
    apply lookup_singleton_Some in H. destruct H as [_ <-].
    split; [discriminate|apply NoDup_singleton].
  - vm_compute. intros [H|[]]. discriminate.
Defined.

Lemma placed_order_is_announced_witness :
  exists notice,
    internal_order_status (fun _ => true) true demo_sockets (Some notice)
    = (Some (send InternalOk 200),
       [(7%nat, order_status_message "order-1" "placed")]).
Proof.
  destruct (placed_order_is_announced demo_db (Some "u1") demo_order_request "t1"
              demo_ids None (fun _ => true) true demo_sockets demo_order_accepted)
    as (u & s & notice & Hu & Hs & _ & _ & Hsent & _).
  - discriminate.
  - discriminate.
  - exists notice. rewrite Hsent by (left; reflexivity). inversion Hu; subst u.
    vm_compute in Hs. inversion Hs; subst s. reflexivity.
Defined.

Lemma auth_is_a_live_session_user_witness :
  auth_user_id (getAuthFromRequest (Some "s1") demo_now demo_auth_db) = Some "u1".
Proof.
  destruct (auth_is_a_live_session_user (Some "s1") demo_now demo_auth_db
              {| s_id := "s1"; s_user_id := "u1";
                 s_issued_at := "2026-01-01T00:00:00.000Z";
                 s_expires_at := "2026-02-01T00:00:00.000Z"; s_revoked := 0 |}
              {| usr_id := "u1"; usr_role := "buyer"; usr_status := "active" |})
    as (_ & _ & _ & _ & _ & _ & _ & H).
  - vm_compute. reflexivity.
  - exact H.
Defined.

Lemma dead_session_is_refused_witness :
  getAuthFromRequest (Some "s2") demo_now demo_auth_db = None.
Proof.
  refine (proj1 (dead_session_is_refused (Some "s2") demo_now demo_auth_db demo_db
                   demo_sockets _)).
  intros s [<-|[<-|[]]] Hsid.
  - discriminate.
  - left. discriminate.
Defined.

Lemma restocked_product_fits_in_cart_witness :
  available_of
    (stock_post (Some ("seller", "seller")) (Some (cart_request "p1" 10 (Some "set")))
       "t1" demo_db).2 "p1"
  = 10 - reserved_of demo_db "p1".
Proof.
  refine (proj1 (restocked_product_fits_in_cart (Some ("seller", "seller"))
                   (Some (cart_request "p1" 10 (Some "set"))) "t1" demo_db "p1" 10
                   "u1"
                   {| p_title := "Mug"; p_price_cents := 500; p_currency := "USD";
                      p_status := "active"; p_seller_id := Some "seller" |}
                   4 "t2" _ _ _ _ _ _ _)).
  - vm_compute. reflexivity.
  - vm_compute. reflexivity.
  - reflexivity.
  - discriminate.
  - discriminate.
  - lia.
  - vm_compute. discriminate.
Defined.

Lemma demo_db_ok : db_ok demo_db.
Proof.
  split; [exact demo_cart_inv|]. split.
  - intros pid row H. unfold demo_db in H. cbn [inventory] in H.
    apply lookup_singleton_Some in H. destruct H as [_ <-]. simpl. lia.
  - intros o [].
Defined.

Lemma tables_stay_consistent_witness :
  db_ok demo_db /\ db_ok (serve_all demo_requests demo_db).
Proof.
  split; [exact demo_db_ok|].
  exact (tables_stay_consistent demo_requests demo_db demo_db_ok).
Defined.

(** * From the summary to the order *)

Lemma find_the_only {A} (p : A -> bool) (l : list A) (x : A) :
  In x l -> p x = true ->
  (forall y, In y l -> p y = true -> y = x) ->
  List.find p l = Some x.
Proof.
  induction l as [|z r IH]; intros Hin Hp Huniq; [destruct Hin|].
  simpl. destruct (p z) eqn:Hz.
  - f_equal. apply Huniq; [left; reflexivity|exact Hz].
  - destruct Hin as [->|Hin]; [congruence|].
    apply IH; [exact Hin|exact Hp|].
    intros y Hy. apply Huniq. right. exact Hy.
Qed.

Lemma check_stock_accepts items acc :
  (forall line, In line items -> cl_qty line <= line_available line) ->
  check_stock items acc
  = inr (fold_left (fun sum item => sum + cl_price_cents item * cl_qty item)
           items acc).
Proof.
  revert acc. induction items as [|it rest IH]; intros acc H; [reflexivity|].
  cbn [check_stock fold_left].
  pose proof (H it (or_introl eq_refl)) as Hit. unfold line_available in Hit.
  replace (num_or0 (cl_stock it) - num_or0 (cl_reserved it) <? cl_qty it)
    with false by (symmetry; apply Z.ltb_ge; lia).
  apply IH. intros line Hl. apply H. right. exact Hl.
Qed.

(** An option of the summary comes from one active method of the zone, whose
    id and speed it carries. *)
Lemma summary_option_method rows subtotal_cents o :
  In o (summary_shipping_options rows subtotal_cents) ->
  exists i m,
    rows !! i = Some m
    /\ summary_shipping_options rows subtotal_cents !! i = Some o
    /\ so_id o = sm_id m /\ so_speed o = sm_speed m.
Proof.
  intros Ho. apply list_elem_of_In, list_elem_of_lookup in Ho.
  destruct Ho as [i Hi]. unfold summary_shipping_options in *.
  assert (Hlen : (i < length rows)%nat).
  { apply lookup_lt_Some in Hi. rewrite tie_break_length in Hi.
    rewrite length_map in Hi. exact Hi. }
  apply lookup_lt_is_Some in Hlen. destruct Hlen as [m Hm].
  exists i, m. split; [exact Hm|]. split; [exact Hi|].
  pose proof (pre_option_lookup rows subtotal_cents i m Hm) as Hpre.
  destruct (tie_break_lookup _ _ _ Hpre) as [H|[H _]];
    rewrite H in Hi; inversion Hi; subst o; split; reflexivity.
Qed.

(** Every option the summary offers can be ordered.  On the same database,
    with the address the summary selected and the id of any offered option,
    place-order accepts the order if every cart line fits in the stock that
    is available; the order's subtotal is the summary's, and unless the
    option is express its shipping is the quoted cost.  Address ids and
    shipping method ids are taken to be unique, as the tables' primary keys
    make them, and non-empty, as the body's schema wants them. *)
Theorem offered_option_can_be_ordered
    (d : db) (u now : string) (ids : nat -> string)
    (items : list cart_line) (subtotal_cents : Z) (addrs : list address)
    (sel : string) (opts : list shipping_option) (st : Z) (o : shipping_option) :
  NoDup (map a_id (addresses d)) ->
  NoDup (map sm_id (shipping_methods d)) ->
  summary_response (Some u) d
  = json (SummaryOk items subtotal_cents addrs sel opts) st ->
  In o opts -> sel <> "" -> so_id o <> "" ->
  (forall line, In line items ->
                cl_qty line <= available_of d (cl_product_id line)) ->
  exists plan,
    place_order (Some u)
      (Some {| pb_shipping_method_id := Some (so_id o);
               pb_shipping_address_id := Some sel;
               pb_billing_address_id := None |}) now ids None d
    = (json (OrderPlaced (order_summary_of plan)) 200,
       apply_writes (commit_writes ids now plan) d)
    /\ os_subtotal_cents (order_summary_of plan) = subtotal_cents
    /\ o_shipping_address_id (pp_order plan) = sel
    /\ sm_id (pp_method plan) = so_id o
    /\ (has_speed "express" (so_speed o) = false ->
        os_shipping_cents (order_summary_of plan) = so_cost_cents o).
Proof.
  intros Hnda Hndm Hsum Ho Hsel Hoid Hfit.
  pose proof (summary_ok_inv _ _ _ _ _ _ _ _ Hsum) as Hinv.
  apply summary_ok_selected in Hsum.
  destruct Hsum as (first & rest & Haddr & -> & -> & -> & ->).
  set (a := default first (List.find is_default_shipping (addresses_of d u))) in *.
  assert (Ha : In a (addresses_of d u)).
  { subst a. destruct (List.find _ _) as [x|] eqn:Hf; simpl.
    - apply find_some_inv in Hf. apply Hf.
    - rewrite Haddr. left. reflexivity. }
  apply in_addresses_of in Ha. destruct Ha as [Ha Hau].
  destruct (summary_option_method _ _ _ Ho) as (i & m & Hm & Hi & Hid & Hspeed).
  assert (Hrow : In m (active_methods_of_zone d (zone_of a))).
  { apply list_elem_of_In, list_elem_of_lookup. exists i. exact Hm. }
  unfold active_methods_of_zone in Hrow. apply filter_In in Hrow.
  destruct Hrow as [Hinm Hpm]. apply andb_true_iff in Hpm.
  destruct Hpm as [Hact Hzone]. apply String.eqb_eq in Hzone.
  destruct Hinv as (u' & _ & [= <-] & Hitems & Hne & _).
  subst items.
  set (plan :=
         {| pp_user_id := u;
            pp_items := load_cart d u;
            pp_order :=
              {| o_id := ids O; o_user_id := u; o_status := "placed";
                 o_subtotal_cents := reduce_subtotal (load_cart d u);
                 o_shipping_cents :=
                   place_shipping_cents m (active_methods_of_zone d (zone_of a))
                     (reduce_subtotal (load_cart d u));
                 o_tax_cents := 0;
                 o_total_cents :=
                   reduce_subtotal (load_cart d u)
                   + place_shipping_cents m (active_methods_of_zone d (zone_of a))
                       (reduce_subtotal (load_cart d u));
                 o_currency := "USD";
                 o_shipping_address_id := a_id a;
                 o_billing_address_id := a_id a;
                 o_shipping_method_id := sm_id m;
                 o_created_at := now; o_updated_at := now |};
            pp_method := m |}).
  assert (Hdec : place_decide d (Some u)
                   (Some {| pb_shipping_method_id := Some (so_id o);
                            pb_shipping_address_id := Some (a_id a);
                            pb_billing_address_id := None |}) now (ids O)
                 = inr plan).
  { unfold place_decide, checkoutPlaceSchema, nonempty.
    cbn [pb_shipping_method_id pb_shipping_address_id pb_billing_address_id].
    destruct (String.eqb_spec (so_id o) "") as [|_]; [contradiction|].
    destruct (String.eqb_spec (a_id a) "") as [|_]; [contradiction|].
    cbn [negb app pv_shipping_method_id pv_shipping_address_id].
    replace (length (load_cart d u) =? 0)%nat with false
      by (destruct (load_cart d u); [congruence|reflexivity]).
    cbv iota.
    rewrite (check_stock_accepts (load_cart d u) 0).
    2:{ intros line Hl. rewrite (line_available_of d u line Hl).
        apply Hfit, Hl. }
    rewrite (find_the_only _ (addresses d) a Ha).
    2:{ rewrite Hau, !String.eqb_refl. reflexivity. }
    2:{ intros y Hy Hp. apply andb_true_iff in Hp. destruct Hp as [Hp _].
        apply String.eqb_eq in Hp.
        apply (nodup_key_inj a_id (addresses d)); assumption. }
    rewrite (find_the_only _ (shipping_methods d) m Hinm).
    2:{ rewrite Hid, String.eqb_refl, Hact. reflexivity. }
    2:{ intros y Hy Hp. apply andb_true_iff in Hp. destruct Hp as [Hp _].
        apply String.eqb_eq in Hp.
        apply (nodup_key_inj sm_id (shipping_methods d)); try assumption.
        congruence. }
    rewrite Hzone, String.eqb_refl. reflexivity. }
  exists plan.
  rewrite (place_order_committed _ _ _ _ _ None _ Hdec).
  split; [reflexivity|]. split; [reflexivity|]. split; [reflexivity|].
  split; [symmetry; exact Hid|].
  intros Hexp. rewrite Hspeed in Hexp.
  destruct (non_express_same_cost _ (active_methods_of_zone d (zone_of a))
              (reduce_subtotal (load_cart d u)) i m Hm Hexp)
    as (o' & Ho' & _ & Hcost).
  rewrite Hi in Ho'. inversion Ho'; subst o'. symmetry. exact Hcost.
Qed.

Lemma offered_option_can_be_ordered_witness :
  exists plan,
    (place_order (Some "u1") demo_order_request "t1" demo_ids None demo_db).1
    = json (OrderPlaced (order_summary_of plan)) 200
    /\ os_shipping_cents (order_summary_of plan) = 150.
Proof.
  assert (Hndm : NoDup (map sm_id (shipping_methods demo_db))).
  { change (NoDup ["std"; "exp"]). constructor; [|apply NoDup_singleton].
    intros H. apply list_elem_of_In in H. destruct H as [H|[]]. discriminate. }
  destruct (offered_option_can_be_ordered demo_db "u1" "t1" demo_ids _ _ _ _ _ _
              (option_of_method 1500 (mk_method "std" "standard" 5000 None))
              (NoDup_singleton "a1") Hndm demo_summary_answer)
    as (plan & Hplace & _ & _ & _ & Hcost).
  - vm_compute. left. reflexivity.
  - discriminate.
  - discriminate.
  - intros line Hl.
    assert (Hcart : load_cart demo_db "u1"
                    = [ {| cl_product_id := "p1"; cl_qty := 3; cl_title := "Mug";
                           cl_price_cents := 500; cl_currency := "USD";
                           cl_stock := Some 5; cl_reserved := Some 0 |} ])
      by (vm_compute; reflexivity).
    rewrite Hcart in Hl. destruct Hl as [<-|[]].
    vm_compute. discriminate.
  - exists plan. split.
    + change (so_id (option_of_method 1500 (mk_method "std" "standard" 5000 None)))
        with "std" in Hplace.
      unfold demo_order_request, demo_place_body. rewrite Hplace. reflexivity.
    + rewrite Hcost; reflexivity.
Defined.

(** * Lowering a cart line *)




